(** * ODBCStatementImpl: a shallow embedding of Data/ODBC/src/ODBCStatementImpl.cpp

    The statement implementation is a class whose member functions mutate
    the object, call the ODBC driver, call back into the generic
    [StatementImpl] base class and throw C++ exceptions.  It is embedded as
    functions in a state-and-exception monad over a record holding the
    data members, the driver, the base class and the trace of driver calls
    issued by the member functions of this file. *)

From Stdlib Require Import ZArith Lia Bool Ascii String DecimalString.
From stdpp Require Import base list strings.

Local Open Scope Z_scope.

(** ** Driver return codes (sql.h) *)

Definition SQLRETURN := Z.

Definition SQL_SUCCESS : SQLRETURN := 0.
Definition SQL_SUCCESS_WITH_INFO : SQLRETURN := 1.
Definition SQL_STILL_EXECUTING : SQLRETURN := 2.
Definition SQL_NEED_DATA : SQLRETURN := 99.
Definition SQL_NO_DATA : SQLRETURN := 100.
Definition SQL_ERROR : SQLRETURN := -1.
Definition SQL_INVALID_HANDLE : SQLRETURN := -2.

(** The macro [SQL_SUCCEEDED(rc)] of sql.h: [(((rc)&(~1))==0)]. *)
Definition SQL_SUCCEEDED (rc : SQLRETURN) : bool :=
  Z.land rc (Z.lnot 1) =? 0.

(** Modelled from the spec: [Utility::isError] is declared in Utility.h,
    which is not part of this file.  The spec treats "success" and
    "succeeded with warning" as the only driver results that are not
    failures, so a return code is an error unless it is one of the two. *)
Definition isError (rc : SQLRETURN) : bool :=
  negb ((rc =? SQL_SUCCESS) || (rc =? SQL_SUCCESS_WITH_INFO)).

(** ** Machine integers *)

(** [static_cast<std::size_t>] on a 64-bit target. *)
Definition to_size_t (z : Z) : Z := z mod 2 ^ 64.

(** [static_cast<int>]: two's complement wrap-around to 32 bits. *)
Definition to_int (z : Z) : Z := (z + 2 ^ 31) mod 2 ^ 32 - 2 ^ 31.

(** [SQLSMALLINT] is a signed 16-bit integer. *)
Definition to_SQLSMALLINT (z : Z) : Z := (z + 2 ^ 15) mod 2 ^ 16 - 2 ^ 15.

(** ** Exceptions and outcomes *)

Inductive exn : Type :=
| ODBCException (msg : string)
| StatementException (msg : string)
| ConnectionException (msg : string)
| InvalidArgumentException (msg : string)
| IllegalStateException (msg : string)
| InvalidAccessException (msg : string)
| DataFormatException (msg : string)
| NotSupportedException (msg : string)
| BadCastException (msg : string)
| NotFoundException (msg : string)
| NullPointerException (msg : string)
| AssertionViolationException (msg : string)
| OtherException (msg : string).

(** What C++ leaves undefined (indexing a vector out of range) and loops
    that exceed the iteration bound of the model are kept apart from
    exceptions: no handler catches them. *)
Inductive fault : Type :=
| OutOfBounds
| OutOfFuel.

Inductive result (A : Type) : Type :=
| Ok (a : A)
| Throw (e : exn)
| Abort (f : fault).

Arguments Ok {A} a.
Arguments Throw {A} e.
Arguments Abort {A} f.

Definition is_DataFormatException (e : exn) : bool :=
  match e with DataFormatException _ => true | _ => false end.

Definition is_NotSupportedException (e : exn) : bool :=
  match e with NotSupportedException _ => true | _ => false end.

Definition is_BadCastException (e : exn) : bool :=
  match e with BadCastException _ => true | _ => false end.

(** ** Objects owned by the statement *)

Inductive DataExtraction : Type := DE_MANUAL | DE_BOUND.
Inductive ParameterBinding : Type := PB_IMMEDIATE | PB_AT_EXEC.

(** [Preparator]: the Preparation Context.  [prep_id] is the identity of
    the heap object created by [new]. *)
Record Preparator : Type := mkPreparator {
  prep_id : nat;
  prep_statement : string;
  prep_maxFieldSize : Z;
  prep_ext : DataExtraction
}.

(** [Extractor]: refers to the Preparator it was constructed with;
    [extr_resets] counts the calls of [reset()]. *)
Record Extractor : Type := mkExtractor {
  extr_id : nat;
  extr_preparator : nat;
  extr_dbEncoding : string;
  extr_toEncoding : string;
  extr_resets : nat
}.

Record Binder : Type := mkBinder {
  binder_id : nat;
  binder_maxFieldSize : Z;
  binder_mode : ParameterBinding;
  binder_typeInfo : option nat;
  binder_fromEncoding : string;
  binder_toEncoding : string
}.

(** [ODBCMetaColumn(_stmt, i)]: the descriptor of column [i]. *)
Record MetaColumn : Type := mkMetaColumn {
  col_position : nat;
  col_name : string
}.

(** An element of [_errorInfo]. *)
Record DiagRec : Type := mkDiagRec {
  diag_state : string;
  diag_native : Z;
  diag_text : string
}.

Definition emptyDiagRec : DiagRec := mkDiagRec "" 0 "".

(** [Poco::Any] as returned by [session().getProperty]. *)
Inductive Any : Type :=
| AnySizeT (n : Z)
| AnyInt (n : Z)
| AnyTypeInfo (p : option nat)
| AnyString (s : string)
| AnyEmpty.

(** ** Driver calls issued by the member functions of this file *)

Inductive StmtAttr : Type := SQL_ATTR_QUERY_TIMEOUT | SQL_ATTR_ROW_ARRAY_SIZE.

Inductive Call : Type :=
| CallSetStmtAttr (a : StmtAttr) (v : Z)
| CallGetDiagRec (i : Z)
| CallExecute
| CallExecDirect (q : string)
| CallParamData
| CallPutData (size : Z)
| CallFreeStmt
| CallMoreResults
| CallFetch
| CallNativeSql (buflen : Z)
| CallRowCount.

(** The driver behind the statement handle, as a state machine over its
    own state [D]. *)
Record Driver (D : Type) : Type := mkDriver {
  SQLSetStmtAttr : StmtAttr -> Z -> D -> SQLRETURN * D;
  (* reading a diagnostic record does not change the diagnostics *)
  SQLGetDiagRec : Z -> D -> SQLRETURN * DiagRec;
  SQLExecute : D -> SQLRETURN * D;
  SQLExecDirect : string -> D -> SQLRETURN * D;
  (* the return code and the parameter buffer, if one is identified *)
  SQLParamData : D -> SQLRETURN * option nat * D;
  SQLPutData : option nat -> Z -> D -> SQLRETURN * D;
  SQLFreeStmt : D -> SQLRETURN * D;
  SQLMoreResults : D -> SQLRETURN * D;
  SQLFetch : D -> SQLRETURN * D;
  (* the return code, the buffer contents and the required length *)
  SQLNativeSql : string -> Z -> D -> SQLRETURN * string * Z * D;
  SQLRowCount : D -> SQLRETURN * Z * D;
  (* [StatementError(_stmt).diagnostics()]: the SQL states on record *)
  diagnosticStates : D -> list string;
  (* [Preparator::columns()] of the current result set *)
  resultColumns : D -> nat;
  (* the constructor of [ODBCMetaColumn] describes a column or throws *)
  describeColumn : nat -> D -> result MetaColumn * D
}.

Arguments SQLSetStmtAttr {D} _ _ _ _.
Arguments SQLGetDiagRec {D} _ _ _.
Arguments SQLExecute {D} _ _.
Arguments SQLExecDirect {D} _ _ _.
Arguments SQLParamData {D} _ _.
Arguments SQLPutData {D} _ _ _ _.
Arguments SQLFreeStmt {D} _ _.
Arguments SQLMoreResults {D} _ _.
Arguments SQLFetch {D} _ _.
Arguments SQLNativeSql {D} _ _ _ _.
Arguments SQLRowCount {D} _ _.
Arguments diagnosticStates {D} _ _.
Arguments resultColumns {D} _ _.
Arguments describeColumn {D} _ _ _.

(** ** The caller's bindings and the [StatementImpl] base class

    Both live outside this file.  [B] is the state of the base class
    together with the caller's variables. *)

Record AbstractExtraction (D B : Type) : Type := mkExtraction {
  isBulk : bool;
  ex_numOfColumnsHandled : nat;
  (* [extract(pos)]: the number of rows extracted *)
  extract : nat -> D * B -> result Z * (D * B);
  (* [createPreparation(pP, pos)->prepare()] *)
  prepare : Preparator -> nat -> D * B -> result unit * (D * B)
}.

Arguments isBulk {D B} _.
Arguments ex_numOfColumnsHandled {D B} _.
Arguments extract {D B} _ _ _.
Arguments prepare {D B} _ _ _ _.

Record AbstractBinding (D B : Type) : Type := mkBinding {
  ab_canBind : B -> bool;
  ab_numOfColumnsHandled : nat;
  ab_numOfRowsHandled : B -> Z;
  ab_bind : nat -> D * B -> result unit * (D * B)
}.

Arguments ab_canBind {D B} _ _.
Arguments ab_numOfColumnsHandled {D B} _.
Arguments ab_numOfRowsHandled {D B} _ _.
Arguments ab_bind {D B} _ _ _.

Record StatementImpl (D B : Type) : Type := mkStatementImpl {
  toString : B -> string;
  getFeature : string -> B -> bool;
  getProperty : string -> B -> result Any;
  currentDataSet : B -> nat;
  extractions : B -> list (AbstractExtraction D B);
  bindings : B -> list (AbstractBinding D B);
  getExtractionLimit : B -> Z;
  LIMIT_UNLIMITED : Z;
  hasMoreDataSets : B -> bool;
  activateNextDataSet : B -> result nat * B;
  (* [fixupExtraction] hands the current [extractor()] to the extractions *)
  fixupExtraction : option Extractor -> B -> result unit * B;
  (* [makeExtractors(count)] reads the column descriptors via [metaColumn] *)
  makeExtractors : nat -> list MetaColumn -> B -> result unit * B;
  (* [_pBinder->synchronize()] *)
  synchronize : D * B -> result unit * (D * B);
  (* [_pBinder->parameterSize(pParam)] *)
  parameterSize : nat -> B -> Z;
  (* the registry behind [TextEncoding::find] *)
  findEncoding : string -> option string;
  (* [Poco::format(fmt, value)] of Poco/Format.h, with one argument *)
  format : string -> Z -> string
}.

Arguments toString {D B} _ _.
Arguments getFeature {D B} _ _ _.
Arguments getProperty {D B} _ _ _.
Arguments currentDataSet {D B} _ _.
Arguments extractions {D B} _ _.
Arguments bindings {D B} _ _.
Arguments getExtractionLimit {D B} _ _.
Arguments LIMIT_UNLIMITED {D B} _.
Arguments hasMoreDataSets {D B} _ _.
Arguments activateNextDataSet {D B} _ _.
Arguments fixupExtraction {D B} _ _ _.
Arguments makeExtractors {D B} _ _ _ _.
Arguments synchronize {D B} _ _.
Arguments parameterSize {D B} _ _ _.
Arguments findEncoding {D B} _ _.
Arguments format {D B} _ _ _.

(** ** The statement object *)

Record Stmt (D B : Type) : Type := mkStmt {
  _preparations : list Preparator;
  _pBinder : option Binder;
  _extractors : list Extractor;
  _stepCalled : bool;
  _nextResponse : Z;
  _columnPtrs : list (list MetaColumn);
  _prepared : bool;
  _affectedRowCount : Z;
  _canCompile : bool;
  _errorInfo : list DiagRec;
  (* the next identity handed out by [new] *)
  heapNext : nat;
  (* the driver behind [_stmt], and the driver calls issued so far *)
  driver : D;
  calls : list Call;
  (* the base class and the caller's variables *)
  base : B
}.

Arguments mkStmt {D B}.
Arguments _preparations {D B} _.
Arguments _pBinder {D B} _.
Arguments _extractors {D B} _.
Arguments _stepCalled {D B} _.
Arguments _nextResponse {D B} _.
Arguments _columnPtrs {D B} _.
Arguments _prepared {D B} _.
Arguments _affectedRowCount {D B} _.
Arguments _canCompile {D B} _.
Arguments _errorInfo {D B} _.
Arguments heapNext {D B} _.
Arguments driver {D B} _.
Arguments calls {D B} _.
Arguments base {D B} _.

Section Setters.
Context {D B : Type}.
Implicit Type s : Stmt D B.

Definition set_preparations (v : list Preparator) s : Stmt D B :=
  mkStmt v (_pBinder s) (_extractors s) (_stepCalled s) (_nextResponse s)
    (_columnPtrs s) (_prepared s) (_affectedRowCount s) (_canCompile s)
    (_errorInfo s) (heapNext s) (driver s) (calls s) (base s).

Definition set_pBinder (v : option Binder) s : Stmt D B :=
  mkStmt (_preparations s) v (_extractors s) (_stepCalled s) (_nextResponse s)
    (_columnPtrs s) (_prepared s) (_affectedRowCount s) (_canCompile s)
    (_errorInfo s) (heapNext s) (driver s) (calls s) (base s).

Definition set_extractors (v : list Extractor) s : Stmt D B :=
  mkStmt (_preparations s) (_pBinder s) v (_stepCalled s) (_nextResponse s)
    (_columnPtrs s) (_prepared s) (_affectedRowCount s) (_canCompile s)
    (_errorInfo s) (heapNext s) (driver s) (calls s) (base s).

Definition set_stepCalled (v : bool) s : Stmt D B :=
  mkStmt (_preparations s) (_pBinder s) (_extractors s) v (_nextResponse s)
    (_columnPtrs s) (_prepared s) (_affectedRowCount s) (_canCompile s)
    (_errorInfo s) (heapNext s) (driver s) (calls s) (base s).

Definition set_nextResponse (v : Z) s : Stmt D B :=
  mkStmt (_preparations s) (_pBinder s) (_extractors s) (_stepCalled s) v
    (_columnPtrs s) (_prepared s) (_affectedRowCount s) (_canCompile s)
    (_errorInfo s) (heapNext s) (driver s) (calls s) (base s).

Definition set_columnPtrs (v : list (list MetaColumn)) s : Stmt D B :=
  mkStmt (_preparations s) (_pBinder s) (_extractors s) (_stepCalled s)
    (_nextResponse s) v (_prepared s) (_affectedRowCount s) (_canCompile s)
    (_errorInfo s) (heapNext s) (driver s) (calls s) (base s).

Definition set_prepared (v : bool) s : Stmt D B :=
  mkStmt (_preparations s) (_pBinder s) (_extractors s) (_stepCalled s)
    (_nextResponse s) (_columnPtrs s) v (_affectedRowCount s) (_canCompile s)
    (_errorInfo s) (heapNext s) (driver s) (calls s) (base s).

Definition set_affectedRowCount (v : Z) s : Stmt D B :=
  mkStmt (_preparations s) (_pBinder s) (_extractors s) (_stepCalled s)
    (_nextResponse s) (_columnPtrs s) (_prepared s) v (_canCompile s)
    (_errorInfo s) (heapNext s) (driver s) (calls s) (base s).

Definition set_canCompile (v : bool) s : Stmt D B :=
  mkStmt (_preparations s) (_pBinder s) (_extractors s) (_stepCalled s)
    (_nextResponse s) (_columnPtrs s) (_prepared s) (_affectedRowCount s) v
    (_errorInfo s) (heapNext s) (driver s) (calls s) (base s).

Definition set_errorInfo (v : list DiagRec) s : Stmt D B :=
  mkStmt (_preparations s) (_pBinder s) (_extractors s) (_stepCalled s)
    (_nextResponse s) (_columnPtrs s) (_prepared s) (_affectedRowCount s)
    (_canCompile s) v (heapNext s) (driver s) (calls s) (base s).

Definition set_heapNext (v : nat) s : Stmt D B :=
  mkStmt (_preparations s) (_pBinder s) (_extractors s) (_stepCalled s)
    (_nextResponse s) (_columnPtrs s) (_prepared s) (_affectedRowCount s)
    (_canCompile s) (_errorInfo s) v (driver s) (calls s) (base s).

Definition set_driver (v : D) s : Stmt D B :=
  mkStmt (_preparations s) (_pBinder s) (_extractors s) (_stepCalled s)
    (_nextResponse s) (_columnPtrs s) (_prepared s) (_affectedRowCount s)
    (_canCompile s) (_errorInfo s) (heapNext s) v (calls s) (base s).

Definition set_calls (v : list Call) s : Stmt D B :=
  mkStmt (_preparations s) (_pBinder s) (_extractors s) (_stepCalled s)
    (_nextResponse s) (_columnPtrs s) (_prepared s) (_affectedRowCount s)
    (_canCompile s) (_errorInfo s) (heapNext s) (driver s) v (base s).

Definition set_base (v : B) s : Stmt D B :=
  mkStmt (_preparations s) (_pBinder s) (_extractors s) (_stepCalled s)
    (_nextResponse s) (_columnPtrs s) (_prepared s) (_affectedRowCount s)
    (_canCompile s) (_errorInfo s) (heapNext s) (driver s) (calls s) v.

End Setters.

(** ** The monad of member functions: state and exceptions

    A member function maps the object to an outcome and the object as the
    call leaves it; an exception keeps the mutations made before the
    [throw]. *)

Definition M (D B A : Type) : Type := Stmt D B -> result A * Stmt D B.

Section Monad.
Context {D B : Type}.

Definition ret {A} (a : A) : M D B A := fun s => (Ok a, s).

Definition bind {A C} (m : M D B A) (k : A -> M D B C) : M D B C :=
  fun s =>
    match m s with
    | (Ok a, s') => k a s'
    | (Throw e, s') => (Throw e, s')
    | (Abort f, s') => (Abort f, s')
    end.

Definition throw {A} (e : exn) : M D B A := fun s => (Throw e, s).
Definition abort {A} (f : fault) : M D B A := fun s => (Abort f, s).

Definition gets {A} (f : Stmt D B -> A) : M D B A := fun s => (Ok (f s), s).
Definition modify (f : Stmt D B -> Stmt D B) : M D B unit :=
  fun s => (Ok tt, f s).

(** [try { m } catch (E&) { h }] where [handles] recognises [E]. *)
Definition try_catch {A} (m : M D B A) (handles : exn -> bool)
    (h : exn -> M D B A) : M D B A :=
  fun s =>
    match m s with
    | (Throw e, s') => if handles e then h e s' else (Throw e, s')
    | r => r
    end.

Definition when (b : bool) (m : M D B unit) : M D B unit :=
  if b then m else ret tt.

(** A call of the driver: run it on the driver state and record it. *)
Definition driverCall {A} (c : Call) (f : D -> A * D) : M D B A :=
  fun s =>
    let '(a, d) := f (driver s) in
    (Ok a, set_calls (calls s ++ [c]) (set_driver d s)).

(** A call into a binding or the binder, which may use the driver and the
    caller's variables. *)
Definition externCall {A} (f : D * B -> result A * (D * B)) : M D B A :=
  fun s =>
    let '(r, (d, b)) := f (driver s, base s) in
    (r, set_base b (set_driver d s)).

(** A call into the base class. *)
Definition baseCall {A} (f : B -> result A * B) : M D B A :=
  fun s => let '(r, b) := f (base s) in (r, set_base b s).

(** [new]: a fresh object identity. *)
Definition new : M D B nat :=
  fun s => (Ok (heapNext s), set_heapNext (S (heapNext s)) s).

Definition lift {A} (r : result A) : M D B A := fun s => (r, s).

(** [v[i]] on a [std::vector]: undefined out of range. *)
Definition index {A} (l : list A) (i : nat) : M D B A :=
  match l !! i with
  | Some a => ret a
  | None => abort OutOfBounds
  end.

(** Modelled from the spec: [p->] on a [Poco::SharedPtr], which is declared
    in Poco/SharedPtr.h and not part of this file.  The spec has the
    Parameter Binder constructed by [compile]; until then the pointer holds
    no object, and dereferencing it raises [NullPointerException]. *)
Definition deref {A} (p : option A) : M D B A :=
  match p with
  | Some a => ret a
  | None => throw (NullPointerException "")
  end.

End Monad.

Notation "'let*' x := m 'in' k" := (bind m (fun x => k))
  (at level 10, x pattern, m at level 100, k at level 200).
Notation "'run' m 'in' k" := (bind m (fun _ => k))
  (at level 10, m at level 100, k at level 200).

(** ** Text helpers *)

Definition nl : string := String (ascii_of_nat 10) EmptyString.

(** Modelled from the spec: [trimInPlace] comes from Poco/String.h, which
    is not part of this file; the spec speaks of the "trimmed statement
    text".  White space is the ASCII space and the control characters
    9 to 13. *)
Definition isSpace (c : ascii) : bool :=
  let n := nat_of_ascii c in
  (Nat.eqb n 32 || (Nat.leb 9 n && Nat.leb n 13))%bool.

Fixpoint trimLeft (l : list ascii) : list ascii :=
  match l with
  | c :: l' => if isSpace c then trimLeft l' else l
  | [] => []
  end.

Definition trimInPlace (str : string) : string :=
  string_of_list_ascii
    (rev (trimLeft (rev (trimLeft (list_ascii_of_string str))))).

Definition INVALID_CURSOR_STATE : string := "24000".

(** ** The member functions *)

Section ODBCStatementImpl.
Context {D B : Type}.
Variable drv : Driver D.
Variable sup : StatementImpl D B.
(** Bound on the iterations of the loops whose exit the driver decides. *)
Variable fuel : nat.

Local Abbreviation St := (Stmt D B).
Local Abbreviation Mon := (M D B).

(** Modelled from the spec: [columnsReturned], [hasData] and
    [nextRowReady] are defined in ODBCStatementImpl.h, which is not part
    of this file.  The statement "has pending data" when the current
    result set has columns, and a row is ready when the last fetch
    response is not an error. *)
Definition columnsReturned (s : St) : nat := resultColumns drv (driver s).

Definition hasData (s : St) : bool := Nat.ltb 0 (columnsReturned s).

Definition nextRowReady (s : St) : bool := negb (isError (_nextResponse s)).

(** The constructor: the flags start cleared and the statement can be
    compiled; a query timeout of the session is handed to the driver. *)
Definition construct (d : D) (b : B) (queryTimeout : Z) : result unit * St :=
  let s := mkStmt [] None [] false 0 [] false 0 true [] O d [] b in
  if 0 <=? queryTimeout then
    (let* rc := driverCall (CallSetStmtAttr SQL_ATTR_QUERY_TIMEOUT queryTimeout)
                  (SQLSetStmtAttr drv SQL_ATTR_QUERY_TIMEOUT queryTimeout) in
     if isError rc
     then throw (ConnectionException
                   (format sup "SQLSetStmtAttr(SQL_ATTR_QUERY_TIMEOUT, %d)"
                      queryTimeout))
     else ret tt) s
  else (Ok tt, s).

(** [_errorInfo.back()] overwritten by the driver. *)
Definition set_back {A} (a : A) (l : list A) : list A :=
  match l with
  | [] => []
  | _ => removelast l ++ [a]
  end.

Fixpoint addErrors_loop (n : nat) (i : Z) : Mon unit :=
  match n with
  | O => abort OutOfFuel
  | S n' =>
      run modify (fun s => set_errorInfo (_errorInfo s ++ [emptyDiagRec]) s) in
      let i' := to_SQLSMALLINT (i + 1) in
      let* (rc, rec) :=
        driverCall (CallGetDiagRec i') (fun d => (SQLGetDiagRec drv i' d, d)) in
      run modify (fun s => set_errorInfo (set_back rec (_errorInfo s)) s) in
      let* size := gets (fun s => length (_errorInfo s)) in
      run when (negb (SQL_SUCCEEDED rc) && negb (Nat.eqb size 0))
            (modify (fun s => set_errorInfo (removelast (_errorInfo s)) s)) in
      if rc =? SQL_SUCCESS then addErrors_loop n' i' else ret tt
  end.

Definition addErrors : Mon unit := addErrors_loop fuel 0.

Fixpoint nativeSQL_loop (n : nat) (statement : string) (retlen : Z)
    : Mon string :=
  match n with
  | O => abort OutOfFuel
  | S n' =>
      let length := retlen in
      let* (rc, pNative, retlen') :=
        driverCall (CallNativeSql length) (SQLNativeSql drv statement length) in
      if isError rc then throw (ConnectionException "SQLNativeSql()")
      else
        let retlen := to_int (retlen' + 1) in
        if length <? retlen then nativeSQL_loop n' statement retlen
        else ret pNative
  end.

Definition nativeSQL : Mon string :=
  let* statement := gets (fun s => toString sup (base s)) in
  let length := to_int (Z.of_nat (String.length statement) * 2) in
  nativeSQL_loop fuel statement length.

Definition checkError (rc : SQLRETURN) (msg : string) : Mon unit :=
  if rc =? SQL_NO_DATA then ret tt
  else if isError rc then
    let* text := gets (fun s => toString sup (base s)) in
    let* native := nativeSQL in
    throw (StatementException
             (msg +:+ nl +:+ "Requested SQL statement: " +:+ text +:+ nl +:+
              "Native SQL statement: " +:+ native +:+ nl))
  else if rc =? SQL_SUCCESS_WITH_INFO then addErrors
  else ret tt.

Definition clear : Mon unit :=
  run modify (set_stepCalled false) in
  run modify (set_affectedRowCount 0) in
  run modify (set_errorInfo []) in
  let* rc := driverCall CallFreeStmt (SQLFreeStmt drv) in
  if isError rc
  then throw (StatementException
                "ODBCStatementImpl::putData():SQLFreeStmt(SQL_CLOSE)")
  else ret tt.

Definition affectedRowCount : Mon Z :=
  let* cached := gets _affectedRowCount in
  run when (0 =? cached)
        (let* (rc, rows) := driverCall CallRowCount (SQLRowCount drv) in
         when (negb (isError rc))
           (modify (set_affectedRowCount (to_size_t rows)))) in
  let* cached := gets _affectedRowCount in
  ret (to_int cached).

(** [AnyCast<std::size_t>(getProperty("maxFieldSize"))], falling back to
    [AnyCast<int>] when the first cast throws [BadCastException]. *)
Definition castSizeT (a : Any) : Mon Z :=
  match a with
  | AnySizeT n => ret n
  | _ => throw (BadCastException "Failed to convert between Any types")
  end.

Definition castInt (a : Any) : Mon Z :=
  match a with
  | AnyInt n => ret (to_size_t n)
  | _ => throw (BadCastException "Failed to convert between Any types")
  end.

Definition castString (a : Any) : Mon string :=
  match a with
  | AnyString str => ret str
  | _ => throw (BadCastException "RefAnyCast: Failed to convert between Any types")
  end.

Definition castTypeInfo (a : Any) : Mon (option nat) :=
  match a with
  | AnyTypeInfo p => ret p
  | _ => throw (BadCastException "Failed to convert between Any types")
  end.

Definition property (name : string) : Mon Any :=
  fun s => (getProperty sup name (base s), s).

Definition maxFieldSizeProperty : Mon Z :=
  try_catch
    (let* a := property "maxFieldSize" in castSizeT a)
    is_BadCastException
    (fun _ => let* a := property "maxFieldSize" in castInt a).

Definition TextEncoding_find (name : string) : Mon string :=
  match findEncoding sup name with
  | Some e => ret e
  | None => throw (NotFoundException name)
  end.

Definition addPreparator : Mon unit :=
  let* preps := gets _preparations in
  run (if Nat.eqb 0 (length preps) then
         let* statement := gets (fun s => toString sup (base s)) in
         if Nat.eqb (String.length statement) 0
         then throw (ODBCException "Empty statements are illegal")
         else
           let* autoExtract := gets (fun s => getFeature sup "autoExtract" (base s)) in
           let ext := if autoExtract then DE_BOUND else DE_MANUAL in
           let* maxFieldSize := maxFieldSizeProperty in
           let* id := new in
           modify (fun s => set_preparations
             (_preparations s ++ [mkPreparator id statement maxFieldSize ext]) s)
       else
         let* master := index preps 0 in
         let* id := new in
         modify (fun s => set_preparations
           (_preparations s ++
            [mkPreparator id (prep_statement master) (prep_maxFieldSize master)
               (prep_ext master)]) s)) in
  let* preps := gets _preparations in
  let* back := index preps (length preps - 1) in
  let* dbEncoding := (let* a := property "dbEncoding" in castString a) in
  let* from := TextEncoding_find dbEncoding in
  let* to := TextEncoding_find "UTF-8" in
  let* id := new in
  modify (fun s => set_extractors
    (_extractors s ++ [mkExtractor id (prep_id back) from to 0]) s).

Fixpoint fillColumns_loop (curDataSet : nat) (remaining i : nat) : Mon unit :=
  match remaining with
  | O => ret tt
  | S remaining' =>
      let* col := externCall (fun '(d, b) =>
        let '(r, d') := describeColumn drv i d in (r, (d', b))) in
      run modify (fun s => set_columnPtrs
            (alter (fun cols => cols ++ [col]) curDataSet (_columnPtrs s)) s) in
      fillColumns_loop curDataSet remaining' (S i)
  end.

Definition fillColumns : Mon unit :=
  let* colCount := gets columnsReturned in
  let* curDataSet := gets (fun s => currentDataSet sup (base s)) in
  let* size := gets (fun s => length (_columnPtrs s)) in
  run when (Nat.leb size curDataSet)
        (modify (fun s => set_columnPtrs
                   (resize (S curDataSet) [] (_columnPtrs s)) s)) in
  fillColumns_loop curDataSet colCount 0.

Definition isStoredProcedure (s : St) : bool :=
  let str := trimInPlace (toString sup (base s)) in
  if Nat.ltb (String.length str) 2 then false
  else
    match String.get 0 str, String.get (String.length str - 1) str with
    | Some first, Some last =>
        Ascii.eqb "{" first && Ascii.eqb "}" last
    | _, _ => false
    end.

Definition makeInternalExtractors : Mon unit :=
  let* data := gets hasData in
  let* extracts := gets (fun s => extractions sup (base s)) in
  if data && Nat.eqb (length extracts) 0 then
    let* filled :=
      try_catch (run fillColumns in ret true)
        is_DataFormatException
        (fun e =>
           let* sp := gets isStoredProcedure in
           if sp then ret false else throw e) in
    if filled then
      let* count := gets columnsReturned in
      let* cur := gets (fun s => currentDataSet sup (base s)) in
      let* cols := gets (fun s => default [] (_columnPtrs s !! cur)) in
      run baseCall (makeExtractors sup count cols) in
      let* extractor := gets (fun s => _extractors s !! cur) in
      baseCall (fixupExtraction sup extractor)
    else ret tt
  else ret tt.

Fixpoint doPrepare_loop (pP : Preparator)
    (it : list (AbstractExtraction D B)) (pos : nat) : Mon unit :=
  match it with
  | [] => ret tt
  | e :: it' =>
      run externCall (prepare e pP pos) in
      doPrepare_loop pP it' (pos + ex_numOfColumnsHandled e)
  end.

Definition doPrepare : Mon unit :=
  let* autoExtract := gets (fun s => getFeature sup "autoExtract" (base s)) in
  let* data := gets hasData in
  if autoExtract && data then
    let* curDataSet := gets (fun s => currentDataSet sup (base s)) in
    let* preps := gets _preparations in
    let* pP := index preps curDataSet in
    let* extracts := gets (fun s => extractions sup (base s)) in
    run match extracts with
        | e :: _ =>
            if isBulk e then
              let* limit := gets (fun s => getExtractionLimit sup (base s)) in
              if limit =? LIMIT_UNLIMITED sup
              then throw (InvalidArgumentException
                            "Bulk operation not allowed without limit.")
              else
                let* rc := driverCall (CallSetStmtAttr SQL_ATTR_ROW_ARRAY_SIZE limit)
                             (SQLSetStmtAttr drv SQL_ATTR_ROW_ARRAY_SIZE limit) in
                checkError rc "SQLSetStmtAttr(SQL_ATTR_ROW_ARRAY_SIZE)"
            else ret tt
        | [] => ret tt
        end in
    run doPrepare_loop pP extracts 0 in
    modify (set_prepared true)
  else ret tt.

Definition canBind (s : St) : bool :=
  match bindings sup (base s) with
  | b :: _ => ab_canBind b (base s)
  | [] => false
  end.

Fixpoint doBind_loop (it : list (AbstractBinding D B)) (pos : nat) : Mon unit :=
  match it with
  | [] => ret tt
  | b :: it' =>
      let* can := gets (fun s => ab_canBind b (base s)) in
      if can then
        run externCall (ab_bind b pos) in
        doBind_loop it' (pos + ab_numOfColumnsHandled b)
      else ret tt
  end.

Definition doBind : Mon unit :=
  run clear in
  let* binds := gets (fun s => bindings sup (base s)) in
  match binds with
  | [] => ret tt
  | first :: _ =>
      let* cached := gets _affectedRowCount in
      run when (0 =? cached)
            (let* rows := gets (fun s => ab_numOfRowsHandled first (base s)) in
             modify (set_affectedRowCount (to_size_t rows))) in
      doBind_loop binds 0
  end.

(** [_pBinder->]: the Binder behind the pointer. *)
Definition pBinder : Mon Binder :=
  let* p := gets _pBinder in deref p.

Fixpoint putData_loop (n : nat) : Mon unit :=
  match n with
  | O => abort OutOfFuel
  | S n' =>
      let* (rc, pParam) := driverCall CallParamData (SQLParamData drv) in
      if rc =? SQL_NEED_DATA then
        let* dataSize :=
          match pParam with
          | Some p =>
              run pBinder in
              gets (fun s => to_int (parameterSize sup p (base s)))
          | None => ret 0
          end in
        let* rc' := driverCall (CallPutData dataSize)
                      (SQLPutData drv pParam dataSize) in
        if isError rc'
        then throw (StatementException
                      "ODBCStatementImpl::putData():SQLPutData()")
        else putData_loop n'
      else checkError rc "SQLParamData()"
  end.

Definition putData : Mon unit := putData_loop fuel.

Definition bindImpl : Mon unit :=
  run doBind in
  let* rc := driverCall CallExecute (SQLExecute drv) in
  run (if SQL_NEED_DATA =? rc then putData
       else checkError rc "ODBCStatementImpl::bindImpl():SQLExecute()") in
  run pBinder in
  externCall (synchronize sup).

Definition execDirectImpl (query : string) : Mon unit :=
  let* rc := driverCall (CallExecDirect query) (SQLExecDirect drv query) in
  checkError rc "SQLExecute()".

Definition reset (e : Extractor) : Extractor :=
  mkExtractor (extr_id e) (extr_preparator e) (extr_dbEncoding e)
    (extr_toEncoding e) (S (extr_resets e)).

Definition makeStep : Mon unit :=
  let* cur := gets (fun s => currentDataSet sup (base s)) in
  let* extrs := gets _extractors in
  let* e := index extrs cur in
  run modify (fun s => set_extractors (<[cur := reset e]> (_extractors s)) s) in
  let* rc := driverCall CallFetch (SQLFetch drv) in
  run modify (set_nextResponse rc) in
  run when (isError rc)
        (let* sd := gets (fun s => diagnosticStates drv (driver s)) in
         when (existsb (String.eqb INVALID_CURSOR_STATE) sd)
           (let* rc' := driverCall CallMoreResults (SQLMoreResults drv) in
            modify (set_nextResponse rc'))) in
  let* response := gets _nextResponse in
  run checkError response "" in
  modify (set_stepCalled true).

Definition hasNext : Mon bool :=
  let* data := gets hasData in
  if data then
    let* extracts := gets (fun s => extractions sup (base s)) in
    run when (Nat.eqb (length extracts) 0) makeInternalExtractors in
    let* prepared := gets _prepared in
    run when (negb prepared) doPrepare in
    let* stepCalled := gets _stepCalled in
    if stepCalled then
      let* ready := gets nextRowReady in
      run modify (set_stepCalled ready) in
      ret ready
    else
      run makeStep in
      let* ready := gets nextRowReady in
      if negb ready then
        let* more := gets (fun s => hasMoreDataSets sup (base s)) in
        if more then
          run baseCall (activateNextDataSet sup) in
          let* rc := driverCall CallMoreResults (SQLMoreResults drv) in
          if SQL_NO_DATA =? rc then ret false
          else
            run addPreparator in
            run doPrepare in
            let* cur := gets (fun s => currentDataSet sup (base s)) in
            let* extractor := gets (fun s => _extractors s !! cur) in
            run baseCall (fixupExtraction sup extractor) in
            run makeStep in
            ret true
        else ret false
      else
        let* response := gets _nextResponse in
        run when (isError response) (checkError response "SQLFetch()") in
        ret true
  else ret false.

Fixpoint next_loop (it : list (AbstractExtraction D B))
    (pos : nat) (prevCount count : Z) : Mon Z :=
  match it with
  | [] => ret count
  | e :: it' =>
      let* count := externCall (extract e pos) in
      if negb (prevCount =? 0) && negb (count =? prevCount)
      then throw (IllegalStateException "Different extraction counts")
      else next_loop it' (pos + ex_numOfColumnsHandled e) count count
  end.

Definition next : Mon Z :=
  let* ready := gets nextRowReady in
  if ready then
    let* extracts := gets (fun s => extractions sup (base s)) in
    if Nat.eqb (length extracts) 0
    then throw (AssertionViolationException "extracts.size()")
    else
      let* count := next_loop extracts 0 0 0 in
      run modify (set_stepCalled false) in
      ret count
  else
    throw (StatementException
             "ODBCStatementImpl::next():Next row not available.").

Definition metaColumn (pos : nat) : Mon MetaColumn :=
  let* curDataSet := gets (fun s => currentDataSet sup (base s)) in
  let* cols := gets (fun s => _columnPtrs s !! curDataSet) in
  match cols with
  | Some cols =>
      let sz := length cols in
      if Nat.eqb 0 sz || Nat.ltb (sz - 1) pos
      then throw (InvalidAccessException
                    (format sup "Invalid column number: %u" (Z.of_nat pos)))
      else index cols pos
  | None => throw (IllegalStateException "currentDataSet index out of range")
  end.

Definition compileImpl : Mon unit :=
  let* canCompile := gets _canCompile in
  if negb canCompile then ret tt
  else
    run modify (set_stepCalled false) in
    run modify (set_nextResponse 0) in
    let* preps := gets _preparations in
    run when (negb (Nat.eqb (length preps) 0)) (modify (set_preparations [])) in
    run addPreparator in
    let* autoBind := gets (fun s => getFeature sup "autoBind" (base s)) in
    let mode := if autoBind then PB_IMMEDIATE else PB_AT_EXEC in
    let* pDT :=
      try_catch (let* dti := property "dataTypeInfo" in castTypeInfo dti)
        is_NotSupportedException (fun _ => ret None) in
    let* maxFieldSize := maxFieldSizeProperty in
    let* utf8 := TextEncoding_find "UTF-8" in
    let* dbEncoding := (let* a := property "dbEncoding" in castString a) in
    let* to := TextEncoding_find dbEncoding in
    let* id := new in
    run modify (set_pBinder (Some (mkBinder id maxFieldSize mode pDT utf8 to))) in
    run makeInternalExtractors in
    run doPrepare in
    modify (set_canCompile false).

End ODBCStatementImpl.

(** ** A scripted driver and session

    A driver that answers from a script and a session with fixed
    bindings: the member functions run on them by computation. *)

Module Scripted.

Record DriverState : Type := mkDriverState {
  (* answers of the successive fetches, [SQL_NO_DATA] once exhausted *)
  fetchResults : list SQLRETURN;
  (* answers of the successive more-results calls, likewise *)
  moreResults : list SQLRETURN;
  freeStmtResult : SQLRETURN;
  rowCountResult : SQLRETURN * Z;
  (* record [i] at position [i - 1], [SQL_NO_DATA] beyond the last one *)
  diagRecords : list (SQLRETURN * DiagRec);
  columnCount : nat;
  (* describing a column raises a format error *)
  columnFormatError : bool
}.

Definition popFetch (d : DriverState) : SQLRETURN * DriverState :=
  match fetchResults d with
  | [] => (SQL_NO_DATA, d)
  | rc :: rest =>
      (rc, mkDriverState rest (moreResults d) (freeStmtResult d)
             (rowCountResult d) (diagRecords d) (columnCount d)
             (columnFormatError d))
  end.

Definition popMoreResults (d : DriverState) : SQLRETURN * DriverState :=
  match moreResults d with
  | [] => (SQL_NO_DATA, d)
  | rc :: rest =>
      (rc, mkDriverState (fetchResults d) rest (freeStmtResult d)
             (rowCountResult d) (diagRecords d) (columnCount d)
             (columnFormatError d))
  end.

Definition getDiagRec (i : Z) (d : DriverState) : SQLRETURN * DiagRec :=
  if i <=? 0 then (SQL_ERROR, emptyDiagRec)
  else default (SQL_NO_DATA, emptyDiagRec) (diagRecords d !! Z.to_nat (i - 1)).

Definition scriptedDriver : Driver DriverState :=
  mkDriver DriverState
    (fun _ _ d => (SQL_SUCCESS, d))
    getDiagRec
    (fun d => (SQL_SUCCESS, d))
    (fun _ d => (SQL_SUCCESS, d))
    (fun d => (SQL_SUCCESS, None, d))
    (fun _ _ d => (SQL_SUCCESS, d))
    (fun d => (freeStmtResult d, d))
    popMoreResults
    popFetch
    (fun statement _ d =>
       (SQL_SUCCESS, statement, Z.of_nat (String.length statement), d))
    (fun d => (rowCountResult d, d))
    (fun d => map (fun r => diag_state (snd r)) (diagRecords d))
    columnCount
    (fun i d =>
       if columnFormatError d
       then (Throw (DataFormatException "unsupported column type"), d)
       else (Ok (mkMetaColumn i ""), d)).

Record Session : Type := mkSession {
  text : string;
  autoExtract : bool;
  autoBind : bool;
  dataSet : nat;
  dataSetCount : nat;
  (* the row count each output binding reports from [extract] *)
  extractionCounts : list Z;
  bulk : bool;
  limit : Z;
  (* the rows handled by each input binding *)
  bindingRows : list Z;
  (* the column preparations made so far: the identity of the Preparation
     Context and the position *)
  preparedColumns : list (nat * nat)
}.

Definition set_dataSet (n : nat) (b : Session) : Session :=
  mkSession (text b) (autoExtract b) (autoBind b) n (dataSetCount b)
    (extractionCounts b) (bulk b) (limit b) (bindingRows b)
    (preparedColumns b).

Definition set_extractionCounts (l : list Z) (b : Session) : Session :=
  mkSession (text b) (autoExtract b) (autoBind b) (dataSet b) (dataSetCount b)
    l (bulk b) (limit b) (bindingRows b) (preparedColumns b).

Definition set_preparedColumns (l : list (nat * nat)) (b : Session) : Session :=
  mkSession (text b) (autoExtract b) (autoBind b) (dataSet b) (dataSetCount b)
    (extractionCounts b) (bulk b) (limit b) (bindingRows b) l.

(** An output binding of one column that reports [count] rows from
    [extract] and whose preparation is put on record. *)
Definition reporting (isBulk : bool) (count : Z)
    : AbstractExtraction DriverState Session :=
  mkExtraction DriverState Session isBulk 1
    (fun _ w => (Ok count, w))
    (fun pP pos '(d, b) =>
       (Ok tt,
        (d, set_preparedColumns (preparedColumns b ++ [(prep_id pP, pos)]) b))).

(** A formatter with one argument: the first conversion of the format, the
    percent sign and the letter behind it, is replaced by the number in
    decimal. *)
Fixpoint substitute (arg fmt : string) : string :=
  match fmt with
  | String "%"%char (String _ rest) => arg +:+ rest
  | String c rest => String c (substitute arg rest)
  | EmptyString => EmptyString
  end.

Definition decimal (z : Z) : string := NilZero.string_of_int (Z.to_int z).

Definition handling (rows : Z) : AbstractBinding DriverState Session :=
  mkBinding DriverState Session (fun _ => true) 1 (fun _ => rows)
    (fun _ w => (Ok tt, w)).

Definition scriptedSession : StatementImpl DriverState Session :=
  mkStatementImpl DriverState Session
    text
    (fun name b =>
       if String.eqb name "autoExtract" then autoExtract b
       else if String.eqb name "autoBind" then autoBind b
       else false)
    (fun name _ =>
       if String.eqb name "maxFieldSize" then Ok (AnySizeT 1024)
       else if String.eqb name "dbEncoding" then Ok (AnyString "UTF-8")
       else Throw (NotSupportedException name))
    dataSet
    (fun b => map (reporting (bulk b)) (extractionCounts b))
    (fun b => map handling (bindingRows b))
    limit
    (2 ^ 64 - 1)
    (fun b => Nat.ltb (dataSet b + 1) (dataSetCount b))
    (fun b =>
       if Nat.ltb (dataSet b + 1) (dataSetCount b)
       then (Ok (S (dataSet b)), set_dataSet (S (dataSet b)) b)
       else (Throw (OtherException "End of data sets reached."), b))
    (fun _ b => (Ok tt, b))
    (fun count _ b => (Ok tt, set_extractionCounts (replicate count 1) b))
    (fun w => (Ok tt, w))
    (fun _ _ => 0)
    (fun name => Some name)
    (fun fmt value => substitute (decimal value) fmt).

(** A freshly constructed statement over a driver state and a session. *)
Definition fresh (d : DriverState) (b : Session) : Stmt DriverState Session :=
  snd (construct scriptedDriver scriptedSession d b (-1)).

Definition quietDriver : DriverState :=
  mkDriverState [] [] SQL_SUCCESS (SQL_SUCCESS, 0) [] 1 false.

Definition plainSession (statement : string) : Session :=
  mkSession statement true true 0 1 [1] false 0 [] [].

End Scripted.

(** ** Notions used to state the properties *)

Section Notions.
Context {D B : Type}.
Variable drv : Driver D.
Variable sup : StatementImpl D B.
Variable fuel : nat.

(** [preserves f m]: running [m] leaves the component [f] of the object
    as it was, whatever the outcome. *)
Definition preserves {A X} (f : Stmt D B -> X) (m : M D B A) : Prop :=
  forall s r s', m s = (r, s') -> f s' = f s.

(** The count the driver reports in state [d]: what a query stores. *)
Definition reportedRows (d : D) : Z :=
  let '(rc, rows, _) := SQLRowCount drv d in
  if isError rc then 0 else to_size_t rows.

(** The statement after one row-count query. *)
Definition afterRowCount (s : Stmt D B) : Stmt D B :=
  let '(_, _, d) := SQLRowCount drv (driver s) in
  set_affectedRowCount (reportedRows (driver s))
    (set_calls (calls s ++ [CallRowCount]) (set_driver d s)).

(** [n] calls in a row, with the values they return. *)
Fixpoint repeatCall {A} (n : nat) (m : M D B A) : M D B (list A) :=
  match n with
  | O => ret []
  | S n' => let* a := m in let* l := repeatCall n' m in ret (a :: l)
  end.

(** The indices [i + 1, ..., i + n]. *)
Fixpoint indicesFrom (i : Z) (n : nat) : list Z :=
  match n with
  | O => []
  | S n' => (i + 1) :: indicesFrom (i + 1) n'
  end.

(** The loop as the spec words it: the records are retrieved at
    successive indices and kept until the driver "signals no more records
    or returns a non-success status", the record of that last call being
    discarded.  [failed] says which return codes are read as such. *)
Fixpoint addErrors_spec (failed : SQLRETURN -> bool) (n : nat) (i : Z) (d : D)
    : list DiagRec :=
  match n with
  | O => []
  | S n' =>
      let '(rc, rec) := SQLGetDiagRec drv (i + 1) d in
      if failed rc then [] else rec :: addErrors_spec failed n' (i + 1) d
  end.

(** The statement after the record at index [i] has been asked for. *)
Definition afterDiagRec (i : Z) (s : Stmt D B) : Stmt D B :=
  let '(rc, rec) := SQLGetDiagRec drv i (driver s) in
  set_errorInfo (_errorInfo s ++ (if SQL_SUCCEEDED rc then [rec] else []))
    (set_calls (calls s ++ [CallGetDiagRec i]) (set_driver (driver s) s)).

(** Lines 92 to 116 of [compileImpl]: the binding policy, the session
    properties and the Binder. *)
Definition makeBinder : M D B unit :=
  let* autoBind := gets (fun s => getFeature sup "autoBind" (base s)) in
  let mode := if autoBind then PB_IMMEDIATE else PB_AT_EXEC in
  let* pDT :=
    try_catch (let* dti := property sup "dataTypeInfo" in castTypeInfo dti)
      is_NotSupportedException (fun _ => ret None) in
  let* maxFieldSize := maxFieldSizeProperty sup in
  let* utf8 := TextEncoding_find sup "UTF-8" in
  let* dbEncoding := (let* a := property sup "dbEncoding" in castString a) in
  let* to := TextEncoding_find sup dbEncoding in
  let* id := new in
  modify (set_pBinder (Some (mkBinder id maxFieldSize mode pDT utf8 to))).

(** What [compileImpl] does before it turns to the columns: lines 84 to
    116. *)
Definition compileSetup : M D B unit :=
  run modify (set_stepCalled false) in
  run modify (set_nextResponse 0) in
  let* preps := gets _preparations in
  run when (negb (Nat.eqb (length preps) 0)) (modify (set_preparations [])) in
  run addPreparator sup in
  makeBinder.

(** Lines 338 to 341 of [hasNext]: the extractions exist and the current
    data set is prepared. *)
Definition ensurePrepared : M D B unit :=
  let* extracts := gets (fun s => extractions sup (base s)) in
  run when (Nat.eqb (length extracts) 0) (makeInternalExtractors drv sup) in
  let* prepared := gets _prepared in
  when (negb prepared) (doPrepare drv sup fuel).

(** Lines 356 to 359 of [hasNext]: a Preparation Context and an Extractor
    for the new data set, its preparation, and one fetch. *)
Definition rebuildAndFetch : M D B unit :=
  run addPreparator sup in
  run doPrepare drv sup fuel in
  let* cur := gets (fun s => currentDataSet sup (base s)) in
  let* extractor := gets (fun s => _extractors s !! cur) in
  run baseCall (fixupExtraction sup extractor) in
  makeStep drv sup fuel.

(** [preparesAll pP it pos w w']: the extractions [it] are prepared for the
    Preparation Context [pP] one after the other, in their order, at the
    positions accumulated from [pos] on by the columns each of them
    handles, and every preparation succeeds; [w] and [w'] are the driver
    and the caller's variables before and after. *)
Inductive preparesAll (pP : Preparator)
    : list (AbstractExtraction D B) -> nat -> D * B -> D * B -> Prop :=
| prepares_none pos w : preparesAll pP [] pos w w
| prepares_next e it pos w w1 w2 :
    prepare e pP pos w = (Ok tt, w1) ->
    preparesAll pP it (pos + ex_numOfColumnsHandled e) w1 w2 ->
    preparesAll pP (e :: it) pos w w2.

End Notions.

(** A trimmed text of length at least 2 that begins with an opening and
    ends with a closing brace. *)
Definition callStyle (str : string) : Prop :=
  (2 <= String.length str)%nat /\
  String.get 0 str = Some "{"%char /\
  String.get (String.length str - 1) str = Some "}"%char.

(** ** Concrete statements *)

Module Scenarios.
Import Scripted.

Definition stateAfter {A} (m : M DriverState Session A) (s : Stmt DriverState Session)
    : Stmt DriverState Session := snd (m s).

Definition compile := compileImpl scriptedDriver scriptedSession 8.

(** A statement over one result set, freshly constructed. *)
Definition selectOne : Stmt DriverState Session :=
  fresh quietDriver (plainSession "select 1").

(** A statement with stale state whose cursor the driver fails to close. *)
Definition stale : Stmt DriverState Session :=
  mkStmt [] None [] true SQL_SUCCESS [] false 5 false
    [mkDiagRec "01004" 0 "truncated"] 0
    (mkDriverState [] [] SQL_ERROR (SQL_SUCCESS, 7) [] 1 false) []
    (plainSession "update t set x = 1").

(** A row is ready and two output bindings report 0 and 1 rows. *)
Definition zeroThenOne : Stmt DriverState Session :=
  mkStmt [] None [] true SQL_SUCCESS [] true 0 false [] 0 quietDriver []
    (mkSession "select a, b" true true 0 1 [0; 1] false 0 [] []).

(** The same with the counts 1 and 0. *)
Definition oneThenZero : Stmt DriverState Session :=
  mkStmt [] None [] true SQL_SUCCESS [] true 0 false [] 0 quietDriver []
    (mkSession "select a, b" true true 0 1 [1; 0] false 0 [] []).

(** A compiled statement whose first output binding asks for bulk fetch
    while the extraction limit is unlimited. *)
Definition bulkUnlimited : Stmt DriverState Session :=
  mkStmt [mkPreparator 0 "select a" 1024 DE_BOUND] None
    [mkExtractor 1 0 "UTF-8" "UTF-8" 0] false 0 [] false 0 false [] 2
    quietDriver []
    (mkSession "select a" true true 0 1 [1] true (2 ^ 64 - 1) [] []).

(** A call-style statement with one row whose columns cannot be
    described. *)
Definition callProc (statement : string) : Stmt DriverState Session :=
  fresh (mkDriverState [SQL_SUCCESS] [] SQL_SUCCESS (SQL_SUCCESS, 0) [] 1 true)
    (mkSession statement true true 0 1 [] false 0 [] []).

(** Two result sets without rows: both fetches answer [SQL_NO_DATA]. *)
Definition twoEmptySets : Stmt DriverState Session :=
  stateAfter compile
    (fresh (mkDriverState [SQL_NO_DATA; SQL_NO_DATA] [SQL_SUCCESS] SQL_SUCCESS
              (SQL_SUCCESS, 0) [] 1 false)
       (mkSession "select 1; select 2" true true 0 2 [1] false 0 [] [])).

Definition truncated : DiagRec := mkDiagRec "01004" 0 "String data, right trunc".
Definition general : DiagRec := mkDiagRec "HY000" 7 "General error".

(** The first diagnostic record comes with success-with-info, a second
    one is on record behind it. *)
Definition infoFirst : Stmt DriverState Session :=
  fresh (mkDriverState [] [] SQL_SUCCESS (SQL_SUCCESS, 0)
           [(SQL_SUCCESS_WITH_INFO, truncated); (SQL_SUCCESS, general)] 1 false)
    (plainSession "select 1").

(** A record with success, then one with success-with-info. *)
Definition infoLast : Stmt DriverState Session :=
  fresh (mkDriverState [] [] SQL_SUCCESS (SQL_SUCCESS, 0)
           [(SQL_SUCCESS, general); (SQL_SUCCESS_WITH_INFO, truncated)] 1 false)
    (plainSession "select 1").

(** The scripted driver, reporting no affected rows in every state. *)
Definition zeroRowsDriver : Driver DriverState :=
  mkDriver DriverState
    (SQLSetStmtAttr scriptedDriver) (SQLGetDiagRec scriptedDriver)
    (SQLExecute scriptedDriver) (SQLExecDirect scriptedDriver)
    (SQLParamData scriptedDriver) (SQLPutData scriptedDriver)
    (SQLFreeStmt scriptedDriver) (SQLMoreResults scriptedDriver)
    (SQLFetch scriptedDriver) (SQLNativeSql scriptedDriver)
    (fun d => (SQL_SUCCESS, 0, d))
    (diagnosticStates scriptedDriver) (resultColumns scriptedDriver)
    (describeColumn scriptedDriver).

(** An insert of three rows through one array binding, compiled, over a
    driver that would report 7 affected rows. *)
Definition insertThree : Stmt DriverState Session :=
  stateAfter compile
    (fresh (mkDriverState [] [] SQL_SUCCESS (SQL_SUCCESS, 7) [] 0 false)
       (mkSession "insert into t values (?)" true true 0 1 [] false 0 [3] [])).

End Scenarios.

(** ** Further notions *)

Section NotionsMore.
Context {D B : Type}.

(** An outcome other than a normal return. *)
Definition failed {A} (r : result A) : Prop :=
  match r with Ok _ => False | _ => True end.

(** [keeps f m]: when [m] does not return normally, the component [f]
    of the object is as it was. *)
Definition keeps {A X} (f : Stmt D B -> X) (m : M D B A) : Prop :=
  forall s r s', m s = (r, s') -> failed r -> f s' = f s.

End NotionsMore.

Section NotionsNext.
Context {D B : Type}.

(** The extraction [e] reports [count] rows wherever it is asked. *)
Definition reports (e : AbstractExtraction D B) (count : Z) : Prop :=
  forall pos w, exists w', extract e pos w = (Ok count, w').

End NotionsNext.

Section NotionsBind.
Context {D B : Type}.
Variable drv : Driver D.
Variable sup : StatementImpl D B.

Definition isPutData (c : Call) : bool :=
  match c with CallPutData _ => true | _ => false end.

(** The size pushed for the parameter the driver asks for: the size of
    the buffer, or nothing for the null marker. *)
Definition chunkSize (b : B) (pParam : option nat) : Z :=
  match pParam with
  | Some p => to_int (parameterSize sup p b)
  | None => 0
  end.

(** [requestsData b n d tr rc d']: from the state [d] the driver asks
    [n] times for parameter data, accepts each chunk, and then answers
    [rc]; [tr] is the dialogue and [d'] the state it ends in. *)
Inductive requestsData (b : B) : nat -> D -> list Call -> SQLRETURN -> D -> Prop :=
| requests_done d rc p d' :
    SQLParamData drv d = (rc, p, d') ->
    rc <> SQL_NEED_DATA ->
    requestsData b O d [CallParamData] rc d'
| requests_more n d p d1 rc1 d2 tr rc d' :
    SQLParamData drv d = (SQL_NEED_DATA, p, d1) ->
    SQLPutData drv p (chunkSize b p) d1 = (rc1, d2) ->
    isError rc1 = false ->
    requestsData b n d2 tr rc d' ->
    requestsData b (S n) d
      (CallParamData :: CallPutData (chunkSize b p) :: tr) rc d'.

End NotionsBind.

(** ** Further concrete statements *)

Module MoreScenarios.
Import Scripted Scenarios.

Definition drv := scriptedDriver.
Definition ses := scriptedSession.

(** A compiled statement over a driver that answers the fetches from
    [fetches], the more-results calls from [more], and has [diags] on
    record. *)
Definition compiledOver (fetches more : list SQLRETURN)
    (diags : list (SQLRETURN * DiagRec)) (counts : list Z)
    : Stmt DriverState Session :=
  stateAfter compile
    (fresh (mkDriverState fetches more SQL_SUCCESS (SQL_SUCCESS, 0) diags 1 false)
       (mkSession "select a" true true 0 1 counts false 0 [] [])).

Definition invalidCursor : DiagRec := mkDiagRec "24000" 0 "Invalid cursor state".

(** The fetch fails and the invalid cursor state is on record. *)
Definition afterProcedure : Stmt DriverState Session :=
  compiledOver [SQL_ERROR] [] [(SQL_SUCCESS, invalidCursor)] [1].

(** The fetch succeeds with a warning, one diagnostic is on record. *)
Definition warned : Stmt DriverState Session :=
  compiledOver [SQL_SUCCESS_WITH_INFO] [] [(SQL_SUCCESS, truncated)] [1].

(** One row, read through two output bindings of one row each. *)
Definition oneRow : Stmt DriverState Session :=
  compiledOver [SQL_SUCCESS] [] [] [1; 1].

(** No row at all. *)
Definition noRow : Stmt DriverState Session := compiledOver [] [] [] [1].

(** A row is ready and the two output bindings both report 2 rows. *)
Definition twoAndTwo : Stmt DriverState Session :=
  mkStmt [] None [] true SQL_SUCCESS [] true 0 false [] 0 quietDriver []
    (mkSession "select a, b" true true 0 1 [2; 2] false 0 [] []).

(** The driver cannot tell the number of affected rows and reports -1. *)
Definition unknownRows : Stmt DriverState Session :=
  fresh (mkDriverState [] [] SQL_SUCCESS (SQL_SUCCESS, -1) [] 1 false)
    (plainSession "update t set x = 1").

(** Five affected rows are cached from an earlier execution. *)
Definition cachedFive : Stmt DriverState Session :=
  mkStmt [] None [] false 0 [] false 5 false [] 0 quietDriver []
    (plainSession "update t set x = 1").

(** A compiled statement whose first output binding asks for bulk fetch
    with a limit of 10 rows. *)
Definition bulkOfTen : Stmt DriverState Session :=
  mkStmt [mkPreparator 0 "select a" 1024 DE_BOUND] None
    [mkExtractor 1 0 "UTF-8" "UTF-8" 0] false 0 [] false 0 false [] 2
    quietDriver []
    (mkSession "select a" true true 0 1 [1] true 10 [] []).

(** A statement without result columns. *)
Definition insertOne : Stmt DriverState Session :=
  fresh (mkDriverState [] [] SQL_SUCCESS (SQL_SUCCESS, 1) [] 0 false)
    (mkSession "insert into t values (1)" true false 0 1 [] false 0 [] []).

(** A driver that asks for the parameter buffers in its state, one after
    the other, and then reports success. *)
Definition streamingDriver : Driver (list (option nat)) :=
  mkDriver (list (option nat))
    (fun _ _ d => (SQL_SUCCESS, d))
    (fun _ _ => (SQL_NO_DATA, emptyDiagRec))
    (fun d => (SQL_NEED_DATA, d))
    (fun _ d => (SQL_SUCCESS, d))
    (fun d => match d with
              | [] => (SQL_SUCCESS, None, [])
              | p :: rest => (SQL_NEED_DATA, p, rest)
              end)
    (fun _ _ d => (SQL_SUCCESS, d))
    (fun d => (SQL_SUCCESS, d))
    (fun d => (SQL_NO_DATA, d))
    (fun d => (SQL_NO_DATA, d))
    (fun statement _ d =>
       (SQL_SUCCESS, statement, Z.of_nat (String.length statement), d))
    (fun d => (SQL_SUCCESS, 0, d))
    (fun _ => [])
    (fun _ => O)
    (fun i d => (Ok (mkMetaColumn i ""), d)).

(** A session without bindings whose parameter buffer [p] holds
    [100 * p] bytes. *)
Definition streamingSession : StatementImpl (list (option nat)) unit :=
  mkStatementImpl (list (option nat)) unit
    (fun _ => "insert into t values (?, ?)")
    (fun _ _ => false)
    (fun name _ =>
       if String.eqb name "maxFieldSize" then Ok (AnySizeT 1024)
       else if String.eqb name "dbEncoding" then Ok (AnyString "UTF-8")
       else Throw (NotSupportedException name))
    (fun _ => O)
    (fun _ => [])
    (fun _ => [])
    (fun _ => 0)
    (2 ^ 64 - 1)
    (fun _ => false)
    (fun b => (Throw (OtherException "End of data sets reached."), b))
    (fun _ b => (Ok tt, b))
    (fun _ _ b => (Ok tt, b))
    (fun w => (Ok tt, w))
    (fun p _ => 100 * Z.of_nat p)
    (fun name => Some name)
    (fun fmt value => Scripted.substitute (Scripted.decimal value) fmt).

(** A compiled statement; the driver asks for buffer 3 and then sends the
    null marker. *)
Definition streaming : Stmt (list (option nat)) unit :=
  snd (compileImpl streamingDriver streamingSession 8
         (snd (construct streamingDriver streamingSession
                 [Some 3%nat; None] tt (-1)))).


End MoreScenarios.

(** * Properties *)

(** ** Reasoning about the monad *)

Section MonadLemmas.
Context {D B : Type}.

Lemma bind_Ok_inv {A C} (m : M D B A) (k : A -> M D B C) s c s' :
  bind m k s = (Ok c, s') ->
  exists a s1, m s = (Ok a, s1) /\ k a s1 = (Ok c, s').
Proof.
  unfold bind. destruct (m s) as [[a | e | f] s1]; intros H; try discriminate.
  exists a, s1. split; [reflexivity | exact H].
Qed.

Lemma bind_Ok {A C} (m : M D B A) (k : A -> M D B C) s a s1 :
  m s = (Ok a, s1) -> bind m k s = k a s1.
Proof. unfold bind. intros ->. reflexivity. Qed.

Lemma bind_Throw {A C} (m : M D B A) (k : A -> M D B C) s e s1 :
  m s = (Throw e, s1) -> bind m k s = (Throw e, s1).
Proof. unfold bind. intros ->. reflexivity. Qed.

Lemma preserves_ret {A X} (f : Stmt D B -> X) (a : A) : preserves f (ret a).
Proof. intros s r s' H. inversion H. reflexivity. Qed.

Lemma preserves_throw {A X} (f : Stmt D B -> X) e :
  preserves f (throw e : M D B A).
Proof. intros s r s' H. inversion H. reflexivity. Qed.

Lemma preserves_abort {A X} (f : Stmt D B -> X) x :
  preserves f (abort x : M D B A).
Proof. intros s r s' H. inversion H. reflexivity. Qed.

Lemma preserves_gets {A X} (f : Stmt D B -> X) (g : Stmt D B -> A) :
  preserves f (gets g).
Proof. intros s r s' H. inversion H. reflexivity. Qed.

Lemma preserves_lift {A X} (f : Stmt D B -> X) (g : Stmt D B -> result A) :
  preserves f (fun s => (g s, s)).
Proof. intros s r s' H. inversion H. reflexivity. Qed.

Lemma preserves_bind {A C X} (f : Stmt D B -> X) (m : M D B A)
    (k : A -> M D B C) :
  preserves f m -> (forall a, preserves f (k a)) -> preserves f (bind m k).
Proof.
  intros Hm Hk s r s'. unfold bind.
  destruct (m s) as [[a | e | x] s1] eqn:E; intros H.
  - rewrite (Hk a _ _ _ H). eapply Hm, E.
  - inversion H; subst. eapply Hm, E.
  - inversion H; subst. eapply Hm, E.
Qed.

Lemma preserves_try_catch {A X} (f : Stmt D B -> X) (m : M D B A) handles h :
  preserves f m -> (forall e, preserves f (h e)) ->
  preserves f (try_catch m handles h).
Proof.
  intros Hm Hh s r s'. unfold try_catch.
  destruct (m s) as [[a | e | x] s1] eqn:E; intros H.
  - inversion H; subst. eapply Hm, E.
  - destruct (handles e).
    + rewrite (Hh e _ _ _ H). eapply Hm, E.
    + inversion H; subst. eapply Hm, E.
  - inversion H; subst. eapply Hm, E.
Qed.

Lemma preserves_when {X} (f : Stmt D B -> X) b (m : M D B unit) :
  preserves f m -> preserves f (when b m).
Proof. destruct b; simpl; [auto | intros _; apply preserves_ret]. Qed.

Lemma preserves_index {A X} (f : Stmt D B -> X) (l : list A) i :
  preserves f (index l i).
Proof.
  unfold index. destruct (l !! i); [apply preserves_ret | apply preserves_abort].
Qed.

Lemma preserves_deref {A X} (f : Stmt D B -> X) (p : option A) :
  preserves f (deref p).
Proof.
  unfold deref. destruct p; [apply preserves_ret | apply preserves_throw].
Qed.

Lemma preserves_pBinder {X} (f : Stmt D B -> X) : preserves f pBinder.
Proof.
  unfold pBinder. apply preserves_bind; [apply preserves_gets | intros p].
  apply preserves_deref.
Qed.

Lemma preserves_modify {X} (f : Stmt D B -> X) g :
  (forall s, f (g s) = f s) -> preserves f (modify g).
Proof. intros Hg s r s' H. inversion H. apply Hg. Qed.

Lemma preserves_driverCall {A X} (f : Stmt D B -> X) c (g : D -> A * D) :
  (forall s d l, f (set_calls l (set_driver d s)) = f s) ->
  preserves f (driverCall c g).
Proof.
  intros Hf s r s'. unfold driverCall. destruct (g (driver s)) as [a d].
  intros H. inversion H. apply Hf.
Qed.

Lemma preserves_externCall {A X} (f : Stmt D B -> X)
    (g : D * B -> result A * (D * B)) :
  (forall s d b, f (set_base b (set_driver d s)) = f s) ->
  preserves f (externCall g).
Proof.
  intros Hf s r s'. unfold externCall.
  destruct (g (driver s, base s)) as [a [d b]].
  intros H. inversion H. apply Hf.
Qed.

Lemma preserves_baseCall {A X} (f : Stmt D B -> X) (g : B -> result A * B) :
  (forall s b, f (set_base b s) = f s) -> preserves f (baseCall g).
Proof.
  intros Hf s r s'. unfold baseCall. destruct (g (base s)) as [a b].
  intros H. inversion H. apply Hf.
Qed.

Lemma preserves_new {X} (f : Stmt D B -> X) :
  (forall s n, f (set_heapNext n s) = f s) -> preserves f new.
Proof. intros Hf s r s' H. inversion H. apply Hf. Qed.

End MonadLemmas.

(** Decompose a computation into its steps and discharge each of them. *)
Ltac preserves_step :=
  first
    [ apply preserves_ret
    | apply preserves_throw
    | apply preserves_abort
    | apply preserves_gets
    | apply preserves_index
    | apply preserves_deref
    | apply preserves_pBinder
    | apply preserves_lift
    | apply preserves_modify; intros; solve [reflexivity | auto]
    | apply preserves_driverCall; intros; reflexivity
    | apply preserves_externCall; intros; reflexivity
    | apply preserves_baseCall; intros; reflexivity
    | apply preserves_new; intros; reflexivity
    | apply preserves_when
    | apply preserves_bind; [ | intros ]
    | apply preserves_try_catch; [ | intros ]
    | match goal with
      | |- preserves _ (if ?b then _ else _) => destruct b
      | |- preserves _ (match ?x with _ => _ end) => destruct x
      | |- preserves _ (let (_, _) := ?x in _) => destruct x
      end
    | assumption ].

Ltac preserves_tac := repeat preserves_step.

(** ** The affected-row cache and [clear] *)

Section AffectedRows.
Context {D B : Type}.
Variable drv : Driver D.
Variable sup : StatementImpl D B.
Variable fuel : nat.

Lemma set_affectedRowCount_same (s : Stmt D B) v :
  _affectedRowCount s = v -> set_affectedRowCount v s = s.
Proof. intros <-. destruct s; reflexivity. Qed.

Lemma affectedRowCount_unknown (s : Stmt D B) :
  _affectedRowCount s = 0 ->
  affectedRowCount drv s = (Ok (to_int (reportedRows drv (driver s))), afterRowCount drv s).
Proof.
  intros H0.
  unfold affectedRowCount, afterRowCount, reportedRows, bind, gets, when,
    driverCall, modify, ret.
  rewrite H0. simpl.
  destruct (SQLRowCount drv (driver s)) as [[rc rows] d]. simpl.
  destruct (isError rc); simpl.
  - rewrite set_affectedRowCount_same by exact H0. now rewrite H0.
  - reflexivity.
Qed.

Lemma affectedRowCount_cached (s : Stmt D B) :
  _affectedRowCount s <> 0 ->
  affectedRowCount drv s = (Ok (to_int (_affectedRowCount s)), s).
Proof.
  intros Hn. unfold affectedRowCount, bind, gets, when, ret.
  destruct (Z.eqb_spec 0 (_affectedRowCount s)) as [E | _]; [congruence |].
  reflexivity.
Qed.

Lemma clear_resets (s : Stmt D B) r s' :
  clear drv s = (r, s') ->
  _stepCalled s' = false /\ _affectedRowCount s' = 0 /\ _errorInfo s' = [] /\
  calls s' = calls s ++ [CallFreeStmt].
Proof.
  unfold clear, bind, modify, driverCall, throw, ret. simpl.
  destruct (SQLFreeStmt drv (driver s)) as [rc d]. simpl.
  destruct (isError rc); intros H; inversion H; subst; simpl; auto.
Qed.

(** C10: when the driver fails to release the cursor, [clear] raises the
    statement exception, and the row-ready flag, the affected-row cache and
    the accumulated diagnostics are reset all the same: the reset precedes
    the release call and is not undone by the failure. *)
Theorem clear_resets_before_release (s : Stmt D B) :
  isError (fst (SQLFreeStmt drv (driver s))) = true ->
  exists s',
    clear drv s =
      (Throw (StatementException
                "ODBCStatementImpl::putData():SQLFreeStmt(SQL_CLOSE)"), s') /\
    _stepCalled s' = false /\
    _affectedRowCount s' = 0 /\
    _errorInfo s' = [] /\
    calls s' = calls s ++ [CallFreeStmt].
Proof.
  intros Herr.
  destruct (clear drv s) as [r s'] eqn:E. exists s'.
  split; [ | eapply clear_resets; exact E ].
  revert E. unfold clear, bind, modify, driverCall, throw, ret. simpl.
  destruct (SQLFreeStmt drv (driver s)) as [rc d]. simpl in *.
  rewrite Herr. intros H; inversion H; reflexivity.
Qed.

Lemma repeatCall_fixed {A} n (m : M D B A) (s : Stmt D B) a :
  m s = (Ok a, s) -> repeatCall n m s = (Ok (replicate n a), s).
Proof.
  intros H. induction n as [| n IH]; [reflexivity |].
  cbn [repeatCall]. rewrite (bind_Ok _ _ _ _ _ H), (bind_Ok _ _ _ _ _ IH).
  reflexivity.
Qed.

Lemma to_int_0 : to_int 0 = 0.
Proof. reflexivity. Qed.

(** C5: after [clear], whatever its outcome and whatever was cached
    before, [affectedRowCount] issues a row-count query, answers with what
    the driver reports now and stores that answer in the cache.  And
    whenever a call of [affectedRowCount] has returned a nonzero value,
    that value is in the cache afterwards: any number of further calls
    return it and leave the object, the driver and the trace of driver
    calls untouched. *)
Theorem affectedRowCount_requeries_after_clear (s : Stmt D B) r s1 :
  clear drv s = (r, s1) ->
  (exists s2,
     affectedRowCount drv s1 = (Ok (to_int (reportedRows drv (driver s1))), s2) /\
     calls s2 = calls s1 ++ [CallRowCount] /\
     _affectedRowCount s2 = reportedRows drv (driver s1)) /\
  (forall (t : Stmt D B) v t',
     affectedRowCount drv t = (Ok v, t') ->
     v <> 0 ->
     _affectedRowCount t' <> 0 /\
     v = to_int (_affectedRowCount t') /\
     forall n,
       repeatCall n (affectedRowCount drv) t' = (Ok (replicate n v), t')).
Proof.
  intros Hc. split.
  - destruct (clear_resets _ _ _ Hc) as (_ & H0 & _).
    exists (afterRowCount drv s1). split; [ | split ].
    + now apply affectedRowCount_unknown.
    + unfold afterRowCount.
      destruct (SQLRowCount drv (driver s1)) as [[rc rows] d]. reflexivity.
    + unfold afterRowCount.
      destruct (SQLRowCount drv (driver s1)) as [[rc rows] d]. reflexivity.
  - intros t v t' Ht Hv.
    assert (Hval : v = to_int (_affectedRowCount t')).
    { destruct (Z.eq_dec (_affectedRowCount t) 0) as [E | E].
      - rewrite (affectedRowCount_unknown _ E) in Ht. inversion Ht; subst.
        unfold afterRowCount.
        destruct (SQLRowCount drv (driver t)) as [[rc rows] d]. reflexivity.
      - rewrite (affectedRowCount_cached _ E) in Ht. now inversion Ht. }
    assert (Hn : _affectedRowCount t' <> 0).
    { intros E. rewrite E, to_int_0 in Hval. contradiction. }
    split; [exact Hn | split; [exact Hval |]].
    intros n. apply repeatCall_fixed. rewrite Hval.
    now apply affectedRowCount_cached.
Qed.

End AffectedRows.

(** ** What the member functions leave alone *)

Section Frames.
Context {D B : Type}.
Variable drv : Driver D.
Variable sup : StatementImpl D B.
Variable fuel : nat.

Lemma preserves_property {X} (f : Stmt D B -> X) name :
  preserves f (property sup name).
Proof. intros s r s' H. inversion H. reflexivity. Qed.

Lemma addErrors_loop_affectedRowCount n i :
  preserves _affectedRowCount (addErrors_loop (B := B) drv n i).
Proof.
  revert i. induction n as [| n IH]; intros i; simpl; preserves_tac.
  apply IH.
Qed.

Lemma nativeSQL_loop_affectedRowCount n statement retlen :
  preserves _affectedRowCount (nativeSQL_loop (B := B) drv n statement retlen).
Proof.
  revert retlen. induction n as [| n IH]; intros retlen; simpl; preserves_tac.
  apply IH.
Qed.

Lemma checkError_affectedRowCount rc msg :
  preserves _affectedRowCount (checkError drv sup fuel rc msg).
Proof.
  unfold checkError, nativeSQL, addErrors. preserves_tac.
  - apply nativeSQL_loop_affectedRowCount.
  - apply addErrors_loop_affectedRowCount.
Qed.

Lemma putData_loop_affectedRowCount n :
  preserves _affectedRowCount (putData_loop drv sup fuel n).
Proof.
  induction n as [| n IH]; simpl; preserves_tac;
    try apply checkError_affectedRowCount.
Qed.

Lemma doBind_loop_affectedRowCount (it : list (AbstractBinding D B)) pos :
  preserves _affectedRowCount (doBind_loop it pos).
Proof.
  revert pos. induction it as [| b it IH]; intros pos; simpl; preserves_tac.
  apply IH.
Qed.

End Frames.

(** ** Zero as the "unknown" value of the affected-row cache *)

Section ZeroSentinel.
Context {D B : Type}.
Variable drv : Driver D.
Variable sup : StatementImpl D B.
Variable fuel : nat.

Lemma affectedRowCount_zero_repeats n (s : Stmt D B) :
  (forall d, snd (fst (SQLRowCount drv d)) = 0) ->
  _affectedRowCount s = 0 ->
  exists s',
    repeatCall n (affectedRowCount drv) s = (Ok (replicate n 0), s') /\
    calls s' = calls s ++ replicate n CallRowCount /\
    _affectedRowCount s' = 0.
Proof.
  intros Hzero. revert s. induction n as [| n IH]; intros s H0.
  - exists s. simpl. rewrite app_nil_r. auto.
  - assert (Hrep : reportedRows drv (driver s) = 0).
    { unfold reportedRows. specialize (Hzero (driver s)).
      destruct (SQLRowCount drv (driver s)) as [[rc rows] d]. simpl in Hzero.
      subst rows. now destruct (isError rc). }
    destruct (IH (afterRowCount drv s)) as (s' & Hrun & Hcalls & Hfield).
    { unfold afterRowCount.
      destruct (SQLRowCount drv (driver s)) as [[rc rows] d]. exact Hrep. }
    exists s'. split; [ | split; [ | exact Hfield ] ].
    + cbn [repeatCall].
      rewrite (bind_Ok _ _ _ _ _ (affectedRowCount_unknown drv s H0)).
      rewrite (bind_Ok _ _ _ _ _ Hrun). rewrite Hrep. reflexivity.
    + rewrite Hcalls. unfold afterRowCount.
      destruct (SQLRowCount drv (driver s)) as [[rc rows] d]. simpl.
      now rewrite <- app_assoc.
Qed.

Lemma doBind_captures (s : Stmt D B) first rest r s' :
  isError (fst (SQLFreeStmt drv (driver s))) = false ->
  bindings sup (base s) = first :: rest ->
  doBind drv sup s = (r, s') ->
  _affectedRowCount s' = to_size_t (ab_numOfRowsHandled first (base s)).
Proof.
  intros Hfree Hb.
  unfold doBind, clear, bind, modify, driverCall, gets, when, ret, throw.
  simpl. destruct (SQLFreeStmt drv (driver s)) as [rc d]. simpl in *.
  rewrite Hfree. simpl. rewrite Hb. simpl.
  intros H.
  exact (doBind_loop_affectedRowCount (first :: rest) 0%nat _ _ _ H).
Qed.

Lemma bindImpl_captures (s : Stmt D B) first rest r s' :
  isError (fst (SQLFreeStmt drv (driver s))) = false ->
  bindings sup (base s) = first :: rest ->
  bindImpl drv sup fuel s = (r, s') ->
  _affectedRowCount s' = to_size_t (ab_numOfRowsHandled first (base s)).
Proof.
  intros Hfree Hb. unfold bindImpl. unfold bind at 1.
  destruct (doBind drv sup s) as [r1 s1] eqn:E.
  pose proof (doBind_captures _ _ _ _ _ Hfree Hb E) as Hcap.
  destruct r1 as [[] | e | f]; intros H;
    [ | inversion H; subst; exact Hcap | inversion H; subst; exact Hcap ].
  rewrite <- Hcap.
  match type of H with
  | ?m s1 = _ => assert (Hp : preserves _affectedRowCount m)
  end.
  { unfold putData. preserves_tac.
    - apply putData_loop_affectedRowCount.
    - apply checkError_affectedRowCount. }
  exact (Hp _ _ _ H).
Qed.

(** C9: zero is the "unknown" value of the cache.  While the driver
    reports a count of 0, the cache stays at 0 and each of [n] successive
    calls of [affectedRowCount] issues its own row-count query.  And
    whatever the driver would report: when [doBind] captures a nonzero row
    count [rows] from the first input binding, the object holds [rows]
    after [doBind] and after the whole of [bindImpl], whatever their
    outcome, and [affectedRowCount] then returns it (converted to [int],
    which is the identity below 2^31), however often it is called, without
    touching the object, the driver or the trace of driver calls. *)
Theorem affectedRowCount_zero_is_unknown :
  (forall (n : nat) (s : Stmt D B),
     (forall d, snd (fst (SQLRowCount drv d)) = 0) ->
     _affectedRowCount s = 0 ->
     exists s',
       repeatCall n (affectedRowCount drv) s = (Ok (replicate n 0), s') /\
       calls s' = calls s ++ replicate n CallRowCount /\
       _affectedRowCount s' = 0) /\
  (forall (t : Stmt D B) first rest r t',
     isError (fst (SQLFreeStmt drv (driver t))) = false ->
     bindings sup (base t) = first :: rest ->
     to_size_t (ab_numOfRowsHandled first (base t)) <> 0 ->
     doBind drv sup t = (r, t') \/ bindImpl drv sup fuel t = (r, t') ->
     let rows := to_size_t (ab_numOfRowsHandled first (base t)) in
     _affectedRowCount t' = rows /\
     affectedRowCount drv t' = (Ok (to_int rows), t') /\
     (forall n,
        repeatCall n (affectedRowCount drv) t' =
          (Ok (replicate n (to_int rows)), t')) /\
     (rows < 2 ^ 31 -> to_int rows = rows)).
Proof.
  split.
  - intros n s Hzero H0. now apply affectedRowCount_zero_repeats.
  - intros t first rest r t' Hfree Hb Hrows Hrun rows.
    assert (Hcap : _affectedRowCount t' = rows).
    { destruct Hrun as [Hrun | Hrun].
      - eapply doBind_captures; eassumption.
      - eapply bindImpl_captures; eassumption. }
    assert (Hret : affectedRowCount drv t' = (Ok (to_int rows), t')).
    { rewrite <- Hcap. apply affectedRowCount_cached. now rewrite Hcap. }
    split; [exact Hcap | split; [exact Hret | split]].
    + intros n. now apply repeatCall_fixed.
    + intros Hlt. unfold to_int.
      assert (0 <= rows) by (apply Z.mod_pos_bound; lia).
      rewrite Z.mod_small by lia. lia.
Qed.

End ZeroSentinel.

(** ** Running a computation step by step *)

Section Steps.
Context {D B : Type}.

Lemma bind_gets {A C} (f : Stmt D B -> A) (k : A -> M D B C) s :
  bind (gets f) k s = k (f s) s.
Proof. reflexivity. Qed.

Lemma bind_modify {C} (f : Stmt D B -> Stmt D B) (k : unit -> M D B C) s :
  bind (modify f) k s = k tt (f s).
Proof. reflexivity. Qed.

Lemma bind_ret {A C} (a : A) (k : A -> M D B C) s :
  bind (ret a) k s = k a s.
Proof. reflexivity. Qed.

Lemma bind_throw {A C} e (k : A -> M D B C) s :
  bind (throw e) k s = (Throw e, s).
Proof. reflexivity. Qed.

Lemma bind_abort {A C} f (k : A -> M D B C) s :
  bind (abort f) k s = (Abort f, s).
Proof. reflexivity. Qed.

Lemma bind_new {C} (k : nat -> M D B C) s :
  bind new k s = k (heapNext s) (set_heapNext (S (heapNext s)) s).
Proof. reflexivity. Qed.

Lemma bind_bind {A C E} (m : M D B A) (k : A -> M D B C) (h : C -> M D B E) s :
  bind (bind m k) h s = bind m (fun a => bind (k a) h) s.
Proof. unfold bind. destruct (m s) as [[a | e | f] s1]; reflexivity. Qed.

End Steps.

Ltac fields :=
  cbn [_preparations _pBinder _extractors _stepCalled _nextResponse
       _columnPtrs _prepared _affectedRowCount _canCompile _errorInfo
       heapNext driver calls base
       set_preparations set_pBinder set_extractors set_stepCalled
       set_nextResponse set_columnPtrs set_prepared set_affectedRowCount
       set_canCompile set_errorInfo set_heapNext set_driver set_calls
       set_base].

Ltac mred :=
  repeat (first [ rewrite bind_gets | rewrite bind_modify | rewrite bind_ret
                | rewrite bind_throw | rewrite bind_abort | rewrite bind_new
                | rewrite bind_bind ];
          cbv beta).

(** ** Compilation and preparation *)

Ltac bind_inv1 H :=
  apply bind_Ok_inv in H;
  let a := fresh "a" in
  let s := fresh "s" in
  let E := fresh "E" in
  destruct H as (a & s & E & H);
  cbv beta zeta in H.

Ltac bind_inv H := repeat bind_inv1 H.

Section Compile.
Context {D B : Type}.
Variable drv : Driver D.
Variable sup : StatementImpl D B.
Variable fuel : nat.

Lemma compileImpl_compiled (s : Stmt D B) :
  _canCompile s = false -> compileImpl drv sup fuel s = (Ok tt, s).
Proof.
  intros H. unfold compileImpl, bind, gets, ret. rewrite H. reflexivity.
Qed.

Lemma compileImpl_Ok_compiled (s s1 : Stmt D B) :
  compileImpl drv sup fuel s = (Ok tt, s1) -> _canCompile s1 = false.
Proof.
  destruct (_canCompile s) eqn:Hc.
  - unfold compileImpl. intros H.
    apply bind_Ok_inv in H. destruct H as (c & s0 & E & H).
    inversion E; subst. rewrite Hc in H. simpl in H.
    bind_inv H. inversion H. reflexivity.
  - intros H. rewrite (compileImpl_compiled _ Hc) in H.
    inversion H; subst. exact Hc.
Qed.

(** C1: once [compileImpl] has succeeded, calling it again succeeds
    without changing anything: the object it returns is the object it was
    given, so the sequence of Preparation Contexts holds the same objects
    and no driver call is issued. *)
Theorem compileImpl_idempotent (s s1 : Stmt D B) :
  compileImpl drv sup fuel s = (Ok tt, s1) ->
  compileImpl drv sup fuel s1 = (Ok tt, s1) /\
  _preparations (snd (compileImpl drv sup fuel s1)) = _preparations s1 /\
  calls (snd (compileImpl drv sup fuel s1)) = calls s1.
Proof.
  intros H. apply compileImpl_Ok_compiled in H.
  rewrite (compileImpl_compiled _ H). auto.
Qed.

Lemma addPreparator_empty_statement (s : Stmt D B) :
  _preparations s = [] ->
  toString sup (base s) = "" ->
  addPreparator sup s =
    (Throw (ODBCException "Empty statements are illegal"), s).
Proof.
  intros Hp Ht. unfold addPreparator. mred. rewrite Hp. cbn [length Nat.eqb].
  mred. rewrite Ht. reflexivity.
Qed.

(** C7: compiling a statement whose text is empty raises the exception
    for illegal empty statements, and the failed call leaves no
    Preparation Context: the sequence is empty, no object was created and
    no Extractor was added. *)
Theorem compileImpl_empty_statement (s : Stmt D B) :
  _canCompile s = true ->
  toString sup (base s) = "" ->
  exists s',
    compileImpl drv sup fuel s =
      (Throw (ODBCException "Empty statements are illegal"), s') /\
    _preparations s' = [] /\
    _extractors s' = _extractors s /\
    heapNext s' = heapNext s /\
    calls s' = calls s.
Proof.
  intros Hc Ht. unfold compileImpl. mred. rewrite Hc. cbn [negb]. mred. fields.
  destruct (_preparations s) as [| p ps] eqn:Hp;
    cbn [length Nat.eqb negb when]; mred;
    (erewrite bind_Throw;
     [ | apply addPreparator_empty_statement; fields; auto ]);
    (eexists; split; [reflexivity | fields; auto]).
Qed.

(** C4: with automatic-bind extraction configured, pending data, a
    Preparation Context for the current data set, a first extraction that
    asks for bulk fetch and an unlimited extraction limit, [doPrepare]
    raises the invalid-argument exception and returns the object exactly
    as it received it: neither the row-array-size attribute nor any other
    driver call has been issued. *)
Theorem doPrepare_bulk_without_limit (s : Stmt D B) e rest :
  getFeature sup "autoExtract" (base s) = true ->
  hasData drv s = true ->
  (currentDataSet sup (base s) < length (_preparations s))%nat ->
  extractions sup (base s) = e :: rest ->
  isBulk e = true ->
  getExtractionLimit sup (base s) = LIMIT_UNLIMITED sup ->
  doPrepare drv sup fuel s =
    (Throw (InvalidArgumentException
              "Bulk operation not allowed without limit."), s).
Proof.
  intros Ha Hd Hcur He Hb Hl.
  destruct (lookup_lt_is_Some_2 _ _ Hcur) as [pP HpP].
  unfold doPrepare, bind, gets, index, ret, throw.
  rewrite Ha, Hd. simpl. rewrite HpP. simpl. rewrite He, Hb, Hl.
  rewrite Z.eqb_refl. reflexivity.
Qed.

End Compile.

(** ** Collecting the diagnostics *)

Section Diagnostics.
Context {D B : Type}.
Variable drv : Driver D.

Lemma set_back_snoc {A} (l : list A) (x y : A) : set_back y (l ++ [x]) = l ++ [y].
Proof.
  unfold set_back. rewrite removelast_last.
  destruct l; reflexivity.
Qed.

Lemma addErrors_loop_step n i (s : Stmt D B) :
  addErrors_loop drv (S n) i s =
    let i' := to_SQLSMALLINT (i + 1) in
    if fst (SQLGetDiagRec drv i' (driver s)) =? SQL_SUCCESS
    then addErrors_loop drv n i' (afterDiagRec drv i' s)
    else (Ok tt, afterDiagRec drv i' s).
Proof.
  cbn [addErrors_loop]. cbv zeta. mred. unfold driverCall at 1.
  unfold bind at 1. unfold afterDiagRec.
  destruct (SQLGetDiagRec drv (to_SQLSMALLINT (i + 1)) (driver s))
    as [rc rec] eqn:E.
  cbv beta iota. fields. rewrite E. mred. fields. rewrite set_back_snoc.
  rewrite length_app. cbn [length]. rewrite Nat.add_1_r. cbn [Nat.eqb negb].
  rewrite andb_true_r. cbn [fst].
  destruct (SQL_SUCCEEDED rc); cbn [negb when]; mred; fields.
  - destruct (rc =? SQL_SUCCESS); reflexivity.
  - rewrite removelast_last, app_nil_r.
    destruct (rc =? SQL_SUCCESS); reflexivity.
Qed.

Lemma to_SQLSMALLINT_small z : -32768 <= z <= 32767 -> to_SQLSMALLINT z = z.
Proof. intros H. unfold to_SQLSMALLINT. rewrite Z.mod_small; lia. Qed.

Lemma addErrors_loop_run n : forall fuel i (s : Stmt D B),
  (n < fuel)%nat ->
  0 <= i -> i + Z.of_nat n + 1 <= 32767 ->
  (forall j, i < j <= i + Z.of_nat n ->
     fst (SQLGetDiagRec drv j (driver s)) = SQL_SUCCESS) ->
  fst (SQLGetDiagRec drv (i + Z.of_nat n + 1) (driver s)) <> SQL_SUCCESS ->
  let last := SQLGetDiagRec drv (i + Z.of_nat n + 1) (driver s) in
  exists s',
    addErrors_loop drv fuel i s = (Ok tt, s') /\
    _errorInfo s' =
      _errorInfo s ++
      map (fun j => snd (SQLGetDiagRec drv j (driver s))) (indicesFrom i n) ++
      (if SQL_SUCCEEDED (fst last) then [snd last] else []) /\
    calls s' = calls s ++ map CallGetDiagRec (indicesFrom i (S n)) /\
    driver s' = driver s.
Proof.
  induction n as [| n IH]; intros fuel i s Hfuel Hi Hmax Hok Hlast last;
    (destruct fuel as [| fuel]; [lia |]);
    rewrite addErrors_loop_step; cbv zeta;
    rewrite to_SQLSMALLINT_small by lia.
  - subst last. replace (i + Z.of_nat 0 + 1) with (i + 1) in * by lia.
    destruct (Z.eqb_spec (fst (SQLGetDiagRec drv (i + 1) (driver s))) SQL_SUCCESS)
      as [E | _]; [contradiction |].
    eexists. split; [reflexivity |]. unfold afterDiagRec.
    destruct (SQLGetDiagRec drv (i + 1) (driver s)) as [rc rec].
    fields. cbn [map indicesFrom fst snd app]. auto.
  - rewrite (Hok (i + 1)) by lia. cbn [Z.eqb SQL_SUCCESS].
    assert (Hd : driver (afterDiagRec drv (i + 1) s) = driver s).
    { unfold afterDiagRec.
      destruct (SQLGetDiagRec drv (i + 1) (driver s)); reflexivity. }
    destruct (IH fuel (i + 1) (afterDiagRec drv (i + 1) s))
      as (s' & Hrun & Hinfo & Hcalls & Hdrv).
    + lia.
    + lia.
    + lia.
    + intros j Hj. rewrite Hd. apply Hok. lia.
    + rewrite Hd. replace (i + 1 + Z.of_nat n + 1)
        with (i + Z.of_nat (S n) + 1) by lia. exact Hlast.
    + exists s'. split; [exact Hrun |]. rewrite Hd in *.
      replace (i + 1 + Z.of_nat n + 1)
        with (i + Z.of_nat (S n) + 1) in Hinfo by lia.
      subst last. rewrite Hinfo, Hcalls, Hdrv. unfold afterDiagRec.
      pose proof (Hok (i + 1) ltac:(lia)) as H1.
      destruct (SQLGetDiagRec drv (i + 1) (driver s)) as [rc rec] eqn:E.
      cbn [fst] in H1. subst rc. fields.
      change (SQL_SUCCEEDED SQL_SUCCESS) with true. cbv iota.
      cbn [indicesFrom map]. rewrite E. cbn [snd].
      rewrite <- !app_assoc. cbn [app]. auto.
Qed.

(** C8, as the code has it: [addErrors] asks for the diagnostic records at
    the indices 1, 2, ... in turn and appends them in that order; it stops
    at the first call that does not return [SQL_SUCCESS].  The record of
    that last call is dropped when the call did not succeed (no more
    records, or an error status) and kept when it returned
    success-with-info. *)
Theorem addErrors_accumulates (fuel n : nat) (s : Stmt D B) :
  (n < fuel)%nat ->
  Z.of_nat n + 1 <= 32767 ->
  (forall j, 1 <= j <= Z.of_nat n ->
     fst (SQLGetDiagRec drv j (driver s)) = SQL_SUCCESS) ->
  fst (SQLGetDiagRec drv (Z.of_nat n + 1) (driver s)) <> SQL_SUCCESS ->
  let last := SQLGetDiagRec drv (Z.of_nat n + 1) (driver s) in
  exists s',
    addErrors drv fuel s = (Ok tt, s') /\
    _errorInfo s' =
      _errorInfo s ++
      map (fun j => snd (SQLGetDiagRec drv j (driver s))) (indicesFrom 0 n) ++
      (if SQL_SUCCEEDED (fst last) then [snd last] else []) /\
    calls s' = calls s ++ map CallGetDiagRec (indicesFrom 0 (S n)) /\
    driver s' = driver s.
Proof.
  intros Hfuel Hmax Hok Hlast. unfold addErrors.
  apply (addErrors_loop_run n fuel 0 s); try lia.
  - intros j Hj. apply Hok. lia.
  - exact Hlast.
Qed.

End Diagnostics.

(** ** Format errors while discovering the columns *)

Section FormatError.
Context {D B : Type}.
Variable drv : Driver D.
Variable sup : StatementImpl D B.
Variable fuel : nat.

Lemma isStoredProcedure_callStyle (s : Stmt D B) :
  isStoredProcedure sup s = true <->
  callStyle (trimInPlace (toString sup (base s))).
Proof.
  unfold isStoredProcedure, callStyle.
  set (str := trimInPlace (toString sup (base s))).
  destruct (Nat.ltb_spec (String.length str) 2) as [Hlt | Hge].
  - split; [discriminate | intros [H _]; lia].
  - destruct (String.get 0 str) as [first |];
      [ | split; [discriminate | intros (_ & H & _); discriminate] ].
    destruct (String.get (String.length str - 1) str) as [last |];
      [ | split; [discriminate | intros (_ & _ & H); discriminate] ].
    rewrite andb_true_iff, !Ascii.eqb_eq. split.
    + intros [-> ->]. auto.
    + intros (_ & H1 & H2). inversion H1. inversion H2. auto.
Qed.

Lemma bind_ext {A C} (m : M D B A) (k k' : A -> M D B C) s :
  (forall a s1, k a s1 = k' a s1) -> bind m k s = bind m k' s.
Proof.
  intros H. unfold bind. destruct (m s) as [[a | e | f] s1]; auto.
Qed.

Lemma compileImpl_unfold (s : Stmt D B) :
  _canCompile s = true ->
  compileImpl drv sup fuel s =
    (run compileSetup sup in
     run makeInternalExtractors drv sup in
     run doPrepare drv sup fuel in
     modify (set_canCompile false)) s.
Proof.
  intros Hc. unfold compileImpl, compileSetup, makeBinder.
  rewrite bind_gets, Hc. cbn [negb].
  repeat (rewrite ?bind_bind; first [reflexivity | apply bind_ext; intros]).
Qed.

(** A step that leaves the whole object as it was. *)
Ltac pure E :=
  match type of E with
  | ?m ?s = (_, ?s') =>
      let P := fresh "P" in
      assert (P : preserves (fun x : Stmt _ _ => x) m)
        by (unfold maxFieldSizeProperty;
            unfold castString, castInt, castSizeT, castTypeInfo,
              TextEncoding_find;
            repeat first [apply preserves_property | preserves_step]);
      apply P in E; cbv beta in E; subst s'
  end.

Lemma addPreparator_Ok (s s' : Stmt D B) :
  addPreparator sup s = (Ok tt, s') ->
  (exists p, _preparations s' = _preparations s ++ [p]) /\
  (exists e, _extractors s' = _extractors s ++ [e]) /\
  base s' = base s /\ driver s' = driver s /\ calls s' = calls s.
Proof.
  unfold addPreparator. intros H. bind_inv H.
  pure E. pure E1. pure E2. pure E3. pure E4. pure E5.
  inversion E6; subst. inversion H; subst. clear E6 H. fields.
  assert (Hprep : (exists p, _preparations s1 = _preparations s ++ [p]) /\
                  _extractors s1 = _extractors s /\ base s1 = base s /\
                  driver s1 = driver s /\ calls s1 = calls s).
  { destruct (Nat.eqb 0 (length a)).
    - bind_inv E0. inversion E; subst. clear E.
      destruct (Nat.eqb (String.length (toString sup (base s0))) 0);
        [discriminate |].
      bind_inv E0. pure E. pure E1. inversion E2; subst.
      inversion E0; subst. fields. eauto 10.
    - bind_inv E0. pure E. inversion E1; subst. inversion E0; subst.
      fields. eauto 10. }
  destruct Hprep as (Hp & He & Hb & Hd & Hc).
  rewrite He, Hb, Hd, Hc. eauto 10.
Qed.

Lemma describeColumn_frame {X} (f : Stmt D B -> X) i :
  (forall s d, f (set_base (base s) (set_driver d s)) = f s) ->
  preserves f
    (externCall (fun '(d, b) =>
       let '(r, d') := describeColumn drv i d in (r, (d', b)))).
Proof.
  intros Hf s r s'. unfold externCall.
  destruct (describeColumn drv i (driver s)) as [r' d'].
  intros H. inversion H. apply Hf.
Qed.

Lemma fillColumns_frame {X} (f : Stmt D B -> X) :
  (forall s d, f (set_base (base s) (set_driver d s)) = f s) ->
  (forall s c, f (set_columnPtrs c s) = f s) ->
  preserves f (fillColumns drv sup).
Proof.
  intros Hd Hc.
  assert (Hloop : forall cur n i, preserves f (fillColumns_loop drv cur n i)).
  { intros cur n. induction n as [| n IH]; intros i; cbn [fillColumns_loop].
    - apply preserves_ret.
    - apply preserves_bind; [now apply describeColumn_frame | intros col].
      apply preserves_bind; [ | intros; apply IH ].
      apply preserves_modify. auto. }
  unfold fillColumns. preserves_tac. apply Hloop.
Qed.

Lemma makeBinder_frame {X} (f : Stmt D B -> X) :
  (forall s n, f (set_heapNext n s) = f s) ->
  (forall s b, f (set_pBinder b s) = f s) ->
  preserves f (makeBinder sup).
Proof.
  intros Hn Hb. unfold makeBinder, maxFieldSizeProperty.
  unfold castString, castInt, castSizeT, castTypeInfo, TextEncoding_find.
  repeat first [ apply preserves_property | apply preserves_new; auto
               | preserves_step ].
Qed.

Lemma addPreparator_frame {X} (f : Stmt D B -> X) :
  (forall s n, f (set_heapNext n s) = f s) ->
  (forall s l, f (set_preparations l s) = f s) ->
  (forall s l, f (set_extractors l s) = f s) ->
  preserves f (addPreparator sup).
Proof.
  intros Hn Hp He. unfold addPreparator, maxFieldSizeProperty.
  unfold castString, castInt, castSizeT, castTypeInfo, TextEncoding_find.
  repeat first [ apply preserves_property | apply preserves_new; auto
               | preserves_step ].
Qed.

Lemma compileSetup_frame {X} (f : Stmt D B -> X) :
  (forall s n, f (set_heapNext n s) = f s) ->
  (forall s l, f (set_preparations l s) = f s) ->
  (forall s l, f (set_extractors l s) = f s) ->
  (forall s b, f (set_pBinder b s) = f s) ->
  (forall s b, f (set_stepCalled b s) = f s) ->
  (forall s z, f (set_nextResponse z s) = f s) ->
  preserves f (compileSetup sup).
Proof.
  intros Hn Hp He Hb Hs Hr. unfold compileSetup.
  repeat first [ now apply addPreparator_frame | now apply makeBinder_frame
               | preserves_step ].
Qed.

Lemma compileSetup_Ok (s s0 : Stmt D B) :
  compileSetup sup s = (Ok tt, s0) ->
  _preparations s0 <> [] /\ _extractors s0 <> [] /\
  base s0 = base s /\ _canCompile s0 = _canCompile s.
Proof.
  intros H.
  assert (Hbase : base s0 = base s)
    by (apply (compileSetup_frame base) in H; auto).
  assert (Hcan : _canCompile s0 = _canCompile s)
    by (apply (compileSetup_frame _canCompile) in H; auto).
  unfold compileSetup in H. do 5 bind_inv1 H.
  destruct a3. apply addPreparator_Ok in E3.
  destruct E3 as ([p Hp] & [e He] & _).
  rewrite (makeBinder_frame _preparations ltac:(auto) ltac:(auto) _ _ _ H).
  rewrite (makeBinder_frame _extractors ltac:(auto) ltac:(auto) _ _ _ H).
  rewrite Hp, He. repeat split; auto;
    intros Habs; apply app_eq_nil in Habs; destruct Habs; discriminate.
Qed.

Lemma doPrepare_no_extractions (s : Stmt D B) :
  extractions sup (base s) = [] ->
  (currentDataSet sup (base s) < length (_preparations s))%nat ->
  doPrepare drv sup fuel s =
    (Ok tt,
     if getFeature sup "autoExtract" (base s) && hasData drv s
     then set_prepared true s else s).
Proof.
  intros He Hcur. destruct (lookup_lt_is_Some_2 _ _ Hcur) as [pP HpP].
  unfold doPrepare. mred.
  destruct (getFeature sup "autoExtract" (base s) && hasData drv s);
    [ | reflexivity ].
  mred. unfold index. rewrite HpP. mred. rewrite He. mred.
  cbn [doPrepare_loop]. mred. reflexivity.
Qed.

Lemma makeInternalExtractors_format_error (s s1 : Stmt D B) msg :
  hasData drv s = true ->
  extractions sup (base s) = [] ->
  fillColumns drv sup s = (Throw (DataFormatException msg), s1) ->
  makeInternalExtractors drv sup s =
    (if isStoredProcedure sup s then Ok tt
     else Throw (DataFormatException msg), s1).
Proof.
  intros Hd He Hf.
  assert (Hb : base s1 = base s)
    by (apply (fillColumns_frame base) in Hf; auto).
  unfold makeInternalExtractors. mred. rewrite Hd, He.
  cbn [length Nat.eqb andb]. unfold try_catch at 1. unfold bind at 1.
  rewrite (bind_Throw _ _ _ _ _ Hf). cbn [is_DataFormatException].
  mred. unfold isStoredProcedure. rewrite Hb.
  fold (isStoredProcedure sup s).
  destruct (isStoredProcedure sup s); reflexivity.
Qed.

End FormatError.

(** ** Advancing to the next data set *)

Section NextDataSet.
Context {D B : Type}.
Variable drv : Driver D.
Variable sup : StatementImpl D B.
Variable fuel : nat.

Lemma next_no_row (s : Stmt D B) :
  nextRowReady s = false ->
  next sup s =
    (Throw (StatementException
              "ODBCStatementImpl::next():Next row not available."), s).
Proof. intros H. unfold next. rewrite bind_gets, H. reflexivity. Qed.

Lemma hasNext_no_row_more_results (s s0 s1 : Stmt D B) n b2 rc d2 :
  hasData drv s = true ->
  ensurePrepared drv sup fuel s = (Ok tt, s0) ->
  _stepCalled s0 = false ->
  makeStep drv sup fuel s0 = (Ok tt, s1) ->
  nextRowReady s1 = false ->
  hasMoreDataSets sup (base s1) = true ->
  activateNextDataSet sup (base s1) = (Ok n, b2) ->
  SQLMoreResults drv (driver s1) = (rc, d2) ->
  rc <> SQL_NO_DATA ->
  hasNext drv sup fuel s =
    (run rebuildAndFetch drv sup fuel in ret true)
      (set_calls (calls s1 ++ [CallMoreResults])
         (set_driver d2 (set_base b2 s1))).
Proof.
  intros Hdata Hens Hstep Hmake Hready Hmore Hact Hres Hrc.
  unfold ensurePrepared in Hens. do 3 bind_inv1 Hens.
  inversion E; subst; clear E. inversion E1; subst; clear E1. destruct a0.
  unfold hasNext. rewrite bind_gets, Hdata. rewrite bind_gets.
  rewrite (bind_Ok _ _ _ _ _ E0). rewrite bind_gets.
  rewrite (bind_Ok _ _ _ _ _ Hens). rewrite bind_gets, Hstep.
  rewrite (bind_Ok _ _ _ _ _ Hmake). rewrite bind_gets, Hready. cbn [negb].
  rewrite bind_gets, Hmore.
  unfold baseCall at 1. unfold bind at 1. rewrite Hact.
  unfold driverCall at 1. unfold bind at 1. fields. rewrite Hres.
  destruct (Z.eqb_spec SQL_NO_DATA rc) as [E | _]; [congruence |].
  unfold rebuildAndFetch.
  repeat (rewrite ?bind_bind; first [reflexivity | apply bind_ext; intros]).
Qed.

End NextDataSet.

(** ** Further properties of the member functions *)

(** ** Driver return codes checked by [checkError] *)

Ltac fields_in H :=
  cbn [_preparations _pBinder _extractors _stepCalled _nextResponse
       _columnPtrs _prepared _affectedRowCount _canCompile _errorInfo
       heapNext driver calls base
       set_preparations set_pBinder set_extractors set_stepCalled
       set_nextResponse set_columnPtrs set_prepared set_affectedRowCount
       set_canCompile set_errorInfo set_heapNext set_driver set_calls
       set_base] in H.

Ltac frame_step :=
  first
    [ apply preserves_driverCall; intros; solve [auto]
    | apply preserves_externCall; intros; solve [auto]
    | apply preserves_baseCall; intros; solve [auto]
    | apply preserves_new; intros; solve [auto]
    | apply preserves_property
    | preserves_step ].

Ltac frame_tac := repeat frame_step.

Section CheckError.
Context {D B : Type}.
Variable drv : Driver D.
Variable sup : StatementImpl D B.
Variable fuel : nat.

Lemma addErrors_loop_frame {X} (f : Stmt D B -> X) n i :
  (forall s d l, f (set_calls l (set_driver d s)) = f s) ->
  (forall s l, f (set_errorInfo l s) = f s) ->
  preserves f (addErrors_loop (B := B) drv n i).
Proof.
  intros Hd He. revert i.
  induction n as [| n IH]; intros i; simpl; frame_tac.
  apply IH.
Qed.

Lemma nativeSQL_loop_frame {X} (f : Stmt D B -> X) n statement retlen :
  (forall s d l, f (set_calls l (set_driver d s)) = f s) ->
  preserves f (nativeSQL_loop (B := B) drv n statement retlen).
Proof.
  intros Hd. revert retlen.
  induction n as [| n IH]; intros retlen; simpl; frame_tac.
  apply IH.
Qed.

Lemma checkError_frame {X} (f : Stmt D B -> X) rc msg :
  (forall s d l, f (set_calls l (set_driver d s)) = f s) ->
  (forall s l, f (set_errorInfo l s) = f s) ->
  preserves f (checkError drv sup fuel rc msg).
Proof.
  intros Hd He. unfold checkError, nativeSQL, addErrors. frame_tac.
  - now apply nativeSQL_loop_frame.
  - now apply addErrors_loop_frame.
Qed.

Lemma addErrors_loop_no_throw n : forall i (s : Stmt D B) e s',
  addErrors_loop drv n i s <> (Throw e, s').
Proof.
  induction n as [| n IH]; intros i s e s'.
  - discriminate.
  - rewrite addErrors_loop_step. cbv zeta.
    destruct (_ =? SQL_SUCCESS); [apply IH | discriminate].
Qed.


Lemma checkError_Ok_inv rc msg (s s' : Stmt D B) :
  checkError drv sup fuel rc msg s = (Ok tt, s') ->
  isError rc = false \/ rc = SQL_NO_DATA.
Proof.
  unfold checkError.
  destruct (Z.eqb_spec rc SQL_NO_DATA) as [E | _]; [auto |].
  destruct (isError rc); [ | auto ].
  intros H. bind_inv H. discriminate.
Qed.


End CheckError.

Section Keeps.
Context {D B : Type}.

Lemma keeps_preserves {A X} (f : Stmt D B -> X) (m : M D B A) :
  preserves f m -> keeps f m.
Proof. intros H s r s' E _. eapply H, E. Qed.

Lemma keeps_bind {A C X} (f : Stmt D B -> X) (m : M D B A) (k : A -> M D B C) :
  preserves f m -> (forall a, keeps f (k a)) -> keeps f (bind m k).
Proof.
  intros Hm Hk s r s'. unfold bind.
  destruct (m s) as [[a | e | x] s1] eqn:E; intros H Hf.
  - rewrite (Hk a _ _ _ H Hf). eapply Hm, E.
  - inversion H; subst. eapply Hm, E.
  - inversion H; subst. eapply Hm, E.
Qed.

Lemma keeps_modify {X} (f : Stmt D B -> X) g : keeps f (modify g).
Proof. intros s r s' H Hf. inversion H; subst. destruct Hf. Qed.

Lemma keeps_ret {A X} (f : Stmt D B -> X) (a : A) : keeps f (ret a).
Proof. apply keeps_preserves, preserves_ret. Qed.

End Keeps.

Section MakeStep.
Context {D B : Type}.
Variable drv : Driver D.
Variable sup : StatementImpl D B.
Variable fuel : nat.

Lemma makeStep_keeps_stepCalled :
  keeps _stepCalled (makeStep drv sup fuel).
Proof.
  unfold makeStep.
  repeat (apply keeps_bind; [ | intros ]);
    try apply keeps_modify;
    first [ apply checkError_frame; solve [auto] | frame_tac ].
Qed.

Lemma makeStep_Ok_stepCalled (s s' : Stmt D B) a :
  makeStep drv sup fuel s = (Ok a, s') -> _stepCalled s' = true.
Proof.
  intros H. unfold makeStep in H. bind_inv H. inversion H; subst. reflexivity.
Qed.

(** X2: after [makeStep] has returned normally the step is marked as
    performed, and either a row is ready or the response on record is
    exactly [SQL_NO_DATA]; the Extractor of the current data set has been
    reset and no other Extractor has changed.  When [makeStep] does not
    return normally, the step flag is as it was. *)
Theorem makeStep_postcondition (s : Stmt D B) r s' :
  makeStep drv sup fuel s = (r, s') ->
  (r = Ok tt ->
     _stepCalled s' = true /\
     (nextRowReady s' = true \/ _nextResponse s' = SQL_NO_DATA) /\
     exists e,
       _extractors s !! currentDataSet sup (base s) = Some e /\
       _extractors s' = <[currentDataSet sup (base s) := reset e]> (_extractors s)) /\
  (r <> Ok tt -> _stepCalled s' = _stepCalled s).
Proof.
  intros H. split.
  - intros ->. unfold makeStep in H. bind_inv H.
    inversion E; subst; clear E. inversion E0; subst; clear E0.
    unfold index in E1.
    destruct (_extractors s1 !! currentDataSet sup (base s1)) as [e |] eqn:Hl;
      [ | discriminate ].
    inversion E1; subst; clear E1. inversion E2; subst; clear E2.
    inversion E4; subst; clear E4. inversion E6; subst; clear E6.
    inversion H; subst; clear H. destruct a7.
    pose proof (checkError_Ok_inv _ _ _ _ _ _ _ E7) as Hrc.
    pose proof (checkError_frame drv sup fuel _nextResponse _ _
                  ltac:(auto) ltac:(auto) _ _ _ E7) as Hresp.
    pose proof (checkError_frame drv sup fuel _extractors _ _
                  ltac:(auto) ltac:(auto) _ _ _ E7) as Hex.
    assert (Hex4 : _extractors s7 =
                   <[currentDataSet sup (base s2) := reset a1]> (_extractors s2)).
    { assert (P : preserves (D := D) (B := B) _extractors
                    (when (isError a3)
                       (let* sd := gets (fun s => diagnosticStates drv (driver s)) in
                        when (existsb (String.eqb INVALID_CURSOR_STATE) sd)
                          (let* rc' := driverCall CallMoreResults (SQLMoreResults drv) in
                           modify (set_nextResponse rc')))))
        by frame_tac.
      rewrite (P _ _ _ E5). fields.
      unfold driverCall in E3. destruct (SQLFetch drv _) in E3.
      inversion E3; subst. reflexivity. }
    fields. split; [reflexivity | split].
    + unfold nextRowReady. fields. rewrite Hresp.
      destruct Hrc as [-> | ->]; auto.
    + exists a1. split; [reflexivity |]. now rewrite Hex, Hex4.
  - intros Hr. apply (makeStep_keeps_stepCalled _ _ _ H).
    destruct r as [[] | |]; simpl; auto.
Qed.

End MakeStep.

Section Fetch.
Context {D B : Type}.
Variable drv : Driver D.
Variable sup : StatementImpl D B.
Variable fuel : nat.

(** X3: the workaround for the invalid cursor state.  When the fetch
    answers with an error code (which [SQL_NO_DATA] counts as) while a
    diagnostic with SQL state 24000 is on record, [makeStep] asks for more
    results, and when that answers [SQL_NO_DATA] it returns normally: no
    row is ready, no diagnostics are collected, and the driver has seen the
    fetch and the more-results call. *)
Theorem makeStep_invalid_cursor_state (s : Stmt D B) e rc d1 d2 :
  _extractors s !! currentDataSet sup (base s) = Some e ->
  SQLFetch drv (driver s) = (rc, d1) ->
  isError rc = true ->
  In INVALID_CURSOR_STATE (diagnosticStates drv d1) ->
  SQLMoreResults drv d1 = (SQL_NO_DATA, d2) ->
  exists s',
    makeStep drv sup fuel s = (Ok tt, s') /\
    _nextResponse s' = SQL_NO_DATA /\
    nextRowReady s' = false /\
    _stepCalled s' = true /\
    _errorInfo s' = _errorInfo s /\
    calls s' = calls s ++ [CallFetch; CallMoreResults].
Proof.
  intros He Hf Herr Hin Hm.
  assert (Hex : existsb (String.eqb INVALID_CURSOR_STATE)
                  (diagnosticStates drv d1) = true).
  { apply existsb_exists. exists INVALID_CURSOR_STATE.
    split; [exact Hin | apply String.eqb_refl]. }
  unfold makeStep. mred. unfold index. rewrite He. mred.
  unfold driverCall at 1. unfold bind at 1. fields. rewrite Hf.
  mred. rewrite Herr. cbn [when]. mred. fields. rewrite Hex. cbn [when].
  mred. unfold driverCall at 1. unfold bind at 1. fields. rewrite Hm.
  mred. fields. cbn [checkError Z.eqb SQL_NO_DATA]. mred.
  eexists. split; [reflexivity |]. fields.
  rewrite <- app_assoc. auto 10.
Qed.

Lemma hasNext_true_stepCalled (s s1 : Stmt D B) :
  hasNext drv sup fuel s = (Ok true, s1) -> _stepCalled s1 = true.
Proof.
  unfold hasNext. rewrite bind_gets.
  destruct (hasData drv s); [ | discriminate ].
  intros H. do 5 bind_inv1 H.
  inversion E3; subst; clear E3.
  match type of H with
  | (if ?b then _ else _) _ = _ => destruct b
  end.
  - bind_inv H. inversion E3; subst. inversion E4; subst. inversion H; subst.
    reflexivity.
  - do 2 bind_inv1 H.
    match goal with
    | E : makeStep _ _ _ _ = (Ok _, _) |- _ =>
        apply makeStep_Ok_stepCalled in E; rename E into Hst
    end.
    inversion E4; subst; clear E4.
    match type of H with
    | (if negb ?b then _ else _) _ = _ => destruct b; cbn [negb] in H
    end.
    + bind_inv H. inversion E3; subst. inversion H; subst.
      rewrite <- Hst.
      match goal with
      | E : when ?c ?m ?t = _ |- _ =>
          assert (P : preserves (D := D) (B := B) _stepCalled (when c m))
            by (apply preserves_when; apply checkError_frame; auto);
          exact (P _ _ _ E)
      end.
    + bind_inv1 H. inversion E3; subst; clear E3.
      match type of H with
      | (if ?b then _ else _) _ = _ => destruct b; [ | discriminate ]
      end.
      do 2 bind_inv1 H.
      match type of H with
      | (if ?b then _ else _) _ = _ => destruct b; [discriminate | ]
      end.
      bind_inv H. inversion H; subst.
      match goal with
      | E : makeStep _ _ _ _ = (Ok _, _) |- _ =>
          exact (makeStep_Ok_stepCalled _ _ _ _ _ _ E)
      end.
Qed.

(** X5: whenever [hasNext] has answered true, a step is on record as
    performed; calling [hasNext] again on a prepared statement with data
    and extractions answers from the response on record, records that
    answer in the step flag, and issues no driver call. *)
Theorem hasNext_again_does_not_fetch (s s1 : Stmt D B) :
  hasNext drv sup fuel s = (Ok true, s1) ->
  hasData drv s1 = true ->
  extractions sup (base s1) <> [] ->
  _prepared s1 = true ->
  _stepCalled s1 = true /\
  hasNext drv sup fuel s1 =
    (Ok (nextRowReady s1), set_stepCalled (nextRowReady s1) s1).
Proof.
  intros H Hd He Hp.
  pose proof (hasNext_true_stepCalled _ _ H) as Hs. split; [exact Hs |].
  unfold hasNext. mred. rewrite Hd. mred.
  destruct (extractions sup (base s1)) as [| e es]; [congruence |].
  cbn [length Nat.eqb when]. mred. rewrite Hp. cbn [negb when]. mred.
  rewrite Hs. mred. reflexivity.
Qed.

End Fetch.

Section Next.
Context {D B : Type}.
Variable sup : StatementImpl D B.

Lemma next_loop_frame {X} (f : Stmt D B -> X) it : forall pos prev count,
  (forall s d b, f (set_base b (set_driver d s)) = f s) ->
  preserves f (next_loop it pos prev count).
Proof.
  induction it as [| e it IH]; intros pos prev count Hf; cbn [next_loop];
    frame_tac. now apply IH.
Qed.

Lemma next_loop_uniform (it : list (AbstractExtraction D B)) : forall counts pos c (s : Stmt D B),
  c <> 0 ->
  Forall2 reports it counts ->
  exists s',
    next_loop it pos c c s =
      (if forallb (Z.eqb c) counts then Ok c
       else Throw (IllegalStateException "Different extraction counts"), s').
Proof.
  induction it as [| e it IH]; intros counts pos c s Hc Hrep;
    inversion Hrep as [| ? c1 ? counts' He Hrest]; subst; cbn [next_loop forallb].
  - eexists. reflexivity.
  - unfold externCall at 1. unfold bind at 1.
    destruct (He pos (driver s, base s)) as [[d b] Hx]. rewrite Hx.
    destruct (Z.eqb_spec c 0) as [E | _]; [contradiction |]. cbn [negb andb].
    rewrite (Z.eqb_sym c1 c).
    destruct (Z.eqb_spec c c1) as [<- | Hne]; cbn [negb andb].
    + apply IH; auto.
    + eexists. reflexivity.
Qed.

Lemma next_uniform_run (s : Stmt D B) c counts :
  nextRowReady s = true ->
  Forall2 reports (extractions sup (base s)) (c :: counts) ->
  c <> 0 ->
  forallb (Z.eqb c) counts = true ->
  exists s',
    next sup s = (Ok c, s') /\ _stepCalled s' = false /\ calls s' = calls s.
Proof.
  intros Hr Hrep Hc Hall. unfold next. rewrite bind_gets, Hr. rewrite bind_gets.
  inversion Hrep as [| e ? it ? He Hrest Hl]; subst. cbn [length Nat.eqb].
  cbn [next_loop]. rewrite bind_bind.
  unfold externCall at 1. unfold bind at 1.
  destruct (He 0%nat (driver s, base s)) as [[d b] Hx]. rewrite Hx.
  cbn [Z.eqb negb andb].
  destruct (next_loop_uniform it counts (0 + ex_numOfColumnsHandled e)%nat c
              (set_base b (set_driver d s)) Hc Hrest) as [s' Hs'].
  rewrite Hall in Hs'.
  pose proof (next_loop_frame calls _ _ _ _ ltac:(auto) _ _ _ Hs') as Hcl.
  rewrite (bind_Ok _ _ _ _ _ Hs'). mred. eexists. split; [reflexivity |].
  fields. auto.
Qed.

(** X8: a row is ready, the output bindings report fixed counts and
    the first count [c] is not zero.  Then [next] returns [c] and clears the
    step flag when every other binding reports [c] too, and otherwise
    raises the exception for different extraction counts and leaves the
    step flag as it was; it issues no driver call of its own. *)
Theorem next_nonzero_counts (s : Stmt D B) c counts :
  nextRowReady s = true ->
  Forall2 reports (extractions sup (base s)) (c :: counts) ->
  c <> 0 ->
  exists s',
    next sup s =
      (if forallb (Z.eqb c) counts then Ok c
       else Throw (IllegalStateException "Different extraction counts"), s') /\
    _stepCalled s' = (if forallb (Z.eqb c) counts then false else _stepCalled s) /\
    calls s' = calls s.
Proof.
  intros Hr Hrep Hc. unfold next. rewrite bind_gets, Hr. rewrite bind_gets.
  inversion Hrep as [| e ? it ? He Hrest Hl]; subst. cbn [length Nat.eqb].
  cbn [next_loop]. rewrite bind_bind.
  unfold externCall at 1. unfold bind at 1.
  destruct (He 0%nat (driver s, base s)) as [[d b] Hx]. rewrite Hx.
  cbn [Z.eqb negb andb].
  destruct (next_loop_uniform it counts (0 + ex_numOfColumnsHandled e)%nat c
              (set_base b (set_driver d s)) Hc Hrest) as [s' Hs'].
  pose proof (next_loop_frame _stepCalled _ _ _ _ ltac:(auto) _ _ _ Hs') as Hst.
  pose proof (next_loop_frame calls _ _ _ _ ltac:(auto) _ _ _ Hs') as Hcl.
  destruct (forallb (Z.eqb c) counts).
  - rewrite (bind_Ok _ _ _ _ _ Hs'). mred. eexists. split; [reflexivity |].
    fields. auto.
  - rewrite (bind_Throw _ _ _ _ _ Hs'). eexists. split; [reflexivity |]. auto.
Qed.

Lemma metaColumn_lookup (pos : nat) (s : Stmt D B) :
  metaColumn sup pos s =
    (match _columnPtrs s !! currentDataSet sup (base s) with
     | None =>
         Throw (IllegalStateException "currentDataSet index out of range")
     | Some cols =>
         match cols !! pos with
         | Some col => Ok col
         | None =>
             Throw (InvalidAccessException
                      (format sup "Invalid column number: %u" (Z.of_nat pos)))
         end
     end, s).
Proof.
  unfold metaColumn. mred.
  destruct (_columnPtrs s !! currentDataSet sup (base s)) as [cols |];
    [ | reflexivity ].
  destruct (Nat.eqb_spec 0 (length cols)) as [E | E]; cbn [orb].
  - destruct cols; [reflexivity | discriminate].
  - destruct (Nat.ltb_spec (length cols - 1) pos) as [Hlt | Hge].
    + rewrite (lookup_ge_None_2 cols pos) by lia. reflexivity.
    + unfold index.
      destruct (lookup_lt_is_Some_2 cols pos ltac:(lia)) as [col ->].
      reflexivity.
Qed.

(** X9: [metaColumn] returns the descriptor at [pos] exactly when the
    current data set has descriptors and [pos] is among them; it raises
    the illegal-state exception when the data set has none on record, the
    invalid-access exception, whose message is the format
    ["Invalid column number: %u"] filled in with [pos], when [pos] is past
    the last one (also when the list is empty), and never modifies the
    object or reads out of range. *)
Theorem metaColumn_bounds (pos : nat) (s : Stmt D B) :
  (forall col,
     metaColumn sup pos s = (Ok col, s) <->
     exists cols,
       _columnPtrs s !! currentDataSet sup (base s) = Some cols /\
       cols !! pos = Some col) /\
  (_columnPtrs s !! currentDataSet sup (base s) = None ->
   metaColumn sup pos s =
     (Throw (IllegalStateException "currentDataSet index out of range"), s)) /\
  (forall cols,
     _columnPtrs s !! currentDataSet sup (base s) = Some cols ->
     (length cols <= pos)%nat ->
     metaColumn sup pos s =
       (Throw (InvalidAccessException
                 (format sup "Invalid column number: %u" (Z.of_nat pos))), s)).
Proof.
  rewrite metaColumn_lookup. split; [ | split ].
  - intros col. split.
    + destruct (_columnPtrs s !! _) as [cols |]; [ | discriminate ].
      destruct (cols !! pos) as [c |] eqn:E; [ | discriminate ].
      intros H. inversion H; subst. eauto.
    + intros (cols & -> & ->). reflexivity.
  - intros ->. reflexivity.
  - intros cols -> Hle. now rewrite (lookup_ge_None_2 cols pos).
Qed.

End Next.

Section Columns.
Context {D B : Type}.
Variable drv : Driver D.
Variable sup : StatementImpl D B.



End Columns.

Section Native.
Context {D B : Type}.
Variable drv : Driver D.
Variable sup : StatementImpl D B.

Lemma to_int_small z : - 2 ^ 31 <= z < 2 ^ 31 -> to_int z = z.
Proof. intros H. unfold to_int. rewrite Z.mod_small; lia. Qed.

(** X11: when the driver accepts the statement and reports the same
    required length [n] whatever the buffer, [nativeSQL] returns after at
    most two calls: one with a buffer of twice the statement's length, and,
    only when that is shorter than [n + 1], a second one with a buffer of
    [n + 1]. *)
Theorem nativeSQL_at_most_two_calls (fuel : nat) (s : Stmt D B) (n : Z) :
  (2 <= fuel)%nat ->
  0 <= n < 2 ^ 31 - 1 ->
  (forall len d,
     isError (fst (fst (fst (SQLNativeSql drv (toString sup (base s)) len d))))
       = false /\
     snd (fst (SQLNativeSql drv (toString sup (base s)) len d)) = n) ->
  let len0 := to_int (Z.of_nat (String.length (toString sup (base s))) * 2) in
  exists native s',
    nativeSQL drv sup fuel s = (Ok native, s') /\
    calls s' = calls s ++
      (if len0 <? n + 1
       then [CallNativeSql len0; CallNativeSql (n + 1)]
       else [CallNativeSql len0]).
Proof.
  intros Hfuel Hn Hdrv len0. unfold nativeSQL. rewrite bind_gets. fold len0.
  destruct fuel as [| [| fuel]]; [lia | lia |].
  cbn [nativeSQL_loop]. unfold driverCall at 1. unfold bind at 1.
  pose proof (Hdrv len0 (driver s)) as H1.
  destruct (SQLNativeSql drv (toString sup (base s)) len0 (driver s))
    as [[[rc buf] r] d1]. cbn [fst snd] in H1. destruct H1 as [Hrc ->].
  rewrite Hrc. rewrite to_int_small by lia.
  destruct (len0 <? n + 1).
  - unfold driverCall at 1. unfold bind at 1. fields.
    pose proof (Hdrv (n + 1) d1) as H2.
    destruct (SQLNativeSql drv (toString sup (base s)) (n + 1) d1)
      as [[[rc2 buf2] r2] d2]. cbn [fst snd] in H2. destruct H2 as [Hrc2 ->].
    rewrite Hrc2. rewrite to_int_small by lia. rewrite Z.ltb_irrefl.
    eexists _, _. split; [reflexivity |]. fields. now rewrite <- app_assoc.
  - eexists _, _. split; [reflexivity |]. reflexivity.
Qed.

End Native.

Section RowCount.
Context {D B : Type}.
Variable drv : Driver D.
Variable sup : StatementImpl D B.
Variable fuel : nat.

Lemma to_int_to_size_t z : - 2 ^ 31 <= z < 2 ^ 31 -> to_int (to_size_t z) = z.
Proof.
  intros H. unfold to_int, to_size_t.
  destruct (Z.lt_ge_cases z 0) as [Hneg | Hpos].
  - replace (z mod 2 ^ 64) with (z + 2 ^ 64).
    + replace (z + 2 ^ 64 + 2 ^ 31) with (z + 2 ^ 31 + 2 ^ 32 * 2 ^ 32) by lia.
      rewrite Z_mod_plus_full. rewrite Z.mod_small; lia.
    + apply (Zmod_unique _ _ (-1)); lia.
  - rewrite (Z.mod_small z) by lia. rewrite Z.mod_small; lia.
Qed.

(** X12: with nothing cached, [affectedRowCount] asks the driver once
    and never throws: a failing row-count call yields 0 and leaves the
    cache empty, and a count within the range of [int], negative ones such
    as -1 included, is returned as the driver gave it. *)
Theorem affectedRowCount_reports_driver_value (s : Stmt D B) rc rows d :
  _affectedRowCount s = 0 ->
  SQLRowCount drv (driver s) = (rc, rows, d) ->
  - 2 ^ 31 <= rows < 2 ^ 31 ->
  exists s',
    affectedRowCount drv s = (Ok (if isError rc then 0 else rows), s') /\
    _affectedRowCount s' = (if isError rc then 0 else to_size_t rows) /\
    calls s' = calls s ++ [CallRowCount] /\
    driver s' = d.
Proof.
  intros H0 Hd Hr. rewrite (affectedRowCount_unknown drv s H0).
  unfold afterRowCount, reportedRows. rewrite Hd.
  destruct (isError rc); eexists; split.
  - reflexivity.
  - fields. auto.
  - rewrite to_int_to_size_t by exact Hr. reflexivity.
  - fields. auto.
Qed.

Lemma addErrors_loop_calls n : forall i (s : Stmt D B) r s',
  addErrors_loop drv n i s = (r, s') -> exists rest, calls s' = calls s ++ rest.
Proof.
  induction n as [| n IH]; intros i s r s' H.
  - inversion H; subst. exists []. now rewrite app_nil_r.
  - rewrite addErrors_loop_step in H. cbv zeta in H.
    assert (Hc : calls (afterDiagRec drv (to_SQLSMALLINT (i + 1)) s) =
                 calls s ++ [CallGetDiagRec (to_SQLSMALLINT (i + 1))]).
    { unfold afterDiagRec. destruct (SQLGetDiagRec drv _ _). reflexivity. }
    destruct (_ =? SQL_SUCCESS).
    + destruct (IH _ _ _ _ H) as [rest Hrest]. rewrite Hrest, Hc.
      rewrite <- app_assoc. eauto.
    + inversion H; subst. rewrite Hc. eauto.
Qed.

Lemma nativeSQL_loop_calls n : forall statement retlen (s : Stmt D B) r s',
  nativeSQL_loop drv n statement retlen s = (r, s') ->
  exists rest, calls s' = calls s ++ rest.
Proof.
  induction n as [| n IH]; intros statement retlen s r s' H;
    cbn [nativeSQL_loop] in H.
  - inversion H; subst. exists []. now rewrite app_nil_r.
  - revert H. unfold driverCall at 1. unfold bind at 1.
    destruct (SQLNativeSql drv statement retlen (driver s)) as [[[rc buf] x] d].
    destruct (isError rc).
    + intros H. inversion H; subst. fields. eauto.
    + destruct (_ <? _).
      * intros H. destruct (IH _ _ _ _ _ H) as [rest Hrest].
        rewrite Hrest. fields. rewrite <- app_assoc. eauto.
      * intros H. inversion H; subst. fields. eauto.
Qed.

Lemma checkError_calls rc msg (s : Stmt D B) r s' :
  checkError drv sup fuel rc msg s = (r, s') ->
  exists rest, calls s' = calls s ++ rest.
Proof.
  unfold checkError.
  destruct (rc =? SQL_NO_DATA);
    [intros H; inversion H; subst; exists []; now rewrite app_nil_r |].
  destruct (isError rc).
  - unfold nativeSQL. mred. unfold bind at 1.
    destruct (nativeSQL_loop drv fuel _ _ s) as [[native | e | x] s1] eqn:E;
      intros H; inversion H; subst; eapply nativeSQL_loop_calls, E.
  - destruct (rc =? SQL_SUCCESS_WITH_INFO).
    + apply addErrors_loop_calls.
    + intros H; inversion H; subst; exists []; now rewrite app_nil_r.
Qed.

(** X13: [execDirectImpl] starts with the direct execution of the query
    and returns normally only when the driver's answer is no error or is
    [SQL_NO_DATA].  It does not clear the statement: the step flag and the
    affected-row cache are as before, so a nonzero count cached earlier is
    what [affectedRowCount] returns afterwards. *)
Theorem execDirectImpl_keeps_cache (query : string) (s : Stmt D B) r s' :
  execDirectImpl drv sup fuel query s = (r, s') ->
  _affectedRowCount s' = _affectedRowCount s /\
  _stepCalled s' = _stepCalled s /\
  (exists rest, calls s' = calls s ++ CallExecDirect query :: rest) /\
  (r = Ok tt ->
   let rc := fst (SQLExecDirect drv query (driver s)) in
   isError rc = false \/ rc = SQL_NO_DATA) /\
  (_affectedRowCount s <> 0 ->
   affectedRowCount drv s' = (Ok (to_int (_affectedRowCount s)), s')).
Proof.
  intros H.
  assert (Ha : _affectedRowCount s' = _affectedRowCount s).
  { revert H. unfold execDirectImpl.
    apply preserves_bind; [frame_tac | intros; apply checkError_frame; auto]. }
  assert (Hs : _stepCalled s' = _stepCalled s).
  { revert H. unfold execDirectImpl.
    apply preserves_bind; [frame_tac | intros; apply checkError_frame; auto]. }
  split; [exact Ha | split; [exact Hs | split; [ | split ]]].
  - revert H. unfold execDirectImpl, driverCall. unfold bind at 1.
    destruct (SQLExecDirect drv query (driver s)) as [rc d]. intros H.
    destruct (checkError_calls _ _ _ _ _ H) as [rest Hrest].
    exists rest. rewrite Hrest. fields. now rewrite <- app_assoc.
  - intros ->. revert H. unfold execDirectImpl, driverCall. unfold bind at 1.
    destruct (SQLExecDirect drv query (driver s)) as [rc d]. cbn [fst].
    apply checkError_Ok_inv.
  - intros Hn. rewrite <- Ha. apply affectedRowCount_cached. now rewrite Ha.
Qed.

End RowCount.

Section Warnings.
Context {D B : Type}.
Variable drv : Driver D.
Variable sup : StatementImpl D B.
Variable fuel : nat.

Lemma afterDiagRec_driver i (s : Stmt D B) :
  driver (afterDiagRec drv i s) = driver s.
Proof. unfold afterDiagRec. destruct (SQLGetDiagRec drv i (driver s)). reflexivity. Qed.

Lemma addErrors_loop_retrieved n : forall i (s : Stmt D B) r s',
  addErrors_loop drv n i s = (r, s') ->
  exists l,
    _errorInfo s' = _errorInfo s ++ l /\
    Forall (fun rec => exists j rc,
              SQLGetDiagRec drv j (driver s) = (rc, rec) /\
              SQL_SUCCEEDED rc = true) l /\
    driver s' = driver s.
Proof.
  induction n as [| n IH]; intros i s r s' H.
  - inversion H; subst. exists []. rewrite app_nil_r. auto.
  - rewrite addErrors_loop_step in H. cbv zeta in H.
    set (j := to_SQLSMALLINT (i + 1)) in *.
    assert (Hstep : exists l1,
              _errorInfo (afterDiagRec drv j s) = _errorInfo s ++ l1 /\
              Forall (fun rec => exists j rc,
                        SQLGetDiagRec drv j (driver s) = (rc, rec) /\
                        SQL_SUCCEEDED rc = true) l1).
    { unfold afterDiagRec.
      destruct (SQLGetDiagRec drv j (driver s)) as [rc rec] eqn:E. fields.
      destruct (SQL_SUCCEEDED rc) eqn:Hs; eexists; (split; [reflexivity |]).
      - constructor; [eauto | constructor].
      - constructor. }
    destruct Hstep as (l1 & Hl1 & HF1).
    destruct (_ =? SQL_SUCCESS).
    + destruct (IH _ _ _ _ H) as (l & Hl & HF & Hd).
      rewrite afterDiagRec_driver in *.
      exists (l1 ++ l). rewrite Hl, Hl1, <- app_assoc.
      split; [reflexivity | split; [ | exact Hd ]].
      apply Forall_app. auto.
    + inversion H; subst. exists l1.
      rewrite afterDiagRec_driver. auto.
Qed.

(** X14: for every driver and every bound on the iterations,
    [addErrors] keeps the diagnostics already on record and appends only
    records that the driver returned with a succeeding return code; it
    leaves the driver state alone and never throws. *)
Theorem addErrors_keeps_retrieved_records (s : Stmt D B) r s' :
  addErrors drv fuel s = (r, s') ->
  (exists l,
     _errorInfo s' = _errorInfo s ++ l /\
     Forall (fun rec => exists j rc,
               SQLGetDiagRec drv j (driver s) = (rc, rec) /\
               SQL_SUCCEEDED rc = true) l) /\
  driver s' = driver s /\
  (forall e, r <> Throw e).
Proof.
  intros H. unfold addErrors in H.
  destruct (addErrors_loop_retrieved _ _ _ _ _ H) as (l & Hl & HF & Hd).
  split; [eauto | split; [exact Hd |]].
  intros e ->. eapply addErrors_loop_no_throw, H.
Qed.

(** X4: a fetch that succeeds with a warning is not a failure:
    [makeStep] returns normally with the row ready, and the diagnostic
    records the driver holds have been appended in the order of their
    indices. *)
Theorem makeStep_success_with_info (n : nat) (s : Stmt D B) e d1 :
  (n < fuel)%nat ->
  Z.of_nat n + 1 <= 32767 ->
  _extractors s !! currentDataSet sup (base s) = Some e ->
  SQLFetch drv (driver s) = (SQL_SUCCESS_WITH_INFO, d1) ->
  (forall j, 1 <= j <= Z.of_nat n -> fst (SQLGetDiagRec drv j d1) = SQL_SUCCESS) ->
  fst (SQLGetDiagRec drv (Z.of_nat n + 1) d1) = SQL_NO_DATA ->
  exists s',
    makeStep drv sup fuel s = (Ok tt, s') /\
    nextRowReady s' = true /\
    _stepCalled s' = true /\
    _errorInfo s' =
      _errorInfo s ++ map (fun j => snd (SQLGetDiagRec drv j d1)) (indicesFrom 0 n) /\
    calls s' =
      calls s ++ CallFetch :: map CallGetDiagRec (indicesFrom 0 (S n)).
Proof.
  intros Hfuel Hmax He Hf Hok Hlast.
  unfold makeStep. mred. unfold index. rewrite He. mred.
  unfold driverCall at 1. unfold bind at 1. fields. rewrite Hf.
  mred. change (isError SQL_SUCCESS_WITH_INFO) with false. cbn [when]. mred.
  fields. unfold checkError.
  change (SQL_SUCCESS_WITH_INFO =? SQL_NO_DATA) with false.
  change (isError SQL_SUCCESS_WITH_INFO) with false.
  change (SQL_SUCCESS_WITH_INFO =? SQL_SUCCESS_WITH_INFO) with true.
  cbv iota. unfold addErrors.
  match goal with
  | |- context [bind (addErrors_loop drv fuel 0) _ ?t] =>
      destruct (addErrors_loop_run drv n fuel 0 t) as (s1 & Hrun & Hinfo & Hcalls & Hd)
  end; fields; try lia.
  - intros j Hj. apply Hok. lia.
  - replace (0 + Z.of_nat n + 1) with (Z.of_nat n + 1) by lia.
    rewrite Hlast. discriminate.
  - rewrite (bind_Ok _ _ _ _ _ Hrun). mred. eexists. split; [reflexivity |].
    assert (Hresp : _nextResponse s1 = SQL_SUCCESS_WITH_INFO).
    { apply (addErrors_loop_frame drv _nextResponse) in Hrun; auto. }
    unfold nextRowReady. fields. rewrite Hresp.
    split; [reflexivity | split; [reflexivity | split]].
    + rewrite Hinfo. fields.
      replace (0 + Z.of_nat n + 1) with (Z.of_nat n + 1) by lia. rewrite Hlast.
      change (SQL_SUCCEEDED SQL_NO_DATA) with false. now rewrite app_nil_r.
    + rewrite Hcalls. fields. now rewrite <- app_assoc.
Qed.

End Warnings.

Section Prepare.
Context {D B : Type}.
Variable drv : Driver D.
Variable sup : StatementImpl D B.
Variable fuel : nat.

Lemma doPrepare_loop_frame {X} (f : Stmt D B -> X) pP it : forall pos,
  (forall s d b, f (set_base b (set_driver d s)) = f s) ->
  preserves f (doPrepare_loop pP it pos).
Proof.
  induction it as [| e it IH]; intros pos Hf; cbn [doPrepare_loop]; frame_tac.
  now apply IH.
Qed.

(** What [doPrepare] does before it sets [_prepared]. *)
Lemma doPrepare_frame {X} (f : Stmt D B -> X) :
  (forall s d b, f (set_base b (set_driver d s)) = f s) ->
  (forall s d l, f (set_calls l (set_driver d s)) = f s) ->
  (forall s l, f (set_errorInfo l s) = f s) ->
  (forall s b, f (set_prepared b s) = f s) ->
  preserves f (doPrepare drv sup fuel).
Proof.
  intros Hb Hd He Hp. unfold doPrepare.
  repeat first [ now apply doPrepare_loop_frame | now apply checkError_frame
               | frame_tac ].
Qed.

Lemma doPrepare_keeps_prepared : keeps _prepared (doPrepare drv sup fuel).
Proof.
  unfold doPrepare.
  repeat (apply keeps_bind; [ frame_tac | intros ]).
  match goal with
  | |- keeps _ (if ?b then _ else _) => destruct b; [ | apply keeps_ret ]
  end.
  repeat (apply keeps_bind; [ | intros ]); try apply keeps_modify.
  all: repeat first [ now apply doPrepare_loop_frame
                    | now apply checkError_frame | frame_tac ].
Qed.

(** X15: [doPrepare] marks the statement as prepared only as its last
    step: after a normal return the flag is set exactly when automatic
    extraction is on and the statement has data (and is as before
    otherwise); after any other outcome it is as before.  The Preparation
    Contexts, the Extractors and the step flag are never changed. *)
Theorem doPrepare_sets_prepared_last (s : Stmt D B) r s' :
  doPrepare drv sup fuel s = (r, s') ->
  (r = Ok tt ->
   _prepared s' =
     (getFeature sup "autoExtract" (base s) && hasData drv s) || _prepared s) /\
  (r <> Ok tt -> _prepared s' = _prepared s) /\
  _preparations s' = _preparations s /\
  _extractors s' = _extractors s /\
  _stepCalled s' = _stepCalled s.
Proof.
  intros H. split; [ | split; [ | split; [ | split ]]].
  - intros ->. revert H. unfold doPrepare. rewrite !bind_gets.
    destruct (getFeature sup "autoExtract" (base s) && hasData drv s).
    + intros H. bind_inv H. inversion H; subst. reflexivity.
    + intros H. inversion H; subst. reflexivity.
  - intros Hr. apply (doPrepare_keeps_prepared _ _ _ H).
    destruct r as [[] | |]; simpl; auto.
  - apply (doPrepare_frame _preparations) in H; auto.
  - apply (doPrepare_frame _extractors) in H; auto.
  - apply (doPrepare_frame _stepCalled) in H; auto.
Qed.

Lemma set_base_driver_same (s : Stmt D B) :
  set_base (base s) (set_driver (driver s) s) = s.
Proof. destruct s; reflexivity. Qed.

Lemma doPrepare_loop_prepares pP it : forall pos (s : Stmt D B) d' b',
  preparesAll pP it pos (driver s, base s) (d', b') ->
  doPrepare_loop pP it pos s = (Ok tt, set_base b' (set_driver d' s)).
Proof.
  induction it as [| e it IH]; intros pos s d' b' H; inversion H; subst;
    cbn [doPrepare_loop].
  - now rewrite set_base_driver_same.
  - unfold externCall at 1. unfold bind at 1.
    match goal with
    | E : prepare e pP pos _ = (Ok tt, ?w1) |- _ =>
        rewrite E; destruct w1 as [d1 b1]
    end.
    rewrite (IH _ _ d' b'); [reflexivity | fields; assumption].
Qed.

(** X16: when the first extraction asks for bulk fetch and the
    extraction limit is not unlimited, the first driver call of [doPrepare]
    sets the row-array size to that limit.  When the driver answers with an
    error other than [SQL_NO_DATA], [doPrepare] does not return normally,
    no extraction has been prepared (the base class and the caller's
    variables are untouched) and the statement is not marked as prepared.
    [SQL_NO_DATA], although an error for [Utility::isError], is let through
    like [SQL_SUCCESS]: the extractions are then prepared in their order and
    the statement is marked as prepared, with no further driver call of
    [doPrepare] itself. *)
Theorem doPrepare_row_array_size (s : Stmt D B) e rest rc d1 r s' :
  getFeature sup "autoExtract" (base s) = true ->
  hasData drv s = true ->
  (currentDataSet sup (base s) < length (_preparations s))%nat ->
  extractions sup (base s) = e :: rest ->
  isBulk e = true ->
  getExtractionLimit sup (base s) <> LIMIT_UNLIMITED sup ->
  SQLSetStmtAttr drv SQL_ATTR_ROW_ARRAY_SIZE (getExtractionLimit sup (base s))
    (driver s) = (rc, d1) ->
  doPrepare drv sup fuel s = (r, s') ->
  (exists more,
     calls s' = calls s ++
       CallSetStmtAttr SQL_ATTR_ROW_ARRAY_SIZE (getExtractionLimit sup (base s))
       :: more) /\
  (isError rc = true -> rc <> SQL_NO_DATA ->
   r <> Ok tt /\ base s' = base s /\ _prepared s' = _prepared s) /\
  (rc = SQL_NO_DATA \/ rc = SQL_SUCCESS ->
   forall pP d2 b2,
     _preparations s !! currentDataSet sup (base s) = Some pP ->
     preparesAll pP (e :: rest) 0 (d1, base s) (d2, b2) ->
     r = Ok tt /\ _prepared s' = true /\ driver s' = d2 /\ base s' = b2 /\
     calls s' = calls s ++
       [CallSetStmtAttr SQL_ATTR_ROW_ARRAY_SIZE (getExtractionLimit sup (base s))]).
Proof.
  intros Ha Hd Hcur He Hb Hl Hattr.
  destruct (lookup_lt_is_Some_2 _ _ Hcur) as [pP HpP].
  unfold doPrepare. rewrite !bind_gets, Ha, Hd. cbn [andb].
  rewrite !bind_gets. unfold index. rewrite HpP. rewrite bind_ret, bind_gets.
  rewrite He, Hb. mred.
  destruct (Z.eqb_spec (getExtractionLimit sup (base s)) (LIMIT_UNLIMITED sup))
    as [E | _]; [contradiction |].
  mred. unfold driverCall at 1. unfold bind at 1. rewrite Hattr.
  set (s1 := set_calls _ (set_driver d1 s)).
  intros H. split; [ | split ].
  - revert H. unfold bind at 1.
    destruct (checkError drv sup fuel rc _ s1) as [rck sk] eqn:Hck.
    pose proof (checkError_calls drv sup fuel _ _ _ _ _ Hck) as [more1 Hm1].
    destruct rck as [[] | ex | x].
    + intros H.
      assert (P : exists more2, calls s' = calls sk ++ more2).
      { revert H. unfold bind at 1.
        destruct (doPrepare_loop pP (e :: rest) 0 sk) as [rl sl] eqn:Hloop.
        apply (doPrepare_loop_frame calls) in Hloop; [ | auto ].
        destruct rl; intros H; inversion H; subst; fields; rewrite Hloop;
          exists []; now rewrite app_nil_r. }
      destruct P as [more2 Hm2]. rewrite Hm2, Hm1. unfold s1. fields.
      rewrite <- !app_assoc. eauto.
    + intros H. inversion H; subst.
      rewrite Hm1. unfold s1. fields. rewrite <- app_assoc. eauto.
    + intros H. inversion H; subst.
      rewrite Hm1. unfold s1. fields. rewrite <- app_assoc. eauto.
  - intros Herr Hnd. revert H. unfold bind at 1.
    destruct (checkError drv sup fuel rc _ s1) as [rck sk] eqn:Hck.
    assert (Hbk : base sk = base s)
      by (apply (checkError_frame drv sup fuel base) in Hck; auto).
    assert (Hpk : _prepared sk = _prepared s)
      by (apply (checkError_frame drv sup fuel _prepared) in Hck; auto).
    destruct rck as [[] | ex | x].
    + destruct (checkError_Ok_inv drv sup fuel _ _ _ _ Hck); congruence.
    + intros H. inversion H; subst. split; [discriminate | auto].
    + intros H. inversion H; subst. split; [discriminate | auto].
  - intros Hrc pP' d2 b2 HpP' Hprep.
    assert (pP' = pP) as -> by congruence.
    assert (Hck : checkError drv sup fuel rc
                    "SQLSetStmtAttr(SQL_ATTR_ROW_ARRAY_SIZE)" s1 = (Ok tt, s1))
      by (destruct Hrc as [-> | ->]; reflexivity).
    rewrite (bind_Ok _ _ _ _ _ Hck) in H.
    rewrite (bind_Ok _ _ _ _ _
               (doPrepare_loop_prepares pP (e :: rest) 0 s1 d2 b2 Hprep)) in H.
    inversion H; subst. fields. auto.
Qed.

End Prepare.

Section CompileMore.
Context {D B : Type}.
Variable drv : Driver D.
Variable sup : StatementImpl D B.
Variable fuel : nat.

Lemma makeInternalExtractors_frame {X} (f : Stmt D B -> X) :
  (forall s d b, f (set_base b (set_driver d s)) = f s) ->
  (forall s b, f (set_base b s) = f s) ->
  (forall s c, f (set_columnPtrs c s) = f s) ->
  preserves f (makeInternalExtractors drv sup).
Proof.
  intros Hdb Hb Hc. unfold makeInternalExtractors.
  repeat first [ apply fillColumns_frame; solve [auto] | frame_step ].
Qed.

Lemma compileImpl_keeps_canCompile :
  keeps _canCompile (compileImpl drv sup fuel).
Proof.
  unfold compileImpl. apply keeps_bind; [frame_tac | intros c].
  destruct (negb c); [apply keeps_ret |].
  repeat (apply keeps_bind; [ | intros ]); try apply keeps_modify.
  all: unfold maxFieldSizeProperty, castString, castTypeInfo, castSizeT,
         castInt, TextEncoding_find.
  all: repeat first [ apply addPreparator_frame; solve [auto]
                    | apply makeInternalExtractors_frame; solve [auto]
                    | apply doPrepare_frame; solve [auto] | frame_step ].
Qed.

Lemma addPreparator_master (s s' : Stmt D B) :
  _preparations s = [] ->
  addPreparator sup s = (Ok tt, s') ->
  exists maxFieldSize,
    _preparations s' =
      [mkPreparator (heapNext s) (toString sup (base s)) maxFieldSize
         (if getFeature sup "autoExtract" (base s) then DE_BOUND else DE_MANUAL)] /\
    toString sup (base s) <> "".
Proof.
  intros Hp H.
  unfold addPreparator in H. rewrite bind_gets, Hp in H. cbn [length Nat.eqb] in H.
  rewrite bind_bind, bind_gets in H.
  destruct (String.length (toString sup (base s))) eqn:Hlen;
    cbn [Nat.eqb] in H; [discriminate |].
  rewrite !bind_bind, bind_gets in H. rewrite bind_bind in H.
  bind_inv1 H.
  assert (Hs0 : s0 = s).
  { assert (P : preserves (D := D) (B := B) (fun x => x) (maxFieldSizeProperty sup)).
    { unfold maxFieldSizeProperty, castSizeT, castInt. frame_tac. }
    exact (P _ _ _ E). }
  subst s0. rewrite bind_bind, bind_new in H. rewrite bind_modify in H.
  match type of H with
  | ?t ?s1 = _ =>
      assert (P : preserves (D := D) (B := B) _preparations t)
        by (unfold castString, TextEncoding_find; frame_tac);
      rewrite (P _ _ _ H)
  end.
  fields. rewrite Hp. exists a. split; [reflexivity |].
  intros Habs. rewrite Habs in Hlen. discriminate.
Qed.

Lemma makeBinder_Ok (s s' : Stmt D B) :
  makeBinder sup s = (Ok tt, s') ->
  exists b,
    _pBinder s' = Some b /\
    binder_mode b =
      (if getFeature sup "autoBind" (base s) then PB_IMMEDIATE else PB_AT_EXEC).
Proof.
  intros H. unfold makeBinder in H. bind_inv H.
  inversion E; subst; clear E. inversion H; subst. fields.
  eexists. split; reflexivity.
Qed.

Lemma compileSetup_master (s s0 : Stmt D B) :
  compileSetup sup s = (Ok tt, s0) ->
  (exists maxFieldSize,
     _preparations s0 =
       [mkPreparator (heapNext s) (toString sup (base s)) maxFieldSize
          (if getFeature sup "autoExtract" (base s) then DE_BOUND else DE_MANUAL)]) /\
  toString sup (base s) <> "" /\
  (exists b,
     _pBinder s0 = Some b /\
     binder_mode b =
       (if getFeature sup "autoBind" (base s) then PB_IMMEDIATE else PB_AT_EXEC)) /\
  length (_extractors s0) = S (length (_extractors s)) /\
  _stepCalled s0 = false /\ _nextResponse s0 = 0.
Proof.
  intros H.
  assert (Hstep : _stepCalled s0 = false /\ _nextResponse s0 = 0).
  { unfold compileSetup in H. rewrite !bind_modify in H. split.
    - match type of H with
      | ?t ?s1 = _ =>
          assert (P : preserves (D := D) (B := B) _stepCalled t)
            by (repeat first [ apply addPreparator_frame; solve [auto]
                             | apply makeBinder_frame; solve [auto]
                             | frame_step ]);
          exact (P _ _ _ H)
      end.
    - match type of H with
      | ?t ?s1 = _ =>
          assert (P : preserves (D := D) (B := B) _nextResponse t)
            by (repeat first [ apply addPreparator_frame; solve [auto]
                             | apply makeBinder_frame; solve [auto]
                             | frame_step ]);
          exact (P _ _ _ H)
      end. }
  unfold compileSetup in H. do 5 bind_inv1 H.
  inversion E; subst; clear E. inversion E0; subst; clear E0.
  inversion E1; subst; clear E1. destruct a3.
  assert (Hw : _preparations s4 = [] /\ heapNext s4 = heapNext s /\
               base s4 = base s /\ _extractors s4 = _extractors s).
  { revert E2. unfold when. destruct (negb _) eqn:Hn.
    - intros E2. inversion E2; subst. fields. auto.
    - intros E2. inversion E2; subst. fields.
      destruct (_preparations s); [auto | discriminate]. }
  destruct Hw as (Hp4 & Hh4 & Hb4 & He4).
  destruct (addPreparator_master _ _ Hp4 E3) as (mfs & Hp5 & Htext).
  destruct (addPreparator_Ok sup _ _ E3) as (_ & [e He5] & Hb5 & _).
  destruct (makeBinder_Ok _ _ H) as (b & Hb & Hmode).
  rewrite (makeBinder_frame sup _preparations ltac:(auto) ltac:(auto) _ _ _ H).
  rewrite (makeBinder_frame sup _extractors ltac:(auto) ltac:(auto) _ _ _ H).
  rewrite Hp5, He5, Hh4, Hb4, He4 in *. rewrite Hb5 in Hmode.
  split; [eauto | split; [exact Htext | split; [eauto | split]]].
  - rewrite length_app. simpl. lia.
  - exact Hstep.
Qed.

(** X17: after a successful [compileImpl] of a statement that could be
    compiled there is exactly one Preparation Context, a new object built
    from the statement text, which is not empty, with bound extraction
    exactly when the session has automatic extraction on; the Binder exists
    and binds immediately exactly when automatic binding is on; one
    Extractor has been added; the step flag and the response on record are
    cleared and the statement cannot be compiled again. *)
Theorem compileImpl_postcondition (s s' : Stmt D B) :
  _canCompile s = true ->
  compileImpl drv sup fuel s = (Ok tt, s') ->
  (exists maxFieldSize,
     _preparations s' =
       [mkPreparator (heapNext s) (toString sup (base s)) maxFieldSize
          (if getFeature sup "autoExtract" (base s) then DE_BOUND else DE_MANUAL)]) /\
  toString sup (base s) <> "" /\
  (exists b,
     _pBinder s' = Some b /\
     binder_mode b =
       (if getFeature sup "autoBind" (base s) then PB_IMMEDIATE else PB_AT_EXEC)) /\
  length (_extractors s') = S (length (_extractors s)) /\
  _stepCalled s' = false /\ _nextResponse s' = 0 /\ _canCompile s' = false.
Proof.
  intros Hc H. rewrite (compileImpl_unfold drv sup fuel _ Hc) in H.
  do 3 bind_inv1 H. inversion H; subst; clear H. destruct a, a0, a1.
  destruct (compileSetup_master _ _ E) as (Hp & Ht & Hb & He & Hs & Hr).
  assert (F : forall X (f : Stmt D B -> X),
            (forall s d b, f (set_base b (set_driver d s)) = f s) ->
            (forall s b, f (set_base b s) = f s) ->
            (forall s c, f (set_columnPtrs c s) = f s) ->
            (forall s d l, f (set_calls l (set_driver d s)) = f s) ->
            (forall s l, f (set_errorInfo l s) = f s) ->
            (forall s b, f (set_prepared b s) = f s) ->
            f s2 = f s0).
  { intros X f H1 H2 H3 H4 H5 H6.
    rewrite (doPrepare_frame drv sup fuel f H1 H4 H5 H6 _ _ _ E1).
    exact (makeInternalExtractors_frame f H1 H2 H3 _ _ _ E0). }
  fields.
  rewrite (F _ _preparations), (F _ _pBinder), (F _ _extractors),
    (F _ _stepCalled), (F _ _nextResponse); auto 10.
Qed.

(** X18: when [compileImpl] does not return normally, the statement
    could be compiled before the call and still can be afterwards: a
    failed compilation is not recorded as done. *)
Theorem compileImpl_failure_keeps_compilable (s : Stmt D B) r s' :
  compileImpl drv sup fuel s = (r, s') ->
  r <> Ok tt ->
  _canCompile s = true /\ _canCompile s' = true.
Proof.
  intros H Hr.
  assert (Hc : _canCompile s = true).
  { destruct (_canCompile s) eqn:E; [reflexivity |].
    rewrite (compileImpl_compiled drv sup fuel _ E) in H.
    inversion H; subst. congruence. }
  split; [exact Hc |]. rewrite <- Hc.
  apply (compileImpl_keeps_canCompile _ _ _ H).
  destruct r as [[] | |]; simpl; auto.
Qed.

(** X19: a statement without result columns compiles without a single
    driver call: the driver, the base class, the column descriptors and the
    prepared flag are as before, and [hasNext] on the compiled statement
    answers false without changing it. *)
Theorem compileImpl_without_data (s s' : Stmt D B) :
  _canCompile s = true ->
  hasData drv s = false ->
  compileImpl drv sup fuel s = (Ok tt, s') ->
  calls s' = calls s /\
  driver s' = driver s /\
  base s' = base s /\
  _columnPtrs s' = _columnPtrs s /\
  _prepared s' = _prepared s /\
  hasNext drv sup fuel s' = (Ok false, s').
Proof.
  intros Hc Hd H. rewrite (compileImpl_unfold drv sup fuel _ Hc) in H.
  bind_inv1 H. destruct a.
  assert (F : forall X (f : Stmt D B -> X),
            (forall s n, f (set_heapNext n s) = f s) ->
            (forall s l, f (set_preparations l s) = f s) ->
            (forall s l, f (set_extractors l s) = f s) ->
            (forall s b, f (set_pBinder b s) = f s) ->
            (forall s b, f (set_stepCalled b s) = f s) ->
            (forall s z, f (set_nextResponse z s) = f s) ->
            f s0 = f s).
  { intros X f H1 H2 H3 H4 H5 H6.
    exact (compileSetup_frame sup f H1 H2 H3 H4 H5 H6 _ _ _ E). }
  assert (Hd0 : hasData drv s0 = false).
  { unfold hasData, columnsReturned in *. rewrite (F _ driver); auto. }
  assert (Hm : makeInternalExtractors drv sup s0 = (Ok tt, s0)).
  { unfold makeInternalExtractors. rewrite !bind_gets, Hd0. reflexivity. }
  assert (Hp : doPrepare drv sup fuel s0 = (Ok tt, s0)).
  { unfold doPrepare. rewrite !bind_gets, Hd0, andb_false_r. reflexivity. }
  rewrite (bind_Ok _ _ _ _ _ Hm), (bind_Ok _ _ _ _ _ Hp) in H.
  inversion H; subst. fields.
  rewrite (F _ calls), (F _ driver), (F _ base), (F _ _columnPtrs),
    (F _ _prepared); auto.
  repeat (split; [reflexivity |]).
  unfold hasNext. rewrite bind_gets.
  replace (hasData drv (set_canCompile false s0)) with false; reflexivity || auto.
Qed.

End CompileMore.

Section Bind.
Context {D B : Type}.
Variable drv : Driver D.
Variable sup : StatementImpl D B.
Variable fuel : nat.

Lemma set_calls_driver_same (s : Stmt D B) :
  set_calls (calls s) (set_driver (driver s) s) = s.
Proof. destruct s; reflexivity. Qed.

Lemma pBinder_Some (s : Stmt D B) binder :
  _pBinder s = Some binder -> pBinder s = (Ok binder, s).
Proof. intros H. unfold pBinder. rewrite bind_gets, H. reflexivity. Qed.

Lemma pBinder_None (s : Stmt D B) :
  _pBinder s = None -> pBinder s = (Throw (NullPointerException ""), s).
Proof. intros H. unfold pBinder. rewrite bind_gets, H. reflexivity. Qed.

Lemma putData_loop_dialogue n : forall m (s : Stmt D B) binder tr rc d',
  (n < m)%nat ->
  _pBinder s = Some binder ->
  requestsData drv sup (base s) n (driver s) tr rc d' ->
  putData_loop drv sup fuel m s =
    checkError drv sup fuel rc "SQLParamData()"
      (set_calls (calls s ++ tr) (set_driver d' s)).
Proof.
  induction n as [| n IH]; intros m s binder tr rc d' Hm Hb Hreq;
    (destruct m as [| m]; [lia |]); inversion Hreq; subst;
    cbn [putData_loop]; unfold driverCall at 1; unfold bind at 1.
  - rewrite H. cbv beta iota.
    destruct (Z.eqb_spec rc SQL_NEED_DATA) as [E | _]; [contradiction |].
    reflexivity.
  - rewrite H0. cbv beta iota. change (SQL_NEED_DATA =? SQL_NEED_DATA) with true.
    cbv iota.
    set (s1 := set_calls (calls s ++ [CallParamData]) (set_driver d1 s)).
    assert (Hsz : (match p with
                   | Some p0 =>
                       run pBinder in
                       gets (fun s0 : Stmt D B =>
                               to_int (parameterSize sup p0 (base s0)))
                   | None => ret 0
                   end) s1 = (Ok (chunkSize sup (base s) p), s1)).
    { destruct p; [ | reflexivity ].
      rewrite (bind_Ok _ _ _ _ _ (pBinder_Some s1 binder Hb)). reflexivity. }
    rewrite (bind_Ok _ _ _ _ _ Hsz). unfold s1.
    unfold driverCall at 1. unfold bind at 1. fields. rewrite H1, H2.
    rewrite (IH m _ binder tr0 rc d'); [ | lia | exact Hb | fields; exact H3 ].
    fields. rewrite <- !app_assoc. reflexivity.
Qed.

(** X22: on a statement that has its Binder, when the driver asks [n]
    times for parameter data, for a buffer or with the null marker, accepts
    every chunk and then reports success, [putData] returns normally and
    its driver calls are exactly that dialogue: a parameter-data call for
    every request and a last one that ends it, and after each request one
    put-data call, of the size the Binder gives for the buffer asked for or
    of size 0 for the null marker; [n] pushes among [2 n + 1] calls.
    Without its Binder the same statement fails at the first request that
    names a buffer: [putData] raises the null-pointer exception after the
    parameter-data call, before anything is pushed. *)
Theorem putData_pushes_each_request (n : nat) (s : Stmt D B) binder tr d' :
  (n < fuel)%nat ->
  _pBinder s = Some binder ->
  requestsData drv sup (base s) n (driver s) tr SQL_SUCCESS d' ->
  (putData drv sup fuel s =
     (Ok tt, set_calls (calls s ++ tr) (set_driver d' s)) /\
   length (List.filter isPutData tr) = n /\
   length tr = (2 * n + 1)%nat) /\
  (forall p d1,
     SQLParamData drv (driver s) = (SQL_NEED_DATA, Some p, d1) ->
     putData drv sup fuel (set_pBinder None s) =
       (Throw (NullPointerException ""),
        set_calls (calls s ++ [CallParamData])
          (set_driver d1 (set_pBinder None s)))).
Proof.
  intros Hfuel Hb Hreq. split; [split |].
  - unfold putData.
    rewrite (putData_loop_dialogue n _ _ _ _ _ _ Hfuel Hb Hreq).
    reflexivity.
  - clear Hfuel Hb. remember SQL_SUCCESS as rc. clear Heqrc.
    induction Hreq; simpl; [auto |].
    destruct IHHreq as [-> ->]. split; lia.
  - intros p d1 Hp. unfold putData.
    destruct fuel as [| m]; [lia |]. cbn [putData_loop].
    unfold driverCall at 1. unfold bind at 1. fields. rewrite Hp.
    change (SQL_NEED_DATA =? SQL_NEED_DATA) with true. cbv iota.
    rewrite !bind_bind.
    erewrite bind_Throw; [reflexivity | apply pBinder_None; reflexivity].
Qed.

End Bind.

Section Clone.
Context {D B : Type}.
Variable drv : Driver D.
Variable sup : StatementImpl D B.
Variable fuel : nat.

Lemma lookup_last_snoc {A} (l : list A) (x : A) :
  (l ++ [x]) !! (length (l ++ [x]) - 1)%nat = Some x.
Proof.
  rewrite length_app. simpl.
  replace (length l + 1 - 1)%nat with (length l + 0)%nat by lia.
  now rewrite lookup_app_r, Nat.add_0_r, Nat.sub_diag by lia.
Qed.

(** X21: when a Preparation Context exists, [addPreparator] appends a
    new object with the statement, field size and extraction policy of the
    first one, without reading the statement text or the session flags.
    After a normal return one Extractor that refers to the new object has
    been added; after any other outcome the Preparation Context has been
    added all the same but no Extractor. *)
Theorem addPreparator_clones_master (s : Stmt D B) master rest r s' :
  _preparations s = master :: rest ->
  addPreparator sup s = (r, s') ->
  _preparations s' =
    master :: rest ++
    [mkPreparator (heapNext s) (prep_statement master)
       (prep_maxFieldSize master) (prep_ext master)] /\
  (r = Ok tt ->
   exists from to,
     _extractors s' =
       _extractors s ++ [mkExtractor (S (heapNext s)) (heapNext s) from to 0]) /\
  (r <> Ok tt -> _extractors s' = _extractors s) /\
  base s' = base s /\
  calls s' = calls s.
Proof.
  intros Hp H.
  assert (Hb : base s' = base s)
    by (apply (addPreparator_frame sup base) in H; auto).
  assert (Hc : calls s' = calls s)
    by (apply (addPreparator_frame sup calls) in H; auto).
  unfold addPreparator in H. rewrite bind_gets, Hp in H.
  cbn [length Nat.eqb] in H. rewrite !bind_bind in H.
  unfold index at 1 in H. cbn [lookup list_lookup] in H.
  rewrite bind_ret, bind_bind, bind_new, bind_modify, bind_gets in H.
  fields_in H. rewrite Hp in H.
  unfold index at 1 in H. rewrite lookup_last_snoc, bind_ret in H.
  set (s1 := set_preparations _ _) in H.
  match type of H with
  | ?t s1 = _ =>
      assert (P1 : preserves (D := D) (B := B) _preparations t)
        by (unfold castString, TextEncoding_find; frame_tac);
      assert (P2 : keeps (D := D) (B := B) _extractors t)
        by (unfold castString, TextEncoding_find;
            repeat (apply keeps_bind; [ frame_tac | intros ]);
            apply keeps_modify)
  end.
  split; [exact (P1 _ _ _ H) | split; [ | split; [ | auto ]]].
  - intros ->. bind_inv H.
    assert (Q1 : s0 = s1).
    { assert (P : preserves (D := D) (B := B) (fun x => x)
                    (let* a := property sup "dbEncoding" in castString a))
        by (unfold castString; frame_tac).
      exact (P _ _ _ E). }
    assert (Q2 : s2 = s0).
    { assert (P : preserves (D := D) (B := B) (fun x => x)
                    (TextEncoding_find sup a))
        by (unfold TextEncoding_find; frame_tac).
      exact (P _ _ _ E0). }
    assert (Q3 : s3 = s2).
    { assert (P : preserves (D := D) (B := B) (fun x => x)
                    (TextEncoding_find sup "UTF-8"))
        by (unfold TextEncoding_find; frame_tac).
      exact (P _ _ _ E1). }
    inversion E2; subst. inversion H; subst. unfold s1. fields. eauto.
  - intros Hr. apply (P2 _ _ _ H). destruct r as [[] | |]; simpl; auto.
Qed.


(** X23: when the driver cannot close the cursor, [bindImpl] raises the
    statement exception of [clear] right away: the only driver call is the
    one to free the statement, nothing is bound or executed, and the
    affected-row cache is empty. *)
Theorem bindImpl_stops_when_clear_fails (s : Stmt D B) :
  isError (fst (SQLFreeStmt drv (driver s))) = true ->
  exists s',
    bindImpl drv sup fuel s =
      (Throw (StatementException
                "ODBCStatementImpl::putData():SQLFreeStmt(SQL_CLOSE)"), s') /\
    calls s' = calls s ++ [CallFreeStmt] /\
    base s' = base s /\
    driver s' = snd (SQLFreeStmt drv (driver s)) /\
    _affectedRowCount s' = 0.
Proof.
  intros Herr.
  assert (Hclear : exists s',
            clear drv s =
              (Throw (StatementException
                        "ODBCStatementImpl::putData():SQLFreeStmt(SQL_CLOSE)"), s') /\
            calls s' = calls s ++ [CallFreeStmt] /\ base s' = base s /\
            driver s' = snd (SQLFreeStmt drv (driver s)) /\
            _affectedRowCount s' = 0).
  { unfold clear. rewrite !bind_modify. unfold driverCall at 1. unfold bind at 1.
    fields. destruct (SQLFreeStmt drv (driver s)) as [rc d]. cbn [fst snd] in *.
    rewrite Herr. eexists. split; [reflexivity |]. fields. auto. }
  destruct Hclear as (s' & Hc & Hrest). exists s'. split; [ | exact Hrest ].
  unfold bindImpl, doBind. rewrite bind_bind.
  now rewrite (bind_Throw _ _ _ _ _ Hc).
Qed.

End Clone.

Section Protocol.
Context {D B : Type}.
Variable drv : Driver D.
Variable sup : StatementImpl D B.
Variable fuel : nat.

(** One fetch that the driver answers with [rc], neither an error to
    raise nor a warning to collect diagnostics for. *)
Lemma makeStep_plain (s : Stmt D B) e rc d1 :
  _extractors s !! currentDataSet sup (base s) = Some e ->
  SQLFetch drv (driver s) = (rc, d1) ->
  rc = SQL_SUCCESS \/
  (rc = SQL_NO_DATA /\
   existsb (String.eqb INVALID_CURSOR_STATE) (diagnosticStates drv d1) = false) ->
  makeStep drv sup fuel s =
    (Ok tt,
     set_stepCalled true
       (set_nextResponse rc
          (set_calls (calls s ++ [CallFetch])
             (set_driver d1
                (set_extractors
                   (<[currentDataSet sup (base s) := reset e]> (_extractors s))
                   s))))).
Proof.
  intros He Hf Hrc.
  unfold makeStep. mred. unfold index. rewrite He. mred.
  unfold driverCall at 1. unfold bind at 1. fields. rewrite Hf. mred.
  destruct Hrc as [-> | [-> Hdiag]].
  - change (isError SQL_SUCCESS) with false. cbn [when]. mred. fields.
    reflexivity.
  - change (isError SQL_NO_DATA) with true. cbn [when]. mred. fields.
    rewrite Hdiag. cbn [when]. mred. fields. reflexivity.
Qed.

(** X6: on a prepared statement with data whose fetch succeeds,
    [hasNext] answers true after one fetch, and [next] then extracts through
    the output bindings, returns their common nonzero count and clears the
    step flag; the fetch is the only driver call of the two. *)
Theorem hasNext_then_next (s : Stmt D B) e d1 c counts :
  hasData drv s = true ->
  _prepared s = true ->
  _stepCalled s = false ->
  _extractors s !! currentDataSet sup (base s) = Some e ->
  SQLFetch drv (driver s) = (SQL_SUCCESS, d1) ->
  Forall2 reports (extractions sup (base s)) (c :: counts) ->
  c <> 0 ->
  forallb (Z.eqb c) counts = true ->
  exists s1 s2,
    hasNext drv sup fuel s = (Ok true, s1) /\
    next sup s1 = (Ok c, s2) /\
    _stepCalled s1 = true /\
    _stepCalled s2 = false /\
    calls s2 = calls s ++ [CallFetch].
Proof.
  intros Hd Hp Hs He Hf Hrep Hc Hall.
  pose proof (makeStep_plain s e SQL_SUCCESS d1 He Hf (or_introl eq_refl)) as Hm.
  set (s1 := set_stepCalled true _) in Hm.
  assert (H1 : hasNext drv sup fuel s = (Ok true, s1)).
  { unfold hasNext. mred. rewrite Hd. mred.
    destruct (extractions sup (base s)) as [| x l] eqn:Hx; [inversion Hrep |].
    cbn [length Nat.eqb when]. mred. rewrite Hp. cbn [negb when]. mred.
    rewrite Hs. rewrite (bind_Ok _ _ _ _ _ Hm). mred.
    change (nextRowReady s1) with true. cbn [negb]. mred.
    change (isError (_nextResponse s1)) with false. cbn [when]. mred.
    reflexivity. }
  destruct (next_uniform_run sup s1 c counts) as (s2 & Hn & Hst & Hcl);
    [reflexivity | exact Hrep | exact Hc | exact Hall |].
  exists s1, s2.
  split; [exact H1 | split; [exact Hn | split; [reflexivity | split; [exact Hst |]]]].
  rewrite Hcl. reflexivity.
Qed.

(** X7: when the fetch answers [SQL_NO_DATA], no invalid cursor state
    is on record and no data set is left, [hasNext] answers false after that
    one fetch and leaves the step marked as performed: [next] raises the
    exception for the missing row, and a second [hasNext] answers false
    from the response on record, without a fetch, and clears the step
    flag. *)
Theorem hasNext_exhausted (s : Stmt D B) e d1 :
  hasData drv s = true ->
  extractions sup (base s) <> [] ->
  _prepared s = true ->
  _stepCalled s = false ->
  _extractors s !! currentDataSet sup (base s) = Some e ->
  SQLFetch drv (driver s) = (SQL_NO_DATA, d1) ->
  existsb (String.eqb INVALID_CURSOR_STATE) (diagnosticStates drv d1) = false ->
  hasMoreDataSets sup (base s) = false ->
  exists s1,
    hasNext drv sup fuel s = (Ok false, s1) /\
    calls s1 = calls s ++ [CallFetch] /\
    _stepCalled s1 = true /\
    next sup s1 =
      (Throw (StatementException
                "ODBCStatementImpl::next():Next row not available."), s1) /\
    (hasData drv s1 = true ->
     hasNext drv sup fuel s1 = (Ok false, set_stepCalled false s1)).
Proof.
  intros Hd Hex Hp Hs He Hf Hdiag Hmore.
  pose proof (makeStep_plain s e SQL_NO_DATA d1 He Hf
                (or_intror (conj eq_refl Hdiag))) as Hm.
  set (s1 := set_stepCalled true _) in Hm.
  destruct (extractions sup (base s)) as [| x l] eqn:Hx; [congruence |].
  exists s1. split; [ | split; [reflexivity | split; [reflexivity | split]]].
  - unfold hasNext. mred. rewrite Hd. mred. rewrite Hx.
    cbn [length Nat.eqb when]. mred. rewrite Hp. cbn [negb when]. mred.
    rewrite Hs. rewrite (bind_Ok _ _ _ _ _ Hm). mred.
    change (nextRowReady s1) with false. cbn [negb]. mred.
    change (base s1) with (base s). rewrite Hmore. reflexivity.
  - apply next_no_row. reflexivity.
  - intros Hd1. unfold hasNext. mred. rewrite Hd1. mred.
    change (base s1) with (base s). rewrite Hx.
    cbn [length Nat.eqb when]. mred.
    change (_prepared s1) with (_prepared s). rewrite Hp. cbn [negb when].
    mred. reflexivity.
Qed.

Lemma makeInternalExtractors_skipped (s : Stmt D B) :
  extractions sup (base s) <> [] ->
  makeInternalExtractors drv sup s = (Ok tt, s).
Proof.
  intros H. unfold makeInternalExtractors. mred.
  destruct (extractions sup (base s)); [congruence |].
  cbn [length Nat.eqb]. rewrite andb_false_r. reflexivity.
Qed.

(** X20: when the caller has supplied extractions, [compileImpl]
    discovers no columns: whatever its outcome, the column descriptors are
    as before, so on a statement that had none [metaColumn] raises the
    illegal-state exception. *)
Theorem compileImpl_with_extractions (s : Stmt D B) r s' pos :
  extractions sup (base s) <> [] ->
  compileImpl drv sup fuel s = (r, s') ->
  _columnPtrs s' = _columnPtrs s /\
  (_columnPtrs s = [] ->
   metaColumn sup pos s' =
     (Throw (IllegalStateException "currentDataSet index out of range"), s')).
Proof.
  intros Hex H.
  assert (Hcols : _columnPtrs s' = _columnPtrs s).
  { destruct (_canCompile s) eqn:Hc.
    - rewrite (compileImpl_unfold drv sup fuel _ Hc) in H.
      revert H. unfold bind at 1.
      destruct (compileSetup sup s) as [r0 s0] eqn:E.
      assert (Hb0 : base s0 = base s)
        by (apply (compileSetup_frame sup base) in E; auto).
      assert (Hc0 : _columnPtrs s0 = _columnPtrs s)
        by (apply (compileSetup_frame sup _columnPtrs) in E; auto).
      destruct r0 as [[] | ex | x];
        [ | intros H; inversion H; subst; exact Hc0
          | intros H; inversion H; subst; exact Hc0 ].
      rewrite (bind_Ok _ _ _ _ _
                 (makeInternalExtractors_skipped s0 ltac:(now rewrite Hb0))).
      intros H. rewrite <- Hc0.
      revert H. apply preserves_bind; [ | intros; frame_tac ].
      apply doPrepare_frame; auto.
    - rewrite (compileImpl_compiled drv sup fuel _ Hc) in H.
      inversion H; subst. reflexivity. }
  split; [exact Hcols |].
  intros Hnil. rewrite metaColumn_lookup, Hcols, Hnil. reflexivity.
Qed.

End Protocol.

(** ** Fetching after a suppressed format error and across data sets *)

Section Sequences.
Context {D B : Type}.
Variable drv : Driver D.
Variable sup : StatementImpl D B.
Variable fuel : nat.

(** [hasNext] on a statement with data whose fetch the driver answers
    with a row, or with the end of the data when no data set is left. *)
Lemma hasNext_after_ensurePrepared (s sE : Stmt D B) e rc d1 :
  hasData drv s = true ->
  ensurePrepared drv sup fuel s = (Ok tt, sE) ->
  _stepCalled sE = false ->
  _extractors sE !! currentDataSet sup (base sE) = Some e ->
  SQLFetch drv (driver sE) = (rc, d1) ->
  rc = SQL_SUCCESS \/
  (rc = SQL_NO_DATA /\
   existsb (String.eqb INVALID_CURSOR_STATE) (diagnosticStates drv d1) = false /\
   hasMoreDataSets sup (base sE) = false) ->
  hasNext drv sup fuel s =
    (Ok (negb (isError rc)),
     set_stepCalled true
       (set_nextResponse rc
          (set_calls (calls sE ++ [CallFetch])
             (set_driver d1
                (set_extractors
                   (<[currentDataSet sup (base sE) := reset e]> (_extractors sE))
                   sE))))).
Proof.
  intros Hdata Hens Hstep He Hf Hrc.
  unfold ensurePrepared in Hens. do 3 bind_inv1 Hens.
  inversion E; subst; clear E. inversion E1; subst; clear E1. destruct a0.
  unfold hasNext. rewrite bind_gets, Hdata. rewrite bind_gets.
  rewrite (bind_Ok _ _ _ _ _ E0). rewrite bind_gets.
  rewrite (bind_Ok _ _ _ _ _ Hens). rewrite bind_gets, Hstep.
  destruct Hrc as [-> | (-> & Hdiag & Hmore)].
  - rewrite (bind_Ok _ _ _ _ _
               (makeStep_plain drv sup fuel sE e SQL_SUCCESS d1 He Hf
                  (or_introl eq_refl))).
    mred. reflexivity.
  - rewrite (bind_Ok _ _ _ _ _
               (makeStep_plain drv sup fuel sE e SQL_NO_DATA d1 He Hf
                  (or_intror (conj eq_refl Hdiag)))).
    mred. fields. unfold nextRowReady. fields.
    change (isError SQL_NO_DATA) with true. cbn [negb]. mred. fields.
    rewrite Hmore. reflexivity.
Qed.

(** The lazy discovery of [hasNext] on a call-style statement whose
    columns cannot be described: the format error is suppressed and the
    statement is prepared. *)
Lemma ensurePrepared_format_error (s s3 : Stmt D B) msg :
  hasData drv s = true ->
  extractions sup (base s) = [] ->
  isStoredProcedure sup s = true ->
  (currentDataSet sup (base s) < length (_preparations s))%nat ->
  fillColumns drv sup s = (Throw (DataFormatException msg), s3) ->
  exists sE,
    ensurePrepared drv sup fuel s = (Ok tt, sE) /\
    (sE = s3 \/ sE = set_prepared true s3).
Proof.
  intros Hd Hex Hsp Hcur Hfill.
  assert (Hb : base s3 = base s)
    by (apply (fillColumns_frame drv sup base) in Hfill; auto).
  assert (Hp : _preparations s3 = _preparations s)
    by (apply (fillColumns_frame drv sup _preparations) in Hfill; auto).
  pose proof (makeInternalExtractors_format_error drv sup s s3 msg Hd Hex Hfill)
    as Hmake.
  rewrite Hsp in Hmake.
  unfold ensurePrepared. rewrite bind_gets, Hex. cbn [length Nat.eqb when].
  rewrite (bind_Ok _ _ _ _ _ Hmake). rewrite bind_gets.
  destruct (_prepared s3); cbn [negb when].
  - exists s3. split; [reflexivity | auto].
  - rewrite (doPrepare_no_extractions drv sup fuel s3);
      [ | now rewrite Hb | now rewrite Hb, Hp ].
    destruct (getFeature sup "autoExtract" (base s3) && hasData drv s3);
      eexists; split; try reflexivity; auto.
Qed.

(** C6: a format error raised while the columns are discovered is
    suppressed exactly for call-style statements.  Let [compileImpl] reach
    the column discovery of a statement with pending data and no
    extractions, on its first data set, and let [fillColumns] raise the
    format error.  The statement counts as a stored-procedure call
    exactly when its trimmed text has at least two characters, begins
    with an opening and ends with a closing brace.  If it does,
    [compileImpl] returns normally, the statement is compiled, a
    Preparation Context and an Extractor exist for the current data set,
    and [hasNext] can be called on the statement as compiled: without
    pending data it answers false; with pending data, when its own column
    discovery raises the format error again, that error is suppressed
    again and [hasNext] fetches once and answers by what the fetch found,
    true for a row and false at the end of the data.  If the statement is
    no stored-procedure call, [compileImpl] raises the same format
    error. *)
Theorem compileImpl_format_error (s s0 s1 : Stmt D B) msg :
  _canCompile s = true ->
  compileSetup sup s = (Ok tt, s0) ->
  currentDataSet sup (base s) = 0%nat ->
  hasData drv s0 = true ->
  extractions sup (base s) = [] ->
  fillColumns drv sup s0 = (Throw (DataFormatException msg), s1) ->
  (isStoredProcedure sup s = true <->
   callStyle (trimInPlace (toString sup (base s)))) /\
  (isStoredProcedure sup s = true ->
   exists s2,
     compileImpl drv sup fuel s = (Ok tt, s2) /\
     _canCompile s2 = false /\
     is_Some (_preparations s2 !! currentDataSet sup (base s2)) /\
     is_Some (_extractors s2 !! currentDataSet sup (base s2)) /\
     (hasData drv s2 = false -> hasNext drv sup fuel s2 = (Ok false, s2)) /\
     (forall msg' s3 rc d3,
        hasData drv s2 = true ->
        fillColumns drv sup s2 = (Throw (DataFormatException msg'), s3) ->
        SQLFetch drv (driver s3) = (rc, d3) ->
        rc = SQL_SUCCESS \/
        (rc = SQL_NO_DATA /\
         existsb (String.eqb INVALID_CURSOR_STATE) (diagnosticStates drv d3)
           = false /\
         hasMoreDataSets sup (base s) = false) ->
        exists s4,
          hasNext drv sup fuel s2 = (Ok (negb (isError rc)), s4) /\
          calls s4 = calls s2 ++ [CallFetch] /\
          driver s4 = d3 /\
          _nextResponse s4 = rc /\
          _stepCalled s4 = true)) /\
  (isStoredProcedure sup s = false ->
   compileImpl drv sup fuel s = (Throw (DataFormatException msg), s1)).
Proof.
  intros Hcan Hsetup Hcur Hdata Hex Hfill.
  destruct (compileSetup_Ok sup _ _ Hsetup) as (Hp0 & He0 & Hb0 & _).
  destruct (compileSetup_master sup _ _ Hsetup) as (_ & _ & _ & _ & Hst0 & _).
  assert (Hb1 : base s1 = base s0)
    by (apply (fillColumns_frame drv sup base) in Hfill; auto).
  assert (Hp1 : _preparations s1 = _preparations s0)
    by (apply (fillColumns_frame drv sup _preparations) in Hfill; auto).
  assert (He1 : _extractors s1 = _extractors s0)
    by (apply (fillColumns_frame drv sup _extractors) in Hfill; auto).
  assert (Hst1 : _stepCalled s1 = false)
    by (apply (fillColumns_frame drv sup _stepCalled) in Hfill;
        [congruence | auto | auto]).
  assert (Hsp : isStoredProcedure sup s0 = isStoredProcedure sup s)
    by (unfold isStoredProcedure; now rewrite Hb0).
  assert (Hmake : makeInternalExtractors drv sup s0 =
                  (if isStoredProcedure sup s then Ok tt
                   else Throw (DataFormatException msg), s1)).
  { rewrite <- Hsp. apply makeInternalExtractors_format_error; auto.
    now rewrite Hb0. }
  split; [apply isStoredProcedure_callStyle | split]; intros Hsproc;
    rewrite Hsproc in Hmake; rewrite (compileImpl_unfold drv sup fuel _ Hcan).
  - rewrite (bind_Ok _ _ _ _ _ Hsetup). rewrite (bind_Ok _ _ _ _ _ Hmake).
    assert (Hlen : (0 < length (_preparations s0))%nat)
      by (destruct (_preparations s0); [congruence | simpl; lia]).
    assert (Hlen' : (0 < length (_extractors s0))%nat)
      by (destruct (_extractors s0); [congruence | simpl; lia]).
    erewrite bind_Ok;
      [ | apply doPrepare_no_extractions;
          [ now rewrite Hb1, Hb0 | rewrite Hb1, Hb0, Hcur, Hp1; exact Hlen ] ].
    unfold modify.
    set (sP := if getFeature sup "autoExtract" (base s1) && hasData drv s1
               then set_prepared true s1 else s1).
    assert (HsP : sP = s1 \/ sP = set_prepared true s1)
      by (unfold sP; destruct (_ && _); auto).
    set (s2 := set_canCompile false sP).
    assert (Hb2 : base s2 = base s)
      by (unfold s2; destruct HsP as [-> | ->]; fields; congruence).
    assert (Hp2 : _preparations s2 = _preparations s0)
      by (unfold s2; destruct HsP as [-> | ->]; fields; congruence).
    assert (He2 : _extractors s2 = _extractors s0)
      by (unfold s2; destruct HsP as [-> | ->]; fields; congruence).
    assert (Hst2 : _stepCalled s2 = false)
      by (unfold s2; destruct HsP as [-> | ->]; fields; congruence).
    exists s2. split; [reflexivity |]. split; [reflexivity |].
    split; [rewrite Hb2, Hcur, Hp2; now apply lookup_lt_is_Some_2 |].
    split; [rewrite Hb2, Hcur, He2; now apply lookup_lt_is_Some_2 |].
    split.
    + intros Hnd. unfold hasNext. rewrite bind_gets, Hnd. reflexivity.
    + intros msg' s3 rc d3 Hd2 Hfill2 Hfetch Hrc.
      assert (Hb3 : base s3 = base s2)
        by (apply (fillColumns_frame drv sup base) in Hfill2; auto).
      assert (He3 : _extractors s3 = _extractors s2)
        by (apply (fillColumns_frame drv sup _extractors) in Hfill2; auto).
      assert (Hst3 : _stepCalled s3 = _stepCalled s2)
        by (apply (fillColumns_frame drv sup _stepCalled) in Hfill2; auto).
      assert (Hc3 : calls s3 = calls s2)
        by (apply (fillColumns_frame drv sup calls) in Hfill2; auto).
      destruct (ensurePrepared_format_error s2 s3 msg') as (sE & Hens & HsE);
        [ exact Hd2 | now rewrite Hb2
        | unfold isStoredProcedure in *; now rewrite Hb2
        | rewrite Hb2, Hcur, Hp2; exact Hlen | exact Hfill2 | ].
      assert (HbE : base sE = base s)
        by (destruct HsE as [-> | ->]; fields; congruence).
      assert (HeE : _extractors sE = _extractors s0)
        by (destruct HsE as [-> | ->]; fields; congruence).
      assert (HstE : _stepCalled sE = false)
        by (destruct HsE as [-> | ->]; fields; congruence).
      assert (HcE : calls sE = calls s2)
        by (destruct HsE as [-> | ->]; fields; congruence).
      assert (HdE : driver sE = driver s3)
        by (destruct HsE as [-> | ->]; reflexivity).
      destruct (lookup_lt_is_Some_2 (_extractors s0) 0 Hlen') as [e Hle].
      eexists. split.
      * apply (hasNext_after_ensurePrepared s2 sE e rc d3 Hd2 Hens HstE).
        -- now rewrite HbE, Hcur, HeE.
        -- now rewrite HdE.
        -- rewrite HbE. exact Hrc.
      * fields. rewrite HcE. auto.
  - rewrite (bind_Ok _ _ _ _ _ Hsetup). now rewrite (bind_Throw _ _ _ _ _ Hmake).
Qed.

(** One more Preparation Context, cloned from the first, and its
    Extractor. *)
Lemma addPreparator_clone_run (s : Stmt D B) master rest enc from to :
  _preparations s = master :: rest ->
  getProperty sup "dbEncoding" (base s) = Ok (AnyString enc) ->
  findEncoding sup enc = Some from ->
  findEncoding sup "UTF-8" = Some to ->
  addPreparator sup s =
    (Ok tt,
     set_extractors
       (_extractors s ++ [mkExtractor (S (heapNext s)) (heapNext s) from to 0])
       (set_heapNext (S (S (heapNext s)))
          (set_preparations
             (_preparations s ++
              [mkPreparator (heapNext s) (prep_statement master)
                 (prep_maxFieldSize master) (prep_ext master)])
             (set_heapNext (S (heapNext s)) s)))).
Proof.
  intros Hp Hprop Hfrom Hto.
  unfold addPreparator. rewrite bind_gets, Hp.
  cbn [length Nat.eqb]. rewrite !bind_bind.
  unfold index at 1. cbn [lookup list_lookup].
  rewrite bind_ret, bind_bind, bind_new, bind_modify, bind_gets.
  fields. rewrite Hp.
  unfold index at 1. rewrite lookup_last_snoc, bind_ret.
  rewrite bind_bind. unfold property at 1. unfold bind at 1. fields.
  rewrite Hprop. cbn [castString]. rewrite bind_ret.
  unfold TextEncoding_find. rewrite Hfrom, Hto. mred. fields.
  reflexivity.
Qed.

(** [doPrepare] on a statement with data whose extractions, the first of
    them no bulk extraction, can all be prepared. *)
Lemma doPrepare_prepares (s : Stmt D B) pP exts d' b' :
  getFeature sup "autoExtract" (base s) = true ->
  hasData drv s = true ->
  _preparations s !! currentDataSet sup (base s) = Some pP ->
  extractions sup (base s) = exts ->
  (forall e, head exts = Some e -> isBulk e = false) ->
  preparesAll pP exts 0 (driver s, base s) (d', b') ->
  doPrepare drv sup fuel s =
    (Ok tt, set_prepared true (set_base b' (set_driver d' s))).
Proof.
  intros Ha Hd HpP He Hbulk Hprep.
  unfold doPrepare. rewrite !bind_gets, Ha, Hd. cbn [andb].
  rewrite !bind_gets. unfold index. rewrite HpP. rewrite bind_ret, bind_gets.
  rewrite He.
  assert (Hhead : (match exts with
                   | e :: _ =>
                       if isBulk e then
                         let* limit := gets (fun s => getExtractionLimit sup (base s)) in
                         if limit =? LIMIT_UNLIMITED sup
                         then throw (InvalidArgumentException
                                       "Bulk operation not allowed without limit.")
                         else
                           let* rc := driverCall
                                        (CallSetStmtAttr SQL_ATTR_ROW_ARRAY_SIZE limit)
                                        (SQLSetStmtAttr drv SQL_ATTR_ROW_ARRAY_SIZE limit) in
                           checkError drv sup fuel rc
                             "SQLSetStmtAttr(SQL_ATTR_ROW_ARRAY_SIZE)"
                       else ret tt
                   | [] => ret tt
                   end) s = (Ok tt, s)).
  { destruct exts as [| e rest]; [reflexivity |].
    rewrite (Hbulk e eq_refl). reflexivity. }
  rewrite (bind_Ok _ _ _ _ _ Hhead).
  rewrite (bind_Ok _ _ _ _ _ (doPrepare_loop_prepares pP exts 0 s d' b' Hprep)).
  reflexivity.
Qed.

Lemma insert_snoc {A} (l : list A) (x y : A) :
  <[length l := y]> (l ++ [x]) = l ++ [y].
Proof.
  rewrite insert_app_r_alt by lia. now rewrite Nat.sub_diag.
Qed.

(** C3: [hasNext] finds no row ready after its fetch, more data sets
    remain and the more-results call does not answer [SQL_NO_DATA].  Then
    [hasNext] builds the Preparation Context and the Extractor of the new
    data set, prepares it and fetches once, and whenever these steps
    return, it returns true without looking at what the fetch found; it
    never returns false.  In particular it returns true when that fetch
    left no row ready, and [next] then raises the exception for the
    missing row.  The effect of the steps is spelled out for a statement
    that keeps one Preparation Context and one Extractor per data set
    visited, with automatic extraction, pending data and no bulk
    extraction: a Preparation Context cloned from the first one and an
    Extractor referring to it are appended; every extraction is prepared
    for the new Preparation Context, in order and at the accumulated
    positions; the new Extractor is handed to the extractions and reset;
    one fetch is issued, in the driver state the preparations left; and
    [hasNext] returns true whether that fetch found a row or the end of
    the data. *)
Theorem hasNext_true_after_advancing (s s0 s1 : Stmt D B) n b2 rc d2 :
  hasData drv s = true ->
  ensurePrepared drv sup fuel s = (Ok tt, s0) ->
  _stepCalled s0 = false ->
  makeStep drv sup fuel s0 = (Ok tt, s1) ->
  nextRowReady s1 = false ->
  hasMoreDataSets sup (base s1) = true ->
  activateNextDataSet sup (base s1) = (Ok n, b2) ->
  SQLMoreResults drv (driver s1) = (rc, d2) ->
  rc <> SQL_NO_DATA ->
  let s2 := set_calls (calls s1 ++ [CallMoreResults])
              (set_driver d2 (set_base b2 s1)) in
  hasNext drv sup fuel s = (run rebuildAndFetch drv sup fuel in ret true) s2 /\
  (forall r s3, hasNext drv sup fuel s = (r, s3) -> r <> Ok false) /\
  (forall s3,
     rebuildAndFetch drv sup fuel s2 = (Ok tt, s3) ->
     hasNext drv sup fuel s = (Ok true, s3) /\
     (nextRowReady s3 = false ->
      next sup s3 =
        (Throw (StatementException
                  "ODBCStatementImpl::next():Next row not available."), s3))) /\
  (forall master others enc from to d3 b3 b4 rc' d4,
     _preparations s1 = master :: others ->
     length (_extractors s1) = length (_preparations s1) ->
     currentDataSet sup b2 = length (_preparations s1) ->
     getProperty sup "dbEncoding" b2 = Ok (AnyString enc) ->
     findEncoding sup enc = Some from ->
     findEncoding sup "UTF-8" = Some to ->
     getFeature sup "autoExtract" b2 = true ->
     hasData drv s2 = true ->
     (forall e, head (extractions sup b2) = Some e -> isBulk e = false) ->
     preparesAll
       (mkPreparator (heapNext s1) (prep_statement master)
          (prep_maxFieldSize master) (prep_ext master))
       (extractions sup b2) 0 (d2, b2) (d3, b3) ->
     currentDataSet sup b3 = currentDataSet sup b2 ->
     fixupExtraction sup
       (Some (mkExtractor (S (heapNext s1)) (heapNext s1) from to 0)) b3 =
       (Ok tt, b4) ->
     currentDataSet sup b4 = currentDataSet sup b2 ->
     SQLFetch drv d3 = (rc', d4) ->
     rc' = SQL_SUCCESS \/
     (rc' = SQL_NO_DATA /\
      existsb (String.eqb INVALID_CURSOR_STATE) (diagnosticStates drv d4)
        = false) ->
     exists s3,
       hasNext drv sup fuel s = (Ok true, s3) /\
       _preparations s3 =
         _preparations s1 ++
         [mkPreparator (heapNext s1) (prep_statement master)
            (prep_maxFieldSize master) (prep_ext master)] /\
       _extractors s3 =
         _extractors s1 ++
         [reset (mkExtractor (S (heapNext s1)) (heapNext s1) from to 0)] /\
       _prepared s3 = true /\
       base s3 = b4 /\
       driver s3 = d4 /\
       calls s3 = calls s1 ++ [CallMoreResults; CallFetch] /\
       _nextResponse s3 = rc' /\
       _stepCalled s3 = true /\
       (rc' = SQL_NO_DATA ->
        next sup s3 =
          (Throw (StatementException
                    "ODBCStatementImpl::next():Next row not available."), s3))).
Proof.
  intros Hdata Hens Hstep Hmake Hready Hmore Hact Hres Hrc s2.
  pose proof (hasNext_no_row_more_results drv sup fuel _ _ _ _ _ _ _
                Hdata Hens Hstep Hmake Hready Hmore Hact Hres Hrc) as Heq.
  fold s2 in Heq. split; [exact Heq | split; [ | split ]].
  - intros r s3. rewrite Heq. unfold bind.
    destruct (rebuildAndFetch drv sup fuel s2) as [[[] | e | f] s3'];
      intros H; inversion H; discriminate.
  - intros s3 Hre. split.
    + rewrite Heq. now rewrite (bind_Ok _ _ _ _ _ Hre).
    + apply next_no_row.
  - intros master others enc from to d3 b3 b4 rc' d4
      Hp Hlen Hcur Hprop Hfrom Hto Hauto Hd2 Hbulk Hprep Hcur3 Hfix Hcur4
      Hfetch Hrc'.
    set (pP := mkPreparator (heapNext s1) (prep_statement master)
                 (prep_maxFieldSize master) (prep_ext master)) in *.
    set (ex := mkExtractor (S (heapNext s1)) (heapNext s1) from to 0) in *.
    pose proof (addPreparator_clone_run s2 master others enc from to
                  Hp Hprop Hfrom Hto) as Hadd.
    change (heapNext s2) with (heapNext s1) in Hadd.
    change (_preparations s2) with (_preparations s1) in Hadd.
    change (_extractors s2) with (_extractors s1) in Hadd.
    fold pP ex in Hadd.
    set (sA := set_extractors _ _) in Hadd.
    assert (HpP : _preparations sA !! currentDataSet sup (base sA) = Some pP).
    { unfold sA, s2. fields. rewrite Hcur. rewrite lookup_app_r by lia.
      now rewrite Nat.sub_diag. }
    pose proof (doPrepare_prepares sA pP (extractions sup b2) d3 b3
                  Hauto Hd2 HpP eq_refl Hbulk Hprep) as Hdo.
    set (sP := set_prepared true _) in Hdo.
    assert (Hex : _extractors sP !! currentDataSet sup (base sP) = Some ex).
    { unfold sP, sA, s2. fields. rewrite Hcur3, Hcur, <- Hlen.
      rewrite lookup_app_r by lia. now rewrite Nat.sub_diag. }
    set (sF := set_base b4 sP).
    assert (Hfixup : baseCall (fixupExtraction sup (Some ex)) sP = (Ok tt, sF)).
    { unfold baseCall. change (base sP) with b3. now rewrite Hfix. }
    assert (HexF : _extractors sF !! currentDataSet sup (base sF) = Some ex).
    { unfold sF, sP, sA, s2. fields. rewrite Hcur4, Hcur, <- Hlen.
      rewrite lookup_app_r by lia. now rewrite Nat.sub_diag. }
    pose proof (makeStep_plain drv sup fuel sF ex rc' d4 HexF Hfetch Hrc') as Hms.
    set (s3 := set_stepCalled true _) in Hms.
    assert (Hre : rebuildAndFetch drv sup fuel s2 = (Ok tt, s3)).
    { unfold rebuildAndFetch.
      rewrite (bind_Ok _ _ _ _ _ Hadd), (bind_Ok _ _ _ _ _ Hdo).
      rewrite !bind_gets, Hex. rewrite (bind_Ok _ _ _ _ _ Hfixup). exact Hms. }
    exists s3. split; [rewrite Heq; now rewrite (bind_Ok _ _ _ _ _ Hre) |].
    unfold s3, sF, sP, sA, s2. fields.
    split; [reflexivity |]. split.
    { rewrite Hcur4, Hcur, <- Hlen. apply insert_snoc. }
    split; [reflexivity |]. split; [reflexivity |]. split; [reflexivity |].
    split; [now rewrite <- app_assoc |].
    split; [reflexivity |]. split; [reflexivity |].
    intros ->. apply next_no_row. reflexivity.
Qed.

End Sequences.

(** ** Concrete runs *)

Module Runs.
Import Scripted Scenarios.

(** C2 on the code: two output bindings report 0 and 1 rows in one
    pass, and [next] returns 1 without an exception, the zero of the
    first binding being taken for "no previous count"; with the same two
    counts in the other order [next] raises the exception for different
    extraction counts. *)
Theorem next_accepts_zero_then_one :
  next scriptedSession zeroThenOne = (Ok 1, set_stepCalled false zeroThenOne) /\
  next scriptedSession oneThenZero =
    (Throw (IllegalStateException "Different extraction counts"), oneThenZero).
Proof. split; reflexivity. Qed.

Lemma compileImpl_idempotent_witness :
  compile (stateAfter compile selectOne) = (Ok tt, stateAfter compile selectOne) /\
  _preparations (snd (compile (stateAfter compile selectOne))) =
    _preparations (stateAfter compile selectOne) /\
  calls (snd (compile (stateAfter compile selectOne))) =
    calls (stateAfter compile selectOne).
Proof.
  apply (compileImpl_idempotent scriptedDriver scriptedSession 8 selectOne
           (stateAfter compile selectOne)).
  vm_compute. reflexivity.
Defined.

Lemma hasNext_true_after_advancing_witness :
  exists s3,
    hasNext scriptedDriver scriptedSession 8 twoEmptySets = (Ok true, s3) /\
    _preparations s3 =
      [mkPreparator 0 "select 1; select 2" 1024 DE_BOUND;
       mkPreparator 3 "select 1; select 2" 1024 DE_BOUND] /\
    _extractors s3 =
      [mkExtractor 1 0 "UTF-8" "UTF-8" 1; mkExtractor 4 3 "UTF-8" "UTF-8" 1] /\
    preparedColumns (base s3) = [(0, 0); (3, 0)]%nat /\
    calls s3 = [CallFetch; CallMoreResults; CallFetch] /\
    next scriptedSession s3 =
      (Throw (StatementException
                "ODBCStatementImpl::next():Next row not available."), s3).
Proof.
  pose (s0 := stateAfter (ensurePrepared scriptedDriver scriptedSession 8)
                twoEmptySets).
  pose (s1 := stateAfter (makeStep scriptedDriver scriptedSession 8) s0).
  pose (b2 := set_dataSet 1 (base s1)).
  pose (b3 := set_preparedColumns [(0, 0); (3, 0)]%nat b2).
  pose (d2 := snd (popMoreResults (driver s1))).
  destruct (hasNext_true_after_advancing scriptedDriver scriptedSession 8
              twoEmptySets s0 s1 1%nat b2 SQL_SUCCESS d2)
    as (_ & _ & _ & H);
    [first [vm_compute; reflexivity | vm_compute; discriminate] .. |].
  destruct (H (mkPreparator 0 "select 1; select 2" 1024 DE_BOUND) []
              "UTF-8" "UTF-8" "UTF-8" d2 b3 b3 SQL_NO_DATA (snd (popFetch d2)))
    as (s3 & H1 & H2 & H3 & _ & H4 & _ & H5 & _ & _ & H6);
    [first
       [ vm_compute; reflexivity
       | intros e He; vm_compute in He; inversion He; reflexivity
       | vm_compute; eapply prepares_next; [reflexivity | apply prepares_none]
       | right; split; vm_compute; reflexivity ] .. |].
  exists s3. split; [exact H1 | split; [exact H2 | split; [exact H3 |]]].
  split; [rewrite H4; reflexivity | split; [exact H5 |]].
  apply H6. reflexivity.
Defined.

Lemma doPrepare_bulk_without_limit_witness :
  doPrepare scriptedDriver scriptedSession 8 bulkUnlimited =
    (Throw (InvalidArgumentException
              "Bulk operation not allowed without limit."), bulkUnlimited).
Proof.
  apply (doPrepare_bulk_without_limit scriptedDriver scriptedSession 8
           bulkUnlimited (reporting true 1) []);
    try reflexivity.
  simpl. lia.
Defined.

Lemma affectedRowCount_requeries_after_clear_witness :
  exists s2,
    affectedRowCount scriptedDriver (stateAfter (clear scriptedDriver) stale) =
      (Ok 7, s2) /\
    calls s2 = [CallFreeStmt; CallRowCount] /\
    _affectedRowCount s2 = 7 /\
    repeatCall 2 (affectedRowCount scriptedDriver) s2 = (Ok [7; 7], s2).
Proof.
  destruct (affectedRowCount_requeries_after_clear scriptedDriver stale
              (fst (clear scriptedDriver stale))
              (stateAfter (clear scriptedDriver) stale))
    as [(s2 & H1 & H2 & H3) H]; [reflexivity |].
  exists s2. split; [exact H1 | split; [exact H2 | split; [exact H3 |]]].
  destruct (H (stateAfter (clear scriptedDriver) stale) 7 s2 H1)
    as (_ & _ & Hrep); [discriminate |].
  exact (Hrep 2%nat).
Defined.

Lemma compileImpl_format_error_witness :
  exists s2 s4,
    compile (callProc "{call proc}") = (Ok tt, s2) /\
    _canCompile s2 = false /\
    hasNext scriptedDriver scriptedSession 8 s2 = (Ok true, s4) /\
    calls s4 = [CallFetch] /\
    _stepCalled s4 = true.
Proof.
  pose (s0 := stateAfter (compileSetup scriptedSession) (callProc "{call proc}")).
  destruct (compileImpl_format_error scriptedDriver scriptedSession 8
              (callProc "{call proc}") s0
              (stateAfter (fillColumns scriptedDriver scriptedSession) s0)
              "unsupported column type")
    as (_ & H & _); [vm_compute; reflexivity .. |].
  destruct H as (s2 & H1 & H2 & _ & _ & _ & H3); [vm_compute; reflexivity |].
  assert (E : s2 = stateAfter compile (callProc "{call proc}"))
    by (symmetry; exact (f_equal snd H1)).
  subst s2.
  destruct (H3 "unsupported column type"
              (stateAfter (fillColumns scriptedDriver scriptedSession)
                 (stateAfter compile (callProc "{call proc}")))
              SQL_SUCCESS
              (snd (popFetch (driver (stateAfter compile (callProc "{call proc}"))))))
    as (s4 & H4 & H5 & _ & _ & H6);
    [first [vm_compute; reflexivity | left; reflexivity] .. |].
  exists (stateAfter compile (callProc "{call proc}")), s4.
  split; [exact H1 | split; [exact H2 | split; [exact H4 |]]].
  split; [rewrite H5; reflexivity | exact H6].
Defined.

Lemma compileImpl_empty_statement_witness :
  exists s',
    compile (fresh quietDriver (plainSession "")) =
      (Throw (ODBCException "Empty statements are illegal"), s') /\
    _preparations s' = [].
Proof.
  destruct (compileImpl_empty_statement scriptedDriver scriptedSession 8
              (fresh quietDriver (plainSession "")))
    as (s' & H1 & H2 & _); try (vm_compute; reflexivity).
  exists s'. split; [exact H1 | exact H2].
Defined.

(** C8 as the spec words it does not hold of the code.  The driver returns the
    first record with success-with-info and has a second record behind
    it: the code keeps the first record and stops.  However the return
    codes are divided into those that end the loop with the record
    discarded and the others, success being among the others, the loop of
    the spec ends with a different list: without the first record when
    success-with-info ends it, with the second record when it does not. *)
Lemma addErrors_keeps_record_with_info :
  _errorInfo (stateAfter (addErrors scriptedDriver 8) infoFirst) = [truncated] /\
  ~ (exists failed : SQLRETURN -> bool,
       failed SQL_SUCCESS = false /\
       _errorInfo (stateAfter (addErrors scriptedDriver 8) infoFirst) =
         _errorInfo infoFirst ++
         addErrors_spec scriptedDriver failed 8 0 (driver infoFirst)).
Proof.
  split; [reflexivity |].
  intros (failed & Hs & H).
  change (_errorInfo (stateAfter (addErrors scriptedDriver 8) infoFirst))
    with [truncated] in H.
  cbn [addErrors_spec] in H.
  change (SQLGetDiagRec scriptedDriver (0 + 1) (driver infoFirst))
    with (SQL_SUCCESS_WITH_INFO, truncated) in H.
  change (SQLGetDiagRec scriptedDriver (0 + 1 + 1) (driver infoFirst))
    with (SQL_SUCCESS, general) in H.
  cbv beta iota in H. rewrite Hs in H.
  destruct (failed SQL_SUCCESS_WITH_INFO); simpl in H; discriminate.
Qed.

Lemma addErrors_accumulates_witness :
  exists s',
    addErrors scriptedDriver 8 infoLast = (Ok tt, s') /\
    _errorInfo s' = [general; truncated] /\
    calls s' = [CallGetDiagRec 1; CallGetDiagRec 2].
Proof.
  destruct (addErrors_accumulates scriptedDriver 8 1 infoLast)
    as (s' & H1 & H2 & H3 & _).
  - lia.
  - lia.
  - intros j Hj. assert (j = 1) as -> by lia. reflexivity.
  - discriminate.
  - exists s'. split; [exact H1 | split; [exact H2 | exact H3]].
Defined.

Lemma affectedRowCount_zero_is_unknown_witness :
  (exists s',
     repeatCall 3 (affectedRowCount zeroRowsDriver) selectOne =
       (Ok [0; 0; 0], s') /\
     calls s' = [CallRowCount; CallRowCount; CallRowCount]) /\
  bindImpl scriptedDriver scriptedSession 8 insertThree =
    (Ok tt, stateAfter (bindImpl scriptedDriver scriptedSession 8) insertThree) /\
  repeatCall 2 (affectedRowCount scriptedDriver)
    (stateAfter (bindImpl scriptedDriver scriptedSession 8) insertThree) =
    (Ok [3; 3], stateAfter (bindImpl scriptedDriver scriptedSession 8) insertThree).
Proof.
  split; [ | split ].
  - destruct (proj1 (affectedRowCount_zero_is_unknown zeroRowsDriver
                       scriptedSession 8) 3%nat selectOne)
      as (s' & H1 & H2 & _);
      [intros d; reflexivity | vm_compute; reflexivity |].
    exists s'. split; [exact H1 | exact H2].
  - vm_compute. reflexivity.
  - destruct (proj2 (affectedRowCount_zero_is_unknown scriptedDriver
                       scriptedSession 8) insertThree (handling 3) [] (Ok tt)
                (stateAfter (bindImpl scriptedDriver scriptedSession 8) insertThree))
      as (_ & _ & H & _);
      [ vm_compute; reflexivity | vm_compute; reflexivity
      | vm_compute; discriminate | right; vm_compute; reflexivity | ].
    exact (H 2%nat).
Defined.

Lemma clear_resets_before_release_witness :
  exists s',
    clear scriptedDriver stale =
      (Throw (StatementException
                "ODBCStatementImpl::putData():SQLFreeStmt(SQL_CLOSE)"), s') /\
    _stepCalled s' = false /\
    _affectedRowCount s' = 0 /\
    _errorInfo s' = [] /\
    calls s' = calls stale ++ [CallFreeStmt].
Proof.
  apply (clear_resets_before_release scriptedDriver stale). reflexivity.
Defined.

End Runs.

(** ** Further concrete runs *)

Module MoreRuns.
Import Scripted Scenarios MoreScenarios.

(** Discharge a side condition on a concrete statement by evaluation. *)
Ltac side :=
  first
    [ lia
    | vm_compute; reflexivity
    | vm_compute; discriminate
    | vm_compute; lia
    | vm_compute; left; reflexivity
    | intros j Hj; assert (j = 1) as -> by lia; reflexivity
    | repeat constructor; intros pos w; eexists; reflexivity
    | intros len d; split; reflexivity ].

Definition theExtractor : Extractor := mkExtractor 1 0 "UTF-8" "UTF-8" 0.


Lemma makeStep_postcondition_witness :
  _stepCalled (stateAfter (makeStep drv ses 8) oneRow) = true.
Proof.
  destruct (makeStep_postcondition drv ses 8 oneRow
              (fst (makeStep drv ses 8 oneRow)) (snd (makeStep drv ses 8 oneRow)))
    as [H _]; [side |].
  destruct H as [H _]; [side | exact H].
Defined.

Lemma makeStep_invalid_cursor_state_witness :
  exists s',
    makeStep drv ses 8 afterProcedure = (Ok tt, s') /\
    nextRowReady s' = false /\
    calls s' = [CallFetch; CallMoreResults].
Proof.
  destruct (makeStep_invalid_cursor_state drv ses 8 afterProcedure theExtractor
              SQL_ERROR (snd (popFetch (driver afterProcedure)))
              (snd (popFetch (driver afterProcedure))))
    as (s' & H1 & _ & H2 & _ & _ & H3); [side .. |].
  exists s'. split; [exact H1 | split; [exact H2 | exact H3]].
Defined.

Lemma makeStep_success_with_info_witness :
  exists s',
    makeStep drv ses 8 warned = (Ok tt, s') /\
    nextRowReady s' = true /\
    _errorInfo s' = [truncated].
Proof.
  destruct (makeStep_success_with_info drv ses 8 1 warned theExtractor
              (snd (popFetch (driver warned))))
    as (s' & H1 & H2 & _ & H3 & _); [side .. |].
  exists s'. split; [exact H1 | split; [exact H2 | exact H3]].
Defined.

Lemma hasNext_again_does_not_fetch_witness :
  hasNext drv ses 8 (stateAfter (hasNext drv ses 8) oneRow) =
    (Ok true, stateAfter (hasNext drv ses 8) oneRow).
Proof.
  destruct (hasNext_again_does_not_fetch drv ses 8 oneRow
              (stateAfter (hasNext drv ses 8) oneRow))
    as [_ H]; [side .. |].
  rewrite H. vm_compute. reflexivity.
Defined.

Lemma hasNext_then_next_witness :
  exists s1 s2,
    hasNext drv ses 8 oneRow = (Ok true, s1) /\
    next ses s1 = (Ok 1, s2) /\
    calls s2 = [CallFetch].
Proof.
  destruct (hasNext_then_next drv ses 8 oneRow theExtractor
              (snd (popFetch (driver oneRow))) 1 [1])
    as (s1 & s2 & H1 & H2 & _ & _ & H3); [side .. |].
  exists s1, s2. split; [exact H1 | split; [exact H2 | exact H3]].
Defined.

Lemma hasNext_exhausted_witness :
  exists s1,
    hasNext drv ses 8 noRow = (Ok false, s1) /\
    next ses s1 =
      (Throw (StatementException
                "ODBCStatementImpl::next():Next row not available."), s1).
Proof.
  destruct (hasNext_exhausted drv ses 8 noRow theExtractor (driver noRow))
    as (s1 & H1 & _ & _ & H2 & _); [side .. |].
  exists s1. split; [exact H1 | exact H2].
Defined.

Lemma next_nonzero_counts_witness :
  exists s', next ses twoAndTwo = (Ok 2, s') /\ _stepCalled s' = false.
Proof.
  destruct (next_nonzero_counts ses twoAndTwo 2 [2])
    as (s' & H1 & H2 & _); [side .. |].
  exists s'. split; [exact H1 | exact H2].
Defined.

Lemma metaColumn_bounds_witness :
  metaColumn ses 5 (stateAfter (fillColumns drv ses) selectOne) =
    (Throw (InvalidAccessException "Invalid column number: 5"),
     stateAfter (fillColumns drv ses) selectOne).
Proof.
  destruct (metaColumn_bounds ses 5 (stateAfter (fillColumns drv ses) selectOne))
    as (_ & _ & H).
  apply (H [mkMetaColumn 0 ""]); [vm_compute; reflexivity | simpl; lia].
Defined.


Lemma nativeSQL_at_most_two_calls_witness :
  exists native s',
    nativeSQL drv ses 8 selectOne = (Ok native, s') /\
    calls s' = [CallNativeSql 16].
Proof.
  destruct (nativeSQL_at_most_two_calls drv ses 8 selectOne 8)
    as (native & s' & H1 & H2); [side .. |].
  exists native, s'. split; [exact H1 | exact H2].
Defined.

Lemma affectedRowCount_reports_driver_value_witness :
  exists s', affectedRowCount drv unknownRows = (Ok (-1), s').
Proof.
  destruct (affectedRowCount_reports_driver_value drv unknownRows
              SQL_SUCCESS (-1) (driver unknownRows))
    as (s' & H & _); [side .. |].
  exists s'. exact H.
Defined.

Lemma execDirectImpl_keeps_cache_witness :
  affectedRowCount drv
    (stateAfter (execDirectImpl drv ses 8 "delete from t") cachedFive) =
    (Ok 5, stateAfter (execDirectImpl drv ses 8 "delete from t") cachedFive).
Proof.
  destruct (execDirectImpl_keeps_cache drv ses 8 "delete from t" cachedFive
              (fst (execDirectImpl drv ses 8 "delete from t" cachedFive))
              (snd (execDirectImpl drv ses 8 "delete from t" cachedFive)))
    as (_ & _ & _ & _ & H); [side |].
  apply H. discriminate.
Defined.

Lemma addErrors_keeps_retrieved_records_witness :
  driver (stateAfter (addErrors drv 8) infoLast) = driver infoLast.
Proof.
  destruct (addErrors_keeps_retrieved_records drv 8 infoLast
              (fst (addErrors drv 8 infoLast)) (snd (addErrors drv 8 infoLast)))
    as (_ & H & _); [side | exact H].
Defined.

Lemma doPrepare_sets_prepared_last_witness :
  _prepared (stateAfter (doPrepare drv ses 8) bulkOfTen) = true.
Proof.
  destruct (doPrepare_sets_prepared_last drv ses 8 bulkOfTen
              (fst (doPrepare drv ses 8 bulkOfTen))
              (snd (doPrepare drv ses 8 bulkOfTen)))
    as (H & _); [side |].
  unfold stateAfter. rewrite H; side.
Defined.

Lemma doPrepare_row_array_size_witness :
  calls (stateAfter (doPrepare drv ses 8) bulkOfTen) =
    [CallSetStmtAttr SQL_ATTR_ROW_ARRAY_SIZE 10] /\
  _prepared (stateAfter (doPrepare drv ses 8) bulkOfTen) = true /\
  preparedColumns (base (stateAfter (doPrepare drv ses 8) bulkOfTen)) =
    [(0, 0)]%nat.
Proof.
  destruct (doPrepare_row_array_size drv ses 8 bulkOfTen (reporting true 1) []
              SQL_SUCCESS quietDriver
              (fst (doPrepare drv ses 8 bulkOfTen))
              (snd (doPrepare drv ses 8 bulkOfTen)))
    as (_ & _ & H); [side .. |].
  destruct (H (or_intror eq_refl) (mkPreparator 0 "select a" 1024 DE_BOUND)
              quietDriver
              (set_preparedColumns [(0, 0)]%nat (base bulkOfTen)))
    as (_ & H1 & _ & H2 & H3).
  - vm_compute. reflexivity.
  - vm_compute. eapply prepares_next; [reflexivity | apply prepares_none].
  - unfold stateAfter. rewrite H1, H2, H3. repeat split.
Defined.

Lemma compileImpl_postcondition_witness :
  exists maxFieldSize,
    _preparations (stateAfter compile selectOne) =
      [mkPreparator 0 "select 1" maxFieldSize DE_BOUND].
Proof.
  destruct (compileImpl_postcondition drv ses 8 selectOne
              (stateAfter compile selectOne))
    as (H & _); [side .. |].
  exact H.
Defined.

Lemma compileImpl_failure_keeps_compilable_witness :
  _canCompile (stateAfter compile (fresh quietDriver (plainSession ""))) = true.
Proof.
  destruct (compileImpl_failure_keeps_compilable drv ses 8
              (fresh quietDriver (plainSession ""))
              (fst (compile (fresh quietDriver (plainSession ""))))
              (stateAfter compile (fresh quietDriver (plainSession ""))))
    as (_ & H); [side .. |].
  exact H.
Defined.

Lemma compileImpl_without_data_witness :
  hasNext drv ses 8 (stateAfter compile insertOne) =
    (Ok false, stateAfter compile insertOne) /\
  calls (stateAfter compile insertOne) = [].
Proof.
  destruct (compileImpl_without_data drv ses 8 insertOne
              (stateAfter compile insertOne))
    as (H1 & _ & _ & _ & _ & H2); [side .. |].
  split; [exact H2 | exact H1].
Defined.

Lemma compileImpl_with_extractions_witness :
  metaColumn ses 0 (stateAfter compile selectOne) =
    (Throw (IllegalStateException "currentDataSet index out of range"),
     stateAfter compile selectOne).
Proof.
  destruct (compileImpl_with_extractions drv ses 8 selectOne
              (fst (compile selectOne)) (stateAfter compile selectOne) 0%nat)
    as (_ & H); [side .. |].
  apply H. reflexivity.
Defined.

Lemma addPreparator_clones_master_witness :
  _preparations (stateAfter (addPreparator ses) oneRow) =
    [mkPreparator 0 "select a" 1024 DE_BOUND;
     mkPreparator 3 "select a" 1024 DE_BOUND].
Proof.
  destruct (addPreparator_clones_master ses oneRow
              (mkPreparator 0 "select a" 1024 DE_BOUND) []
              (fst (addPreparator ses oneRow)) (snd (addPreparator ses oneRow)))
    as (H & _); [side .. |].
  exact H.
Defined.

Lemma putData_pushes_each_request_witness :
  putData streamingDriver streamingSession 8 streaming =
    (Ok tt,
     set_calls
       [CallParamData; CallPutData 300; CallParamData; CallPutData 0;
        CallParamData]
       (set_driver [] streaming)) /\
  putData streamingDriver streamingSession 8 (set_pBinder None streaming) =
    (Throw (NullPointerException ""),
     set_calls [CallParamData]
       (set_driver [None] (set_pBinder None streaming))).
Proof.
  destruct (putData_pushes_each_request streamingDriver streamingSession 8 2
              streaming (mkBinder 2 1024 PB_AT_EXEC None "UTF-8" "UTF-8")
              [CallParamData; CallPutData 300; CallParamData; CallPutData 0;
               CallParamData] [])
    as ((H & _) & H');
    [lia | vm_compute; reflexivity | | split; [exact H |]].
  - apply (requests_more streamingDriver streamingSession tt 1 [Some 3%nat; None]
             (Some 3%nat) [None] SQL_SUCCESS [None]
             [CallParamData; CallPutData 0; CallParamData] SQL_SUCCESS []);
      [reflexivity | reflexivity | reflexivity |].
    apply (requests_more streamingDriver streamingSession tt 0 [None]
             None [] SQL_SUCCESS [] [CallParamData] SQL_SUCCESS []);
      [reflexivity | reflexivity | reflexivity |].
    apply (requests_done streamingDriver streamingSession tt [] SQL_SUCCESS None []);
      [reflexivity | discriminate].
  - apply (H' 3%nat [None]). reflexivity.
Defined.

Lemma bindImpl_stops_when_clear_fails_witness :
  exists s',
    bindImpl drv ses 8 stale =
      (Throw (StatementException
                "ODBCStatementImpl::putData():SQLFreeStmt(SQL_CLOSE)"), s') /\
    calls s' = [CallFreeStmt].
Proof.
  destruct (bindImpl_stops_when_clear_fails drv ses 8 stale)
    as (s' & H1 & H2 & _); [side |].
  exists s'. split; [exact H1 | exact H2].
Defined.

End MoreRuns.
